(** * Reservation engine of plataforma-virtud (Cloud Functions over Firestore)

    A shallow embedding of the three Firestore triggers of the functions
    module: [reservarActividad] (capacity admission of group reservations),
    [reservarTurno] (overlap admission of individual appointments) and
    [procesarSuspension] (cascading cancellation).

    Conventions.
    - A Firestore collection is a finite map from document ids to documents.
    - A document field that the code tests for presence is an [option];
      JavaScript truthiness ([x || d], [!x]) is written out by [o_si_no] and
      [presente].
    - The number fields hold whole numbers, as the data model declares them.
      The code computes with them as JavaScript numbers, which are IEEE
      doubles: a stored integer is read as the nearest double and every sum,
      difference and product is rounded the same way ([Doble]).
    - A trigger is a function of the store it runs against; it returns the
      reads it issued, the writes it issued, the store after those writes and
      whether the invocation ended in an unhandled rejection. *)

From Stdlib Require Import ZArith String DecimalString.
From stdpp Require Import gmap strings list fin_maps.

Open Scope Z_scope.

(** ** Firestore values and documents *)

Record Timestamp := mkTimestamp { seconds : Z; nanoseconds : Z }.

#[global] Instance Timestamp_eq_dec : EqDecision Timestamp.
Proof. solve_decision. Defined.

(** Order of Timestamp values in Firestore queries. *)
Definition ts_le (a b : Timestamp) : Prop :=
  seconds a < seconds b ∨ (seconds a = seconds b ∧ nanoseconds a ≤ nanoseconds b).

#[global] Instance ts_le_dec a b : Decision (ts_le a b).
Proof. unfold ts_le. apply _. Defined.

(** Documents of "actividades". *)
Record Actividad := {
  a_cupo : option Z;
  a_nombre : option string
}.

(** Documents of "reservas". *)
Record Reserva := {
  r_actividadId : option string;
  r_fechaActividad : option Timestamp;
  r_cupoTomado : option Z;
  r_estado : option string;
  r_motivoFalla : option string;
  r_motivoCancelacion : option string;
  r_fechaCancelacion : option Timestamp
}.

(** Documents of "terapias". *)
Record Terapia := {
  te_duracionMinutos : option Z;
  te_profesionalId : option string;
  te_nombre : option string
}.

(** Documents of "turnos". *)
Record Turno := {
  t_terapiaId : option string;
  t_fechaTurno : option Timestamp;
  t_usuarioId : option string;
  t_estado : option string;
  t_motivoFalla : option string;
  t_motivoCancelacion : option string;
  t_fechaCancelacion : option Timestamp
}.

(** Documents of "suspensiones".  [fechaInicio], [fechaFin] and [motivo] are
    read without a guard. *)
Record Suspension := {
  s_tipo : option string;
  s_actividadId : option string;
  s_profesorId : option string;
  s_fechaInicio : option Timestamp;
  s_fechaFin : option Timestamp;
  s_motivo : option string;
  s_afectaReservasExistentes : bool
}.

Record Store := {
  actividades : gmap string Actividad;
  reservas : gmap string Reserva;
  terapias : gmap string Terapia;
  turnos : gmap string Turno
}.

(** ** JavaScript idioms *)

(** [x || d] on a numeric field: absent and 0 are falsy. *)
Definition o_si_no (x : option Z) (d : Z) : Z :=
  match x with
  | Some 0 | None => d
  | Some n => n
  end.

(** Truthiness of a string field: absent and the empty string are falsy. *)
Definition presente (x : option string) : option string :=
  match x with
  | Some s => if bool_decide (s = EmptyString) then None else Some s
  | None => None
  end.

(** [${x}] in a template literal. *)
Definition plantilla (x : option string) : string := default "undefined" x.

Definition decimal (n : Z) : string := NilZero.string_of_int (Z.to_int n).

(** ** JavaScript numbers

    A JavaScript number is an IEEE double.  [Finito z] is the double whose
    value is the whole number [z] (the two zeros are not told apart: no
    operation of the triggers does). *)
Inductive Doble :=
| Finito (z : Z)
| Infinito (negativo : bool)
| NaN.

#[global] Instance Doble_eq_dec : EqDecision Doble.
Proof. solve_decision. Defined.

(** A double carries 53 significant bits; from 2^1024 on it is infinite. *)
Definition precision : Z := 53.

Definition desborde : Z := 2 ^ 1024.

(** The whole number nearest to [z] that has 53 significant bits, a tie
    going to the one whose last bit is 0. *)
Definition redondear (z : Z) : Z :=
  let bits := Z.log2 (Z.abs z) + 1 in
  if bits <=? precision then z
  else
    let e := bits - precision in
    let q := Z.abs z / 2 ^ e in
    let r := Z.abs z mod 2 ^ e in
    let mitad := 2 ^ (e - 1) in
    let q' := if (mitad <? r) || ((r =? mitad) && Z.odd q) then q + 1 else q in
    Z.sgn z * (q' * 2 ^ e).

(** [Number(z)]: the double nearest to the whole number [z]. *)
Definition aDoble (z : Z) : Doble :=
  let d := redondear z in
  if desborde <=? Z.abs d then Infinito (d <? 0) else Finito d.

Definition opuesto (x : Doble) : Doble :=
  match x with
  | Finito z => Finito (- z)
  | Infinito negativo => Infinito (negb negativo)
  | NaN => NaN
  end.

(** [x + y], [x - y], [x * y] and [x < y] on numbers. *)
Definition mas (x y : Doble) : Doble :=
  match x, y with
  | Finito a, Finito b => aDoble (a + b)
  | Infinito n, Infinito n' => if Bool.eqb n n' then Infinito n else NaN
  | Infinito n, Finito _ | Finito _, Infinito n => Infinito n
  | NaN, _ | _, NaN => NaN
  end.

Definition menos (x y : Doble) : Doble := mas x (opuesto y).

Definition por (x y : Doble) : Doble :=
  match x, y with
  | Finito a, Finito b => aDoble (a * b)
  | Infinito n, Finito b | Finito b, Infinito n =>
      if b =? 0 then NaN else Infinito (xorb n (b <? 0))
  | Infinito n, Infinito n' => Infinito (xorb n n')
  | NaN, _ | _, NaN => NaN
  end.

Definition menor (x y : Doble) : bool :=
  match x, y with
  | Finito a, Finito b => a <? b
  | Finito _, Infinito n => negb n
  | Infinito n, Finito _ => n
  | Infinito n, Infinito n' => n && negb n'
  | NaN, _ | _, NaN => false
  end.

(** [x || d] on a numeric field, as the number the code computes with: the
    field read as a double, [d] when it is absent or 0. *)
Definition numero (x : option Z) (d : Z) : Doble := aDoble (o_si_no x d).

(** [new admin.firestore.Timestamp(seconds, nanoseconds)]: the constructor
    throws unless [seconds] is a whole number from 0001-01-01 to 9999-12-31
    and [nanoseconds] one from 0 to 999999999. *)
Definition MIN_SECONDS : Z := -62135596800.

Definition MAX_SECONDS : Z := 253402300799.

Definition nuevoTimestamp (seconds : Doble) (nanoseconds : Z) : option Timestamp :=
  match seconds with
  | Finito z =>
      if bool_decide (MIN_SECONDS ≤ z ≤ MAX_SECONDS ∧ 0 ≤ nanoseconds ≤ 999999999)
      then Some (mkTimestamp z nanoseconds) else None
  | Infinito _ | NaN => None
  end.

(** ** Errors, reads and writes *)

Inductive Codigo := NotFound | FailedPrecondition | ResourceExhausted | AlreadyExists.

(** What a transaction can throw: an [HttpsError] with its code and message,
    or any other error (a TypeError, an invalid argument, a failure of the
    store). *)
Inductive Excepcion :=
| HttpsError (code : Codigo) (message : string)
| OtroError.

Inductive Lectura :=
| LeerActividad (id : string)
| LeerTerapia (id : string)
| ConsultarReservas
| ConsultarTerapias
| ConsultarTurnos.

(** The two collections the triggers write to. *)
Inductive Registro := Reservas | Turnos.

(** The payload of [update]: the fields it sets.  [FieldValue.serverTimestamp()]
    is carried as the time the server assigns at commit. *)
Record Parche := {
  p_estado : option string;
  p_motivoFalla : option string;
  p_motivoCancelacion : option string;
  p_fechaCancelacion : option Timestamp
}.

Inductive Escritura :=
| Borrar (c : Registro) (id : string)
| Actualizar (c : Registro) (id : string) (p : Parche).

Definition o_sobre {A} (nuevo viejo : option A) : option A :=
  match nuevo with Some _ => nuevo | None => viejo end.

Definition parchearReserva (p : Parche) (r : Reserva) : Reserva :=
  {| r_actividadId := r_actividadId r;
     r_fechaActividad := r_fechaActividad r;
     r_cupoTomado := r_cupoTomado r;
     r_estado := o_sobre (p_estado p) (r_estado r);
     r_motivoFalla := o_sobre (p_motivoFalla p) (r_motivoFalla r);
     r_motivoCancelacion := o_sobre (p_motivoCancelacion p) (r_motivoCancelacion r);
     r_fechaCancelacion := o_sobre (p_fechaCancelacion p) (r_fechaCancelacion r) |}.

Definition parchearTurno (p : Parche) (t : Turno) : Turno :=
  {| t_terapiaId := t_terapiaId t;
     t_fechaTurno := t_fechaTurno t;
     t_usuarioId := t_usuarioId t;
     t_estado := o_sobre (p_estado p) (t_estado t);
     t_motivoFalla := o_sobre (p_motivoFalla p) (t_motivoFalla t);
     t_motivoCancelacion := o_sobre (p_motivoCancelacion p) (t_motivoCancelacion t);
     t_fechaCancelacion := o_sobre (p_fechaCancelacion p) (t_fechaCancelacion t) |}.

Definition conReservas (s : Store) (m : gmap string Reserva) : Store :=
  {| actividades := actividades s; reservas := m;
     terapias := terapias s; turnos := turnos s |}.

Definition conTurnos (s : Store) (m : gmap string Turno) : Store :=
  {| actividades := actividades s; reservas := reservas s;
     terapias := terapias s; turnos := m |}.

(** One write against the store.  [delete] of a missing document is a no-op;
    [update] of a missing document changes nothing (Firestore rejects it). *)
Definition aplicar (s : Store) (w : Escritura) : Store :=
  match w with
  | Borrar Reservas id => conReservas s (delete id (reservas s))
  | Borrar Turnos id => conTurnos s (delete id (turnos s))
  | Actualizar Reservas id p => conReservas s (alter (parchearReserva p) id (reservas s))
  | Actualizar Turnos id p => conTurnos s (alter (parchearTurno p) id (turnos s))
  end.

(** Whether a write is accepted: [update] needs the document to exist. *)
Definition aceptada (s : Store) (w : Escritura) : bool :=
  match w with
  | Borrar _ _ => true
  | Actualizar Reservas id _ => bool_decide (is_Some (reservas s !! id))
  | Actualizar Turnos id _ => bool_decide (is_Some (turnos s !! id))
  end.

(** [batch.commit()]: all the writes or none. *)
Definition commit (s : Store) (ws : list Escritura) : option Store :=
  if forallb (aceptada s) ws then Some (foldl aplicar s ws) else None.

Record Resultado := {
  lecturas : list Lectura;
  escrituras : list Escritura;
  almacen : Store;
  rechazo : bool
}.

(** ** Query results and their order *)

Fixpoint insertar {A} (leb : A → A → bool) (x : A) (l : list A) : list A :=
  match l with
  | [] => [x]
  | y :: l' => if leb x y then x :: l else y :: insertar leb x l'
  end.

Definition ordenar {A} (leb : A → A → bool) (l : list A) : list A :=
  foldr (insertar leb) [] l.

(** Without a range filter, results come by document id. *)
Definition porId {A} (x y : string * A) : bool := String.leb x.1 y.1.

(** With a range filter on a timestamp field, results come by that field and
    then by document id. *)
Definition porFecha {A} (campo : A → option Timestamp) (x y : string * A) : bool :=
  match campo x.2, campo y.2 with
  | Some a, Some b =>
      if bool_decide (a = b) then String.leb x.1 y.1 else bool_decide (ts_le a b)
  | None, _ => true
  | Some _, None => false
  end.

Definition consulta {A} (leb : string * A → string * A → bool)
    (donde : A → Prop) `{!∀ d, Decision (donde d)} (col : gmap string A)
    : list (string * A) :=
  ordenar leb (map_to_list (filter (λ kv, donde kv.2) col)).

(** Filters on optional fields: a document without the field never matches. *)
Definition enVentana (desde hasta : Timestamp) (campo : option Timestamp) : Prop :=
  match campo with
  | Some f => ts_le desde f ∧ ts_le f hasta
  | None => False
  end.

#[global] Instance enVentana_dec desde hasta campo : Decision (enVentana desde hasta campo).
Proof. destruct campo; simpl; apply _. Defined.

Definition hasta (fin : Timestamp) (campo : option Timestamp) : Prop :=
  match campo with
  | Some f => ts_le f fin
  | None => False
  end.

#[global] Instance hasta_dec fin campo : Decision (hasta fin campo).
Proof. destruct campo; simpl; apply _. Defined.

(** The optional [where] on an id field that [procesarSuspension] adds to
    its queries: none, [==] or [in]. *)
Inductive Filtro :=
| Todos
| Igual (id : string)
| En (ids : list string).

Definition cumple (f : Filtro) (campo : option string) : Prop :=
  match f with
  | Todos => True
  | Igual id => campo = Some id
  | En ids => match campo with Some x => x ∈ ids | None => False end
  end.

#[global] Instance cumple_dec f campo : Decision (cumple f campo).
Proof. destruct f as [| |ids]; simpl; [apply _ .. |]. destruct campo; apply _. Defined.

(** ** Transactions

    A transaction body reads the store, logs its reads and either returns or
    throws. *)

Definition Tx (A : Type) : Type := Store → list Lectura * (Excepcion + A).

Definition tx_ret {A} (a : A) : Tx A := λ _, ([], inr a).

Definition tx_bind {A B} (m : Tx A) (k : A → Tx B) : Tx B := λ s,
  match m s with
  | (l, inl e) => (l, inl e)
  | (l, inr a) => let '(l', r) := k a s in (l ++ l', r)
  end.

Definition throw {A} (e : Excepcion) : Tx A := λ _, ([], inl e).

Notation "'let*' x := m 'in' k" := (tx_bind m (λ x, k))
  (at level 10, x name, m at level 100, k at level 200).

Definition getActividad (id : string) : Tx (option Actividad) :=
  λ s, ([LeerActividad id], inr (actividades s !! id)).

Definition getTerapia (id : string) : Tx (option Terapia) :=
  λ s, ([LeerTerapia id], inr (terapias s !! id)).

Definition getReservas (leb : string * Reserva → string * Reserva → bool)
    (donde : Reserva → Prop) `{!∀ d, Decision (donde d)} : Tx (list (string * Reserva)) :=
  λ s, ([ConsultarReservas], inr (consulta leb donde (reservas s))).

Definition getTurnos (leb : string * Turno → string * Turno → bool)
    (donde : Turno → Prop) `{!∀ d, Decision (donde d)} : Tx (list (string * Turno)) :=
  λ s, ([ConsultarTurnos], inr (consulta leb donde (turnos s))).

(** [db.runTransaction]: an error thrown by the body rejects with that error;
    otherwise the store commits, or gives up ([commitFalla]) and rejects with
    an error of its own. *)
Definition runTransaction (commitFalla : bool) (body : Tx unit) : Tx unit :=
  let* _ := body in
  if commitFalla then throw OtroError else tx_ret tt.

(** The [catch] block of both admission triggers. *)
Definition motivoDe (error : Excepcion) : string :=
  match error with
  | HttpsError _ message => message
  | OtroError => "Error interno del servidor."
  end.

Definition fallida (motivoFalla : string) : Parche :=
  {| p_estado := Some "fallida"; p_motivoFalla := Some motivoFalla;
     p_motivoCancelacion := None; p_fechaCancelacion := None |}.

(** [snapshot.ref.update(...)] / [snapshot.ref.delete()] outside a transaction. *)
Definition escribir (lect : list Lectura) (s : Store) (w : Escritura) : Resultado :=
  {| lecturas := lect; escrituras := [w];
     almacen := aplicar s w; rechazo := negb (aceptada s w) |}.

Definition sinEscritura (lect : list Lectura) (s : Store) : Resultado :=
  {| lecturas := lect; escrituras := []; almacen := s; rechazo := false |}.

(** ** The middleware of the web application *)

Inductive Respuesta :=
| Redirect (pathname : string)
| Next.

(** What reading the cookie "session" gives: its value, if the cookie is
    set, or an exception. *)
Inductive Cookie :=
| CookieFalla
| CookieLeida (value : option string).

Definition publicPaths : list string :=
  ["/login"; "/register"; "/"; "/error"; "/forgot-password"].

Definition middleware (pathname : string) (cookie : Cookie) : Respuesta :=
  match cookie with
  | CookieFalla => Redirect "/error"
  | CookieLeida value =>
      let sessionToken := presente value in
      if negb (bool_decide (is_Some sessionToken))
         && negb (bool_decide (pathname ∈ publicPaths))
      then Redirect "/login"
      else if bool_decide (is_Some sessionToken)
              && (bool_decide (pathname = "/login")
                  || bool_decide (pathname = "/register")
                  || bool_decide (pathname = "/"))
      then Redirect "/dashboard"
      else Next
  end.

(** ** The analytics service *)

(** Values of the parameters of an event. *)
Inductive Valor :=
| Indefinido
| Nulo
| Texto (s : string)
| Numero (n : Z)
| Logico (b : bool)
| Lista (l : list string)
| Marca (t : Timestamp).

Record Evento := {
  eventName : string;
  eventParams : option (gmap string Valor)
}.

(** [logEvent] gives the events that reach Firebase Analytics: none without
    an analytics instance (server side), none when [firebaseLogEvent] throws
    ([falla]), the error being caught. *)
Definition logEvent (analytics falla : bool) (name : string)
    (params : option (gmap string Valor)) : list Evento :=
  if negb analytics then []
  else if falla then []
  else [ {| eventName := name; eventParams := params |} ].

(** The [error] argument of [logError]: an [Error], or any other value with
    what [String(error)] makes of it. *)
Inductive ErrorJS :=
| EsError (message : string) (stack : option string)
| NoError (comoTexto : string).

Definition o_texto (x : option string) : Valor :=
  match x with Some s => Texto s | None => Indefinido end.

(** The object literal of [logError]: later keys win, the spread of
    [additionalData] in between. *)
Definition errorData (error : ErrorJS) (context : option string)
    (additionalData : option (gmap string Valor)) (ahoraISO : string)
    : gmap string Valor :=
  <["timestamp" := Texto ahoraISO]>
    (default ∅ additionalData
     ∪ {[ "message" := Texto (match error with
                              | EsError message _ => message
                              | NoError comoTexto => comoTexto
                              end);
          "stack" := match error with
                     | EsError _ stack => o_texto stack
                     | NoError _ => Indefinido
                     end;
          "context" := o_texto context ]}).

Definition logError (produccion analytics falla : bool) (ahoraISO : string)
    (error : ErrorJS) (context : option string)
    (additionalData : option (gmap string Valor)) : list Evento :=
  if produccion
  then logEvent analytics falla "error_occurred"
         (Some (errorData error context additionalData ahoraISO))
  else [].

(** ** Authentication and the user documents *)

(** A user of Firebase Authentication; [u_providerData] lists the providerId
    of each linked provider. *)
Record User := {
  u_uid : string;
  u_email : option string;
  u_displayName : option string;
  u_providerData : list string
}.

(** The errors that the Firebase calls throw. *)
Record AuthError := {
  e_code : string;
  e_message : string;
  e_stack : option string
}.

Record AuthResponse := {
  a_success : bool;
  a_user : option User;
  a_firestoreUser : option (gmap string Valor);
  a_error : option string;
  a_code : option string;
  a_provider : option string
}.

Definition errorMessages : gmap string string :=
  list_to_map
    [ ("auth/invalid-email", "Email inválido");
      ("auth/user-disabled", "Cuenta deshabilitada");
      ("auth/user-not-found", "Usuario no registrado");
      ("auth/wrong-password", "Credenciales incorrectas");
      ("auth/email-already-in-use", "El email ya está registrado");
      ("auth/operation-not-allowed", "Método no permitido");
      ("auth/weak-password", "La contraseña debe tener al menos 6 caracteres");
      ("auth/too-many-requests", "Demasiados intentos. Intente más tarde");
      ("auth/network-request-failed", "Error de conexión");
      ("auth/popup-closed-by-user", "El popup de autenticación fue cerrado");
      ("auth/cancelled-popup-request", "Solicitud de autenticación cancelada") ].

(** What the functions of the module depend on besides their arguments:
    the runtime of the analytics service, the clocks, and the message and
    stack of the error that Firestore throws when [updateDoc] finds no
    document. *)
Record Entorno := {
  produccion : bool;
  analytics : bool;
  fallaAnalytics : bool;
  ahoraISO : string;
  ahora : Timestamp;
  sinDocumento : string;
  pilaSinDocumento : option string
}.

(** What a function of the module leaves: its response, the collection
    "usuarios" (a document is a map from field paths to values) and the
    events that reached the analytics service. *)
Record Salida := {
  respuesta : AuthResponse;
  usuarios : gmap string (gmap string Valor);
  eventos : list Evento
}.

Definition handleAuthError (env : Entorno) (error : AuthError) (context : string)
    : AuthResponse * list Evento :=
  let message :=
    match presente (errorMessages !! e_code error) with
    | Some m => m
    | None => e_message error
    end in
  ({| a_success := false; a_user := None; a_firestoreUser := None;
      a_error := Some message; a_code := Some (e_code error); a_provider := None |},
   logError (produccion env) (analytics env) (fallaAnalytics env) (ahoraISO env)
     (EsError (e_message error) (e_stack error)) (Some context) None).

(** The character '@'. *)
Definition arroba : Ascii.ascii := Ascii.ascii_of_nat 64.

(** [s.split(c)[0]] *)
Fixpoint antesDe (c : Ascii.ascii) (s : string) : string :=
  match s with
  | EmptyString => EmptyString
  | String a s' => if Ascii.eqb a c then EmptyString else String a (antesDe c s')
  end.

Record InitialData := {
  i_nombre : option string;
  i_telefono : option string;
  i_edad : option Z;
  i_tipo : option string;
  i_responsableDePago : option string;
  i_usuariosACargo : option (list string)
}.

Definition soloTipo (tipo : string) : InitialData :=
  {| i_nombre := None; i_telefono := None; i_edad := None; i_tipo := Some tipo;
     i_responsableDePago := None; i_usuariosACargo := None |}.

(** [a || b] on strings. *)
Definition o_bien (a b : option string) : option string :=
  match presente a with Some s => Some s | None => b end.

(** The fields that [createUserDocument] sets for a new user. *)
Definition documentoNuevo (env : Entorno) (user : User) (initialData : option InitialData)
    : gmap string Valor :=
  list_to_map
    [ ("dni", Texto "");
      ("nombre",
       Texto (default ""
                (o_bien (initialData ≫= i_nombre)
                   (o_bien (u_displayName user)
                      (presente (antesDe arroba <$> u_email user))))));
      ("telefono", Texto (default "" (presente (initialData ≫= i_telefono))));
      ("fechaNacimiento", Nulo);
      ("tipo", Texto (default "socio" (presente (initialData ≫= i_tipo))));
      ("email", Texto (default "" (presente (u_email user))));
      ("uid", Texto (u_uid user));
      ("metadata.fechaCreacion", Marca (ahora env));
      ("metadata.ultimoAcceso", Marca (ahora env));
      ("metadata.dispositivo", Texto "web");
      ("responsableDePago",
       match presente (initialData ≫= i_responsableDePago) with
       | Some r => Texto r
       | None => Nulo
       end);
      ("usuariosACargo", Lista (default [] (initialData ≫= i_usuariosACargo))) ].

(** [createUserDocument]: [setDoc] with merge for a new user, [updateDoc] of
    the last access otherwise, which throws when the document does not
    exist; then the document is read back. *)
Definition createUserDocument (env : Entorno) (us : gmap string (gmap string Valor))
    (user : User) (isNewUser : bool) (initialData : option InitialData)
    : AuthError + (gmap string (gmap string Valor) * option (gmap string Valor)
                   * list Evento) :=
  if isNewUser then
    let us' := <[u_uid user := documentoNuevo env user initialData
                               ∪ default ∅ (us !! u_uid user)]> us in
    let firestoreUserDoc := us' !! u_uid user in
    inr (us', firestoreUserDoc,
         logEvent (analytics env) (fallaAnalytics env) "firestore_user_created"
           (Some {[ "uid" := Texto (u_uid user);
                    "type" := default Indefinido (firestoreUserDoc ≫= (.!! "tipo")) ]}))
  else
    match us !! u_uid user with
    | None =>
        inl {| e_code := "not-found"; e_message := sinDocumento env;
               e_stack := pilaSinDocumento env |}
    | Some d =>
        let us' := <[u_uid user := <["metadata.ultimoAcceso" := Marca (ahora env)]> d]> us in
        inr (us', us' !! u_uid user, [])
    end.

Definition fallo (env : Entorno) (us : gmap string (gmap string Valor))
    (previos : list Evento) (error : AuthError) (context : string) : Salida :=
  let '(r, evs) := handleAuthError env error context in
  {| respuesta := r; usuarios := us; eventos := previos ++ evs |}.

Definition exito (user : User) (firestoreUser : option (gmap string Valor))
    (provider : string) : AuthResponse :=
  {| a_success := true; a_user := Some user; a_firestoreUser := firestoreUser;
     a_error := None; a_code := None; a_provider := Some provider |}.

Definition loginParams (method email provider : string) : gmap string Valor :=
  {[ "method" := Texto method; "email" := Texto email; "provider" := Texto provider ]}.

(** [popup] is what [signInWithPopup] gives. *)
Definition signInWithGoogle (env : Entorno) (us : gmap string (gmap string Valor))
    (popup : AuthError + User) : Salida :=
  match popup with
  | inl error => fallo env us [] error "google_signin"
  | inr user =>
      let email := default "unknown" (presente (u_email user)) in
      let providerId := default "google" (presente (head (u_providerData user))) in
      let isNewUser := bool_decide (us !! u_uid user = None) in
      match createUserDocument env us user isNewUser (Some (soloTipo "socio")) with
      | inl error => fallo env us [] error "google_signin"
      | inr (us', firestoreUser, evs) =>
          {| respuesta := exito user firestoreUser providerId; usuarios := us';
             eventos := evs ++ logEvent (analytics env) (fallaAnalytics env) "login"
                                (Some (loginParams "google" email providerId)) |}
      end
  end.

(** [credencial] is what [signInWithEmailAndPassword] gives. *)
Definition signInWithEmail (env : Entorno) (us : gmap string (gmap string Valor))
    (credencial : AuthError + User) (email : string) : Salida :=
  match credencial with
  | inl error => fallo env us [] error "email_signin"
  | inr user =>
      match createUserDocument env us user false None with
      | inl error => fallo env us [] error "email_signin"
      | inr (us', firestoreUser, evs) =>
          {| respuesta := exito user firestoreUser "email"; usuarios := us';
             eventos := evs ++ logEvent (analytics env) (fallaAnalytics env) "login"
                                (Some (loginParams "email" email "password")) |}
      end
  end.

(** [credencial] is what [createUserWithEmailAndPassword] gives. *)
Definition createUser (env : Entorno) (us : gmap string (gmap string Valor))
    (credencial : AuthError + User) (email nombre telefono : string) (edad : Z) : Salida :=
  match credencial with
  | inl error => fallo env us [] error "email_signup"
  | inr user =>
      match createUserDocument env us user true
              (Some {| i_nombre := Some nombre; i_telefono := Some telefono;
                       i_edad := Some edad; i_tipo := Some "socio";
                       i_responsableDePago := None; i_usuariosACargo := None |}) with
      | inl error => fallo env us [] error "email_signup"
      | inr (us', firestoreUser, evs) =>
          {| respuesta := exito user firestoreUser "email"; usuarios := us';
             eventos := evs ++ logEvent (analytics env) (fallaAnalytics env) "signup"
                                (Some (loginParams "email" email "password")) |}
      end
  end.

(** The states that the admission queries take into account
    ([where("estado", "in", [...])]). *)
Definition activa (r : Reserva) : Prop :=
  r_estado r = Some "confirmada" ∨ r_estado r = Some "pendiente".

#[global] Instance activa_dec r : Decision (activa r).
Proof. unfold activa. apply _. Defined.

Definition vigente (t : Turno) : Prop :=
  t_estado t = Some "confirmado" ∨ t_estado t = Some "pendiente".

#[global] Instance vigente_dec t : Decision (vigente t).
Proof. unfold vigente. apply _. Defined.

Section Funciones.

(** [Date.prototype.toLocaleString] of [Timestamp.toDate()] depends on the
    locale of the runtime. *)
Variable toLocaleString : Timestamp → string.

(** [Number.prototype.toString] of a finite whole number past 2^53: the
    shortest digits that read back as the same double, in exponent notation
    from 10^21 on. *)
Variable numberToString : Z → string.

(** Largest value array Firestore accepts in an [in] filter. *)
Variable limiteIn : nat.

(** [${x}] of a number in a template literal. *)
Definition mostrar (x : Doble) : string :=
  match x with
  | Finito z => if bool_decide (Z.abs z ≤ 2 ^ precision) then decimal z
                else numberToString z
  | Infinito false => "Infinity"
  | Infinito true => "-Infinity"
  | NaN => "NaN"
  end.

(** ** reservarActividad *)

Definition sinCupo (actividadData : Actividad) (fechaActividad : Timestamp)
    (cupoDisponible : Doble) : string :=
  "No hay cupos disponibles para la actividad " +:+ plantilla (a_nombre actividadData)
  +:+ " el " +:+ toLocaleString fechaActividad
  +:+ ". Cupo actual: " +:+ mostrar cupoDisponible +:+ ".".

Definition transaccionReserva (snapshotId actividadId : string)
    (fechaActividad : Timestamp) (cupoTomado : Doble) : Tx unit :=
  let* actividadDoc := getActividad actividadId in
  match actividadDoc with
  | None =>
      throw (HttpsError NotFound
               ("La actividad con ID " +:+ actividadId +:+ " no existe."))
  | Some actividadData =>
      let cupoMaximo := numero (a_cupo actividadData) 0 in
      let* reservasSnapshot :=
        getReservas porId (λ d, r_actividadId d = Some actividadId
                                ∧ r_fechaActividad d = Some fechaActividad
                                ∧ activa d) in
      let cupoOcupado :=
        fold_left (λ acc (doc : string * Reserva),
                     if bool_decide (doc.1 ≠ snapshotId)
                     then mas acc (numero (r_cupoTomado doc.2) 1) else acc)
                  reservasSnapshot (Finito 0) in
      let cupoDisponible := menos cupoMaximo cupoOcupado in
      if menor cupoDisponible cupoTomado
      then throw (HttpsError ResourceExhausted
                    (sinCupo actividadData fechaActividad cupoDisponible))
      else tx_ret tt
  end.

Definition reservarActividad (commitFalla : bool) (s : Store)
    (snapshot : option (string * Reserva)) : Resultado :=
  match snapshot with
  | None => sinEscritura [] s
  | Some (id, nuevaReserva) =>
      let cupoTomado := numero (r_cupoTomado nuevaReserva) 1 in
      match presente (r_actividadId nuevaReserva), r_fechaActividad nuevaReserva with
      | Some actividadId, Some fechaActividad =>
          match runTransaction commitFalla
                  (transaccionReserva id actividadId fechaActividad cupoTomado) s with
          | (lect, inr _) => sinEscritura lect s
          | (lect, inl error) =>
              escribir lect s (Actualizar Reservas id (fallida (motivoDe error)))
          end
      | _, _ => escribir [] s (Borrar Reservas id)
      end
  end.

(** ** reservarTurno *)

(** [start.seconds + duracion * 60], the seconds given to the constructor of
    the end of an appointment. *)
Definition segundosFin (start : Timestamp) (duracion : Doble) : Doble :=
  mas (aDoble (seconds start)) (por duracion (Finito 60)).

(** The [for ... of] loop over [solapamientosSnapshot.docs]; [true] is the
    [break] with [solapamientoEncontrado] set.  [doc()] rejects a path that is
    not a non-empty string, and the constructor of [existingFinTurno] an end
    out of range. *)
Fixpoint buscarSolapamiento (snapshotId profesionalId : string)
    (fechaTurno finTurnoActual : Timestamp) (docs : list (string * Turno)) : Tx bool :=
  match docs with
  | [] => tx_ret false
  | (id, existingTurno) :: resto =>
      if bool_decide (id = snapshotId)
      then buscarSolapamiento snapshotId profesionalId fechaTurno finTurnoActual resto
      else
        match presente (t_terapiaId existingTurno) with
        | None => throw OtroError
        | Some existingTerapiaId =>
            let* existingTerapiaDoc := getTerapia existingTerapiaId in
            let existingDuracion :=
              numero (existingTerapiaDoc ≫= te_duracionMinutos) 0 in
            if bool_decide (existingTerapiaDoc ≫= te_profesionalId ≠ Some profesionalId)
            then buscarSolapamiento snapshotId profesionalId fechaTurno finTurnoActual resto
            else
              match t_fechaTurno existingTurno with
              | None => throw OtroError
              | Some existingFechaTurno =>
                  match nuevoTimestamp (segundosFin existingFechaTurno existingDuracion)
                                       (nanoseconds existingFechaTurno) with
                  | None => throw OtroError
                  | Some existingFinTurno =>
                      if bool_decide (seconds fechaTurno < seconds existingFinTurno)
                         && bool_decide (seconds finTurnoActual
                                         > seconds existingFechaTurno)
                      then tx_ret true
                      else buscarSolapamiento snapshotId profesionalId
                             fechaTurno finTurnoActual resto
                  end
              end
        end
  end.

Definition transaccionTurno (snapshotId terapiaId : string) (fechaTurno : Timestamp)
    : Tx unit :=
  let* terapiaDoc := getTerapia terapiaId in
  match terapiaDoc with
  | None =>
      throw (HttpsError NotFound
               ("La terapia con ID " +:+ terapiaId +:+ " no existe."))
  | Some terapiaData =>
      let duracionTerapia := numero (te_duracionMinutos terapiaData) 0 in
      match presente (te_profesionalId terapiaData) with
      | None =>
          throw (HttpsError FailedPrecondition
                   ("La terapia " +:+ plantilla (te_nombre terapiaData)
                    +:+ " no tiene un profesional asignado."))
      | Some profesionalId =>
          match nuevoTimestamp (segundosFin fechaTurno duracionTerapia)
                               (nanoseconds fechaTurno) with
          | None => throw OtroError
          | Some finTurnoActual =>
              let* solapamientosSnapshot :=
                getTurnos (porFecha t_fechaTurno)
                          (λ d, vigente d ∧ hasta finTurnoActual (t_fechaTurno d)) in
              let* solapamientoEncontrado :=
                buscarSolapamiento snapshotId profesionalId fechaTurno finTurnoActual
                                   solapamientosSnapshot in
              if (solapamientoEncontrado : bool)
              then throw (HttpsError AlreadyExists
                     "El terapeuta ya tiene un turno reservado para esa franja horaria.")
              else tx_ret tt
          end
      end
  end.

Definition reservarTurno (commitFalla : bool) (s : Store)
    (snapshot : option (string * Turno)) : Resultado :=
  match snapshot with
  | None => sinEscritura [] s
  | Some (id, nuevoTurno) =>
      match presente (t_terapiaId nuevoTurno), t_fechaTurno nuevoTurno,
            presente (t_usuarioId nuevoTurno) with
      | Some terapiaId, Some fechaTurno, Some _ =>
          match runTransaction commitFalla
                  (transaccionTurno id terapiaId fechaTurno) s with
          | (lect, inr _) => sinEscritura lect s
          | (lect, inl error) =>
              escribir lect s (Actualizar Turnos id (fallida (motivoDe error)))
          end
      | _, _, _ => escribir [] s (Borrar Turnos id)
      end
  end.

(** ** procesarSuspension *)

Definition cancelado (motivo : string) (ahora : Timestamp) : Parche :=
  {| p_estado := Some "cancelado_por_admin"; p_motivoFalla := None;
     p_motivoCancelacion := Some motivo; p_fechaCancelacion := Some ahora |}.

(** How [turnosQuery] ends up: a query with its extra filter, the early
    [return null] when the practitioner has no therapies, or a value array
    that the [in] filter refuses (the query is issued and comes back
    rejected). *)
Inductive Seleccion :=
| Consultar (f : Filtro)
| Salir
| Invalida.

Definition filtroReservas (susp : Suspension) : Filtro :=
  if bool_decide (s_tipo susp = Some "actividad")
  then match presente (s_actividadId susp) with
       | Some actividadId => Igual actividadId
       | None => Todos
       end
  else Todos.

Definition filtroTurnos (susp : Suspension) (s : Store) : list Lectura * Seleccion :=
  match (if bool_decide (s_tipo susp = Some "profesor")
         then presente (s_profesorId susp) else None) with
  | Some profesorId =>
      let terapiasDeProfesor :=
        consulta porId (λ t, te_profesionalId t = Some profesorId) (terapias s) in
      let terapiaIdsAfectadas := terapiasDeProfesor.*1 in
      ([ConsultarTerapias],
       if bool_decide (0 < length terapiaIdsAfectadas)%nat
       then if bool_decide (length terapiaIdsAfectadas ≤ limiteIn)%nat
            then Consultar (En terapiaIdsAfectadas) else Invalida
       else Salir)
  | None =>
      ([], match (if bool_decide (s_tipo susp = Some "actividad")
                  then presente (s_actividadId susp) else None) with
           | Some actividadId => Consultar (Igual actividadId)
           | None => Consultar Todos
           end)
  end.

(** The [where] clauses of [reservasQuery] and [turnosQuery]. *)
Definition reservasQuery (fechaInicio fechaFin : Timestamp) (filtro : Filtro)
    (d : Reserva) : Prop :=
  enVentana fechaInicio fechaFin (r_fechaActividad d)
  ∧ r_estado d = Some "confirmada"
  ∧ cumple filtro (r_actividadId d).

#[local] Instance reservasQuery_dec fi ff filtro d :
  Decision (reservasQuery fi ff filtro d).
Proof. unfold reservasQuery. apply _. Defined.

Definition turnosQuery (fechaInicio fechaFin : Timestamp) (filtro : Filtro)
    (d : Turno) : Prop :=
  enVentana fechaInicio fechaFin (t_fechaTurno d)
  ∧ t_estado d = Some "confirmado"
  ∧ cumple filtro (t_terapiaId d).

#[local] Instance turnosQuery_dec fi ff filtro d :
  Decision (turnosQuery fi ff filtro d).
Proof. unfold turnosQuery. apply _. Defined.

(** [snapshot.forEach(doc => batch.update(doc.ref, {estado, motivoCancelacion:
    motivo, fechaCancelacion}))]: the updates of the batch, one for each
    document.  [update] refuses a field that is [undefined], so without a
    [motivo] the first document throws (and an empty snapshot gives the empty
    batch). *)
Definition lote {A} (c : Registro) (motivo : option string) (ahora : Timestamp)
    (docs : list (string * A)) : option (list Escritura) :=
  match docs, motivo with
  | [], _ => Some []
  | _ :: _, Some motivo =>
      Some ((λ doc : string * A, Actualizar c doc.1 (cancelado motivo ahora)) <$> docs)
  | _ :: _, None => None
  end.

Definition procesarSuspension (ahoraReservas ahoraTurnos : Timestamp) (s : Store)
    (despues : option Suspension) : Resultado :=
  match despues with
  | None => sinEscritura [] s
  | Some suspensionDespues =>
      if negb (s_afectaReservasExistentes suspensionDespues) then sinEscritura [] s
      else
        match s_fechaInicio suspensionDespues, s_fechaFin suspensionDespues with
        | Some fechaInicio, Some fechaFin =>
            let motivo := s_motivo suspensionDespues in
            let reservasSnapshot :=
              consulta (porFecha r_fechaActividad)
                (reservasQuery fechaInicio fechaFin (filtroReservas suspensionDespues))
                (reservas s) in
            match lote Reservas motivo ahoraReservas reservasSnapshot with
            | None =>
                {| lecturas := [ConsultarReservas]; escrituras := [];
                   almacen := s; rechazo := true |}
            | Some batchReservas =>
                match commit s batchReservas with
                | None =>
                    {| lecturas := [ConsultarReservas]; escrituras := batchReservas;
                       almacen := s; rechazo := true |}
                | Some s1 =>
                    let '(lect, seleccion) := filtroTurnos suspensionDespues s1 in
                    match seleccion with
                    | Invalida =>
                        {| lecturas := ConsultarReservas :: lect ++ [ConsultarTurnos];
                           escrituras := batchReservas; almacen := s1;
                           rechazo := true |}
                    | Salir =>
                        {| lecturas := ConsultarReservas :: lect;
                           escrituras := batchReservas; almacen := s1;
                           rechazo := false |}
                    | Consultar filtro =>
                        let turnosSnapshot :=
                          consulta (porFecha t_fechaTurno)
                            (turnosQuery fechaInicio fechaFin filtro) (turnos s1) in
                        match lote Turnos motivo ahoraTurnos turnosSnapshot with
                        | None =>
                            {| lecturas :=
                                 ConsultarReservas :: lect ++ [ConsultarTurnos];
                               escrituras := batchReservas; almacen := s1;
                               rechazo := true |}
                        | Some batchTurnos =>
                            match commit s1 batchTurnos with
                            | None =>
                                {| lecturas :=
                                     ConsultarReservas :: lect ++ [ConsultarTurnos];
                                   escrituras := batchReservas ++ batchTurnos;
                                   almacen := s1; rechazo := true |}
                            | Some s2 =>
                                {| lecturas :=
                                     ConsultarReservas :: lect ++ [ConsultarTurnos];
                                   escrituras := batchReservas ++ batchTurnos;
                                   almacen := s2; rechazo := false |}
                            end
                        end
                    end
                end
            end
        | _, _ => {| lecturas := []; escrituras := []; almacen := s; rechazo := true |}
        end
  end.

(** ** Vocabulary of the specification *)

(** [seatsRequested], taken as 1 when absent or zero. *)
Definition seatsRequested (r : Reserva) : Z := o_si_no (r_cupoTomado r) 1.

(** [Activity.capacity], 0 when absent. *)
Definition capacity (a : Actividad) : Z := o_si_no (a_cupo a) 0.

Definition sumaZ (l : list Z) : Z := foldr Z.add 0 l.

(** [occupied]: the sum of seatsRequested over all the reservations with the
    same activity and time and status confirmed or pending, other than the
    one being admitted. *)
Definition occupied (s : Store) (rid actividadId : string) (fecha : Timestamp) : Z :=
  sumaZ (seatsRequested <$>
           (map_to_list
              (filter (λ kv : string * Reserva,
                         kv.1 ≠ rid ∧ r_actividadId kv.2 = Some actividadId
                         ∧ r_fechaActividad kv.2 = Some fecha ∧ activa kv.2)
                      (reservas s))).*2).

(** The same seats, each in absolute value. *)
Definition peso (s : Store) (rid actividadId : string) (fecha : Timestamp) : Z :=
  sumaZ ((λ r, Z.abs (seatsRequested r)) <$>
           (map_to_list
              (filter (λ kv : string * Reserva,
                         kv.1 ≠ rid ∧ r_actividadId kv.2 = Some actividadId
                         ∧ r_fechaActividad kv.2 = Some fecha ∧ activa kv.2)
                      (reservas s))).*2).

(** The numbers of an admission stay where doubles are exact: the cupo, the
    seats requested and the seats of the other reservations of the instance
    add up, in absolute value, to less than 2^53. *)
Definition exacto (s : Store) (rid actividadId : string) (fecha : Timestamp)
    (act : Actividad) (r : Reserva) : Prop :=
  Z.abs (capacity act) + peso s rid actividadId fecha + Z.abs (seatsRequested r)
  < 2 ^ precision.

(** [cupoOcupado] as the loop of [reservarActividad] leaves it. *)
Definition cupoOcupado (s : Store) (rid actividadId : string) (fecha : Timestamp)
    : Doble :=
  fold_left (λ acc (doc : string * Reserva),
               if bool_decide (doc.1 ≠ rid)
               then mas acc (numero (r_cupoTomado doc.2) 1) else acc)
            (consulta porId (λ d, r_actividadId d = Some actividadId
                                  ∧ r_fechaActividad d = Some fecha ∧ activa d)
                      (reservas s))
            (Finito 0).

(** Signs of numbers. *)
Definition noNegativo (x : Doble) : Prop :=
  match x with
  | Finito z => 0 ≤ z
  | Infinito negativo => negativo = false
  | NaN => False
  end.

Definition positivo (x : Doble) : Prop :=
  match x with
  | Finito z => 1 ≤ z
  | Infinito negativo => negativo = false
  | NaN => False
  end.

(** The admission statement of the specification, in exact arithmetic. *)
Definition capacity_spec (commitFalla : bool) (s : Store) (id : string) (r : Reserva)
    (actividadId : string) (fecha : Timestamp) (act : Actividad) : Prop :=
  actividades s !! actividadId = Some act →
  ((∃ m, (runTransaction commitFalla
            (transaccionReserva id actividadId fecha (aDoble (seatsRequested r))) s).2
         = inl (HttpsError ResourceExhausted m))
   ↔ capacity act - occupied s id actividadId fecha < seatsRequested r).

(** The statement of the specification on an activity without capacity:
    every request for at least one seat is refused. *)
Definition capacity_absent_spec (commitFalla : bool) (s : Store) (id : string)
    (r : Reserva) (actividadId : string) (fecha : Timestamp) (act : Actividad) : Prop :=
  actividades s !! actividadId = Some act →
  a_cupo act = None ∨ a_cupo act = Some 0 →
  1 ≤ seatsRequested r →
  ∃ m, (runTransaction commitFalla
          (transaccionReserva id actividadId fecha (aDoble (seatsRequested r))) s).2
       = inl (HttpsError ResourceExhausted m).

(** Strict order of timestamps. *)
Definition ts_lt (a b : Timestamp) : Prop :=
  seconds a < seconds b ∨ (seconds a = seconds b ∧ nanoseconds a < nanoseconds b).

(** Order of timestamps by their whole seconds, as [reservarTurno] compares. *)
Definition segundos_lt (a b : Timestamp) : Prop := seconds a < seconds b.

(** [endAt = startAt + Therapy.durationMinutes]. *)
Definition endAt (startAt : Timestamp) (durationMinutes : Z) : Timestamp :=
  mkTimestamp (seconds startAt + durationMinutes * 60) (nanoseconds startAt).

(** The therapy of an appointment, which gives its practitioner and its
    duration (0 when absent). *)
Definition terapiaDe (s : Store) (t : Turno) : option Terapia :=
  t_terapiaId t ≫= λ terapiaId, terapias s !! terapiaId.

Definition practitionerId (s : Store) (t : Turno) : option string :=
  terapiaDe s t ≫= te_profesionalId.

Definition durationMinutes (s : Store) (t : Turno) : Z :=
  o_si_no (terapiaDe s t ≫= te_duracionMinutos) 0.

(** A Timestamp as Firestore holds it: within the range that its
    constructor accepts. *)
Definition valido (t : Timestamp) : Prop :=
  MIN_SECONDS ≤ seconds t ≤ MAX_SECONDS ∧ 0 ≤ nanoseconds t ≤ 999999999.

#[global] Instance valido_dec t : Decision (valido t).
Proof. unfold valido. apply _. Defined.

(** The end of an appointment as the code constructs it, if the constructor
    accepts it. *)
Definition finTurno (start : Timestamp) (duracionMinutos : option Z)
    : option Timestamp :=
  nuevoTimestamp (segundosFin start (numero duracionMinutos 0)) (nanoseconds start).

(** Every appointment of the store starts and ends within the range of
    Timestamp. *)
Definition enRango (s : Store) (c : Turno) : Prop :=
  match t_fechaTurno c with
  | Some f => valido f ∧ valido (endAt f (durationMinutes s c))
  | None => True
  end.

#[global] Instance enRango_dec s c : Decision (enRango s c).
Proof. unfold enRango. destruct (t_fechaTurno c); apply _. Defined.

Definition turnosEnRango (s : Store) : Prop :=
  map_Forall (λ _ c, enRango s c) (turnos s).

(** Some other appointment [c], confirmed or pending, of practitioner [p]
    satisfies [a.startAt < c.endAt] and [a.endAt > c.startAt], under the
    order [lt] of timestamps. *)
Definition conflicto (lt : Timestamp → Timestamp → Prop) (s : Store) (id p : string)
    (startAt endAt_a : Timestamp) : Prop :=
  ∃ id' c f,
    turnos s !! id' = Some c ∧ id' ≠ id ∧ vigente c
    ∧ practitionerId s c = Some p ∧ t_fechaTurno c = Some f
    ∧ lt startAt (endAt f (durationMinutes s c)) ∧ lt f endAt_a.

(** Every other confirmed or pending appointment of the store names its
    therapy (the data model's [therapyId]). *)
Definition turnosConTerapia (s : Store) (id : string) : Prop :=
  map_Forall (λ id' c, id' ≠ id → vigente c → is_Some (presente (t_terapiaId c)))
             (turnos s).

(** The messages of the errors thrown by [reservarTurno]. *)
Definition terapiaNoExiste (terapiaId : string) : string :=
  "La terapia con ID " +:+ terapiaId +:+ " no existe.".

Definition sinProfesional (terapiaData : Terapia) : string :=
  "La terapia " +:+ plantilla (te_nombre terapiaData)
  +:+ " no tiene un profesional asignado.".

Definition yaReservado : string :=
  "El terapeuta ya tiene un turno reservado para esa franja horaria.".

Definition actividadNoExiste (actividadId : string) : string :=
  "La actividad con ID " +:+ actividadId +:+ " no existe.".

(** The documents of a collection that satisfy [donde] changed by [f], the
    others kept: what a batch of updates over a query result leaves. *)
Definition actualizarDonde {A} (donde : A → Prop) `{!∀ d, Decision (donde d)}
    (f : A → A) (col : gmap string A) : gmap string A :=
  (λ d, if decide (donde d) then f d else d) <$> col.

(** The records that the cascade has cancelled. *)
Definition reservasCanceladas (s : Store) : gset string :=
  dom (filter (λ kv : string * Reserva, r_estado kv.2 = Some "cancelado_por_admin")
              (reservas s)).

Definition turnosCancelados (s : Store) : gset string :=
  dom (filter (λ kv : string * Turno, t_estado kv.2 = Some "cancelado_por_admin")
              (turnos s)).

(** [failureReason]: the reason that a record carries for not standing.  The
    documents keep it in two fields: motivoCancelacion, written by the
    cascade, for a record cancelled by the administrator, and motivoFalla,
    written by the admission triggers, otherwise. *)
Definition razon (estado motivoFalla motivoCancelacion : option string)
    : option string :=
  if bool_decide (estado = Some "cancelado_por_admin")
  then motivoCancelacion else motivoFalla.

Definition failureReason (r : Reserva) : option string :=
  razon (r_estado r) (r_motivoFalla r) (r_motivoCancelacion r).

Definition failureReasonTurno (t : Turno) : option string :=
  razon (t_estado t) (t_motivoFalla t) (t_motivoCancelacion t).

(** The terminal statuses of a reservation. *)
Definition terminal (estado : option string) : Prop :=
  estado = Some "confirmada" ∨ estado = Some "fallida"
  ∨ estado = Some "cancelado_por_admin".

(** The lifecycle statement of the specification: a pending reservation
    processed by its admission trigger ends in a terminal status. *)
Definition lifecycle_spec (commitFalla : bool) (s : Store) (id : string)
    (r : Reserva) : Prop :=
  reservas s !! id = Some r → r_estado r = Some "pendiente" →
  ∃ r', reservas (almacen (reservarActividad commitFalla s (Some (id, r)))) !! id
        = Some r'
        ∧ terminal (r_estado r').

(** ** Scenarios *)

(** A rendering of dates for the scenarios: the seconds of the timestamp. *)
Definition enSegundos (t : Timestamp) : string := decimal (seconds t).

Definition hora (h m : Z) : Timestamp := mkTimestamp (h * 3600 + m * 60) 0.

Definition reservaDe (actividadId : option string) (fecha : Timestamp) (cupo : Z)
    (estado : string) : Reserva :=
  {| r_actividadId := actividadId; r_fechaActividad := Some fecha;
     r_cupoTomado := Some cupo; r_estado := Some estado; r_motivoFalla := None;
     r_motivoCancelacion := None; r_fechaCancelacion := None |}.

Definition turnoDe (terapiaId : string) (fecha : Timestamp) (estado : string) : Turno :=
  {| t_terapiaId := Some terapiaId; t_fechaTurno := Some fecha;
     t_usuarioId := Some "u1"; t_estado := Some estado; t_motivoFalla := None;
     t_motivoCancelacion := None; t_fechaCancelacion := None |}.

Definition yoga : Actividad := {| a_cupo := Some 5; a_nombre := Some "Yoga" |}.

Definition taller : Actividad := {| a_cupo := None; a_nombre := Some "Taller" |}.

Definition psico : Terapia :=
  {| te_duracionMinutos := Some 60; te_profesionalId := Some "P";
     te_nombre := Some "Psicoterapia" |}.

Definition vacante : Terapia :=
  {| te_duracionMinutos := Some 30; te_profesionalId := None;
     te_nombre := Some "Masaje" |}.

(** Yoga has 5 seats; at 10:00 two reservations of 2 seats are held and r3
    asks for 2 more; r5 is alone at 11:00; the workshop A2 has no cupo. *)
Definition escenarioA : Store :=
  {| actividades := {[ "A1" := yoga; "A2" := taller ]};
     reservas :=
       {[ "r1" := reservaDe (Some "A1") (hora 10 0) 2 "confirmada";
          "r2" := reservaDe (Some "A1") (hora 10 0) 2 "pendiente";
          "r3" := reservaDe (Some "A1") (hora 10 0) 2 "pendiente";
          "r4" := reservaDe (Some "A2") (hora 10 0) 1 "confirmada";
          "r5" := reservaDe (Some "A1") (hora 11 0) 2 "pendiente" ]};
     terapias := ∅; turnos := ∅ |}.

(** Practitioner P holds a confirmed hour at 10:00; t2 (10:59) has failed and
    t3 asks for 11:00. *)
Definition escenarioB : Store :=
  {| actividades := ∅; reservas := ∅;
     terapias := {[ "T1" := psico; "T2" := vacante ]};
     turnos :=
       {[ "t1" := turnoDe "T1" (hora 10 0) "confirmado";
          "t2" := turnoDe "T1" (hora 10 59) "fallida";
          "t3" := turnoDe "T1" (hora 11 0) "pendiente" ]} |}.

(** P holds a confirmed hour that starts half a second after 0:00, and so
    ends half a second after 1:00. *)
Definition escenarioFraccion : Store :=
  {| actividades := ∅; reservas := ∅;
     terapias := {[ "T1" := psico ]};
     turnos := {[ "t1" := turnoDe "T1" (mkTimestamp 0 500000000) "confirmado" ]} |}.

Definition feriado : Suspension :=
  {| s_tipo := Some "actividad"; s_actividadId := Some "A1"; s_profesorId := None;
     s_fechaInicio := Some (hora 9 0); s_fechaFin := Some (hora 12 0);
     s_motivo := Some "Feriado"; s_afectaReservasExistentes := true |}.

Definition aviso : Suspension :=
  {| s_tipo := Some "actividad"; s_actividadId := Some "A1"; s_profesorId := None;
     s_fechaInicio := Some (hora 9 0); s_fechaFin := Some (hora 12 0);
     s_motivo := Some "Aviso"; s_afectaReservasExistentes := false |}.

(** Practitioner P is on leave from 9:00 to 12:00. *)
Definition licencia : Suspension :=
  {| s_tipo := Some "profesor"; s_actividadId := None; s_profesorId := Some "P";
     s_fechaInicio := Some (hora 9 0); s_fechaFin := Some (hora 12 0);
     s_motivo := Some "Licencia"; s_afectaReservasExistentes := true |}.

(** The seats held on an instance of an activity: those of all its
    confirmed or pending reservations. *)
Definition ocupacion (s : Store) (actividadId : string) (fecha : Timestamp) : Z :=
  sumaZ (seatsRequested <$>
           (map_to_list
              (filter (λ kv : string * Reserva,
                         r_actividadId kv.2 = Some actividadId
                         ∧ r_fechaActividad kv.2 = Some fecha ∧ activa kv.2)
                      (reservas s))).*2).

(** The seats of the confirmed reservations of an instance. *)
Definition confirmadas (s : Store) (actividadId : string) (fecha : Timestamp) : Z :=
  sumaZ (seatsRequested <$>
           (map_to_list
              (filter (λ kv : string * Reserva,
                         r_actividadId kv.2 = Some actividadId
                         ∧ r_fechaActividad kv.2 = Some fecha
                         ∧ r_estado kv.2 = Some "confirmada")
                      (reservas s))).*2).

(** The store without the appointment [id]. *)
Definition sinTurno (s : Store) (id : string) : Store :=
  conTurnos s (delete id (turnos s)).

(** A therapy without duracionMinutos: P holds 10:00. *)
Definition escenarioSinDuracion : Store :=
  {| actividades := ∅; reservas := ∅;
     terapias := {[ "T3" := {| te_duracionMinutos := None; te_profesionalId := Some "P";
                               te_nombre := Some "Consulta" |} ]};
     turnos := {[ "t1" := turnoDe "T3" (hora 10 0) "confirmado" ]} |}.

(** A suspension of tipo actividad whose actividadId is the id of a therapy. *)
Definition cierre : Suspension :=
  {| s_tipo := Some "actividad"; s_actividadId := Some "T1"; s_profesorId := None;
     s_fechaInicio := Some (hora 9 0); s_fechaFin := Some (hora 12 0);
     s_motivo := Some "Cierre"; s_afectaReservasExistentes := true |}.

(** A suspension without fechaFin. *)
Definition obra : Suspension :=
  {| s_tipo := Some "actividad"; s_actividadId := Some "A1"; s_profesorId := None;
     s_fechaInicio := Some (hora 9 0); s_fechaFin := None;
     s_motivo := Some "Obra"; s_afectaReservasExistentes := true |}.

(** Production, with analytics; Ana is an administrator with a document,
    Beto has none. *)
Definition entorno : Entorno :=
  {| produccion := true; analytics := true; fallaAnalytics := false;
     ahoraISO := "2025-01-01T08:00:00.000Z"; ahora := hora 8 0;
     sinDocumento := "No document to update"; pilaSinDocumento := None |}.

Definition ana : User :=
  {| u_uid := "u1"; u_email := Some "ana@virtud.org"; u_displayName := None;
     u_providerData := ["google.com"] |}.

Definition beto : User :=
  {| u_uid := "u2"; u_email := Some "beto@virtud.org"; u_displayName := None;
     u_providerData := ["password"] |}.

Definition usuariosA : gmap string (gmap string Valor) :=
  {[ "u1" := {[ "tipo" := Texto "admin"; "nombre" := Texto "Ana" ]} ]}.


(** An activity of 2^53 + 2 seats, of which 2^53, 1 and 1 are held at 10:00. *)
Definition estadio : Actividad :=
  {| a_cupo := Some 9007199254740994; a_nombre := Some "Estadio" |}.

Definition escenarioGrande : Store :=
  {| actividades := {[ "A1" := estadio ]};
     reservas :=
       {[ "r1" := reservaDe (Some "A1") (hora 10 0) 9007199254740992 "confirmada";
          "r2" := reservaDe (Some "A1") (hora 10 0) 1 "confirmada";
          "r3" := reservaDe (Some "A1") (hora 10 0) 1 "confirmada" ]};
     terapias := ∅; turnos := ∅ |}.

(** The workshop, without cupo, with a reservation of -5 seats at 10:00. *)
Definition escenarioNegativo : Store :=
  {| actividades := {[ "A2" := taller ]};
     reservas := {[ "r1" := reservaDe (Some "A2") (hora 10 0) (-5) "confirmada" ]};
     terapias := ∅; turnos := ∅ |}.

(** The holiday, its motivo left out. *)
Definition feriadoSinMotivo : Suspension :=
  {| s_tipo := Some "actividad"; s_actividadId := Some "A1"; s_profesorId := None;
     s_fechaInicio := Some (hora 9 0); s_fechaFin := Some (hora 12 0);
     s_motivo := None; s_afectaReservasExistentes := true |}.


(** A therapy of 10^10 minutes: an appointment of it ends after the year
    9999. *)
Definition eterna : Terapia :=
  {| te_duracionMinutos := Some 10000000000; te_profesionalId := Some "P";
     te_nombre := Some "Retiro" |}.

Definition escenarioEterno : Store :=
  {| actividades := ∅; reservas := ∅; terapias := {[ "T9" := eterna ]}; turnos := ∅ |}.


(** * Properties *)

(** ** Query results *)

Lemma insertar_perm {A} (leb : A → A → bool) x l : insertar leb x l ≡ₚ x :: l.
Proof.
  induction l as [|y l IH]; simpl; [done|].
  destruct (leb x y); [done|]. rewrite IH. apply Permutation_swap.
Qed.

Lemma ordenar_perm {A} (leb : A → A → bool) l : ordenar leb l ≡ₚ l.
Proof.
  unfold ordenar. induction l as [|x l IH]; simpl; [done|].
  by rewrite insertar_perm, IH.
Qed.

Lemma elem_of_consulta {A} leb (donde : A → Prop) `{!∀ d, Decision (donde d)}
    (col : gmap string A) id d :
  (id, d) ∈ consulta leb donde col ↔ col !! id = Some d ∧ donde d.
Proof.
  unfold consulta.
  by rewrite ordenar_perm, elem_of_map_to_list, map_lookup_filter_Some.
Qed.

Lemma elem_of_consulta_ids {A} leb (donde : A → Prop) `{!∀ d, Decision (donde d)}
    (col : gmap string A) id :
  id ∈ (consulta leb donde col).*1 ↔ ∃ d, col !! id = Some d ∧ donde d.
Proof.
  rewrite list_elem_of_fmap. split.
  - intros [[id' d] [-> Hin]]. apply elem_of_consulta in Hin. eauto.
  - intros [d Hd]. exists (id, d). split; [done|]. by apply elem_of_consulta.
Qed.

Lemma consulta_vacia {A} leb (donde : A → Prop) `{!∀ d, Decision (donde d)}
    (col : gmap string A) :
  (∀ id d, col !! id = Some d → ¬ donde d) → consulta leb donde col = [].
Proof.
  intros Hno. destruct (consulta leb donde col) as [|[id d] l] eqn:E; [done|].
  assert ((id, d) ∈ consulta leb donde col) as Hin by (rewrite E; left).
  apply elem_of_consulta in Hin as [Hl Hd]. by destruct (Hno id d).
Qed.

(** ** JavaScript numbers on small whole numbers *)

Lemma desborde_lejos : 2 ^ precision < desborde.
Proof. by vm_compute. Qed.

(** Below 2^53 every whole number is a double. *)
Lemma redondear_exacto z : Z.abs z < 2 ^ precision → redondear z = z.
Proof.
  intros Hz. unfold redondear.
  assert (Z.log2 (Z.abs z) + 1 ≤ precision) as Hbits.
  { destruct (decide (Z.abs z = 0)) as [->|Hne]; [by vm_compute|].
    apply Z.log2_lt_pow2 in Hz; lia. }
  cbv zeta. by rewrite (proj2 (Z.leb_le _ _) Hbits).
Qed.

Lemma aDoble_exacto z : Z.abs z < 2 ^ precision → aDoble z = Finito z.
Proof.
  intros Hz. unfold aDoble. rewrite (redondear_exacto z Hz). cbv zeta.
  pose proof desborde_lejos. by rewrite (proj2 (Z.leb_gt _ _)) by lia.
Qed.

Lemma mas_exacto a b :
  Z.abs a + Z.abs b < 2 ^ precision → mas (Finito a) (Finito b) = Finito (a + b).
Proof. intros H. apply aDoble_exacto. lia. Qed.

Lemma menos_exacto a b :
  Z.abs a + Z.abs b < 2 ^ precision → menos (Finito a) (Finito b) = Finito (a - b).
Proof. intros H. unfold menos. simpl opuesto. by rewrite mas_exacto by lia. Qed.

(** Rounding keeps the sign. *)
Lemma redondear_signo z :
  (0 ≤ z → 0 ≤ redondear z) ∧ (1 ≤ z → 1 ≤ redondear z) ∧ (z ≤ 0 → redondear z ≤ 0).
Proof.
  unfold redondear. cbv zeta.
  destruct (Z.log2 (Z.abs z) + 1 <=? precision) eqn:Hbits; [lia|].
  apply Z.leb_gt in Hbits. unfold precision in *.
  assert (0 < Z.abs z) as Hpos.
  { destruct (decide (Z.abs z = 0)) as [E|]; [|lia].
    rewrite E in Hbits. by vm_compute in Hbits. }
  pose proof (Z.log2_spec _ Hpos) as [Hlow _].
  generalize dependent (Z.log2 (Z.abs z)). intros l Hbits Hlow.
  remember (l + 1 - 53) as e eqn:He.
  assert (0 < 2 ^ e) as H2e by (apply Z.pow_pos_nonneg; lia).
  assert (2 ^ e ≤ Z.abs z) as Hle.
  { etrans; [|exact Hlow]. apply Z.pow_le_mono_r; lia. }
  assert (0 < Z.abs z / 2 ^ e) as Hq by (apply Z.div_str_pos; lia).
  generalize dependent (Z.abs z / 2 ^ e). intros q Hq.
  generalize ((2 ^ (e - 1) <? Z.abs z mod 2 ^ e)
              || (Z.abs z mod 2 ^ e =? 2 ^ (e - 1)) && Z.odd q). intros b.
  assert (1 ≤ (if b then q + 1 else q) * 2 ^ e) as Hm by (destruct b; nia).
  split_and!; intros Hz.
  - rewrite (Z.sgn_pos z) by lia. lia.
  - rewrite (Z.sgn_pos z) by lia. lia.
  - rewrite (Z.sgn_neg z) by lia. lia.
Qed.

Lemma aDoble_noNegativo z : 0 ≤ z → noNegativo (aDoble z).
Proof.
  intros Hz. unfold aDoble. cbv zeta.
  destruct (redondear_signo z) as (H0 & _ & _). specialize (H0 Hz).
  destruct (desborde <=? _); simpl; [|done]. by apply Z.ltb_ge.
Qed.

Lemma aDoble_positivo z : 1 ≤ z → positivo (aDoble z).
Proof.
  intros Hz. unfold aDoble. cbv zeta.
  destruct (redondear_signo z) as (_ & H1 & _). specialize (H1 Hz).
  destruct (desborde <=? _); simpl; [|done]. apply Z.ltb_ge. lia.
Qed.

Lemma mas_noNegativo x y : noNegativo x → noNegativo y → noNegativo (mas x y).
Proof.
  destruct x as [a|[|]|], y as [b|[|]|]; simpl; try done.
  intros Ha Hb. apply aDoble_noNegativo. lia.
Qed.

(** Nothing is left of a cupo of 0 for a request of at least one seat. *)
Lemma menor_sin_cupo x y :
  noNegativo x → positivo y → menor (menos (Finito 0) x) y = true.
Proof.
  destruct x as [a|[|]|]; simpl; try done.
  - intros Ha Hy. unfold menos, mas, opuesto, aDoble. cbv zeta. rewrite Z.add_0_l.
    destruct (redondear_signo (- a)) as (_ & _ & Hneg). specialize (Hneg ltac:(lia)).
    pose proof desborde_lejos as Hd. unfold precision in Hd.
    assert (0 < desborde) as Hd0 by by vm_compute.
    destruct (desborde <=? _) eqn:Hov.
    + apply Z.leb_le in Hov. rewrite (proj2 (Z.ltb_lt _ _)) by lia.
      destruct y as [b|[|]|]; simpl in *; done.
    + destruct y as [b|[|]|]; simpl in *; try done. apply Z.ltb_lt. lia.
  - intros _ Hy. destruct y as [b|[|]|]; simpl in *; done.
Qed.

(** ** The occupancy computed by reservarActividad *)

Lemma sumaZ_perm l l' : l ≡ₚ l' → sumaZ l = sumaZ l'.
Proof.
  induction 1 as [|x l l' _ IH|x y l|l l' l'' _ IH1 _ IH2]; simpl; lia.
Qed.

Lemma sumaZ_abs {A} (g : A → Z) (l : list A) :
  0 ≤ sumaZ ((λ x, Z.abs (g x)) <$> l)
  ∧ Z.abs (sumaZ (g <$> l)) ≤ sumaZ ((λ x, Z.abs (g x)) <$> l).
Proof. induction l as [|x l [IH0 IH]]; csimpl; lia. Qed.

(** While the seats stay below 2^53 in absolute value, the loop adds them
    without rounding. *)
Lemma fold_left_cupoOcupado rid (l : list (string * Reserva)) acc :
  Z.abs acc + sumaZ ((λ r, Z.abs (seatsRequested r))
                       <$> (filter (λ doc : string * Reserva, doc.1 ≠ rid) l).*2)
  < 2 ^ precision →
  fold_left (λ acc (doc : string * Reserva),
               if bool_decide (doc.1 ≠ rid)
               then mas acc (numero (r_cupoTomado doc.2) 1) else acc) l (Finito acc)
  = Finito (acc + sumaZ (seatsRequested <$>
                           (filter (λ doc : string * Reserva, doc.1 ≠ rid) l).*2)).
Proof.
  revert acc. induction l as [|[id d] l IH]; intros acc.
  { intros _. simpl. f_equal. lia. }
  rewrite filter_cons. cbn [fold_left fst snd]. case_bool_decide as Hid.
  - rewrite decide_True by done. intros Hsum. csimpl in Hsum.
    destruct (sumaZ_abs seatsRequested
                (filter (λ doc : string * Reserva, doc.1 ≠ rid) l).*2) as [H0 _].
    assert (mas (Finito acc) (numero (r_cupoTomado d) 1)
            = Finito (acc + seatsRequested d)) as ->.
    { unfold numero. fold (seatsRequested d).
      rewrite (aDoble_exacto (seatsRequested d)) by lia. apply mas_exacto. lia. }
    rewrite IH by lia. csimpl. f_equal. lia.
  - rewrite decide_False by (intros Hne; by apply Hne). apply IH.
Qed.

Lemma filter_consulta_perm {A} leb (P : string * A → Prop) `{!∀ x, Decision (P x)}
    (donde : A → Prop) `{!∀ d, Decision (donde d)} (col : gmap string A) :
  filter P (consulta leb donde col)
  ≡ₚ map_to_list (filter (λ kv, P kv ∧ donde kv.2) col).
Proof.
  apply NoDup_Permutation.
  - apply NoDup_filter. unfold consulta. rewrite ordenar_perm. apply NoDup_map_to_list.
  - apply NoDup_map_to_list.
  - intros [id d]. rewrite list_elem_of_filter, elem_of_consulta,
      elem_of_map_to_list, map_lookup_filter_Some. simpl. tauto.
Qed.

Lemma cupoOcupado_occupied s rid actividadId fecha :
  peso s rid actividadId fecha < 2 ^ precision →
  cupoOcupado s rid actividadId fecha = Finito (occupied s rid actividadId fecha).
Proof.
  intros Hpeso. unfold cupoOcupado.
  assert (∀ g : Reserva → Z,
            sumaZ (g <$> (filter (λ doc : string * Reserva, doc.1 ≠ rid)
                            (consulta porId
                               (λ d, r_actividadId d = Some actividadId
                                     ∧ r_fechaActividad d = Some fecha ∧ activa d)
                               (reservas s))).*2)
            = sumaZ (g <$> (map_to_list
                              (filter (λ kv : string * Reserva,
                                         kv.1 ≠ rid ∧ r_actividadId kv.2 = Some actividadId
                                         ∧ r_fechaActividad kv.2 = Some fecha ∧ activa kv.2)
                                      (reservas s))).*2)) as Hperm.
  { intros g. apply sumaZ_perm. do 2 f_equiv. apply filter_consulta_perm. }
  rewrite fold_left_cupoOcupado.
  - rewrite Z.add_0_l. f_equal. apply Hperm.
  - rewrite (Hperm (λ r, Z.abs (seatsRequested r))). unfold peso in Hpeso. simpl. lia.
Qed.

Lemma cupoOcupado_noNegativo s rid actividadId fecha :
  (∀ id' r', reservas s !! id' = Some r' → id' ≠ rid →
     r_actividadId r' = Some actividadId → r_fechaActividad r' = Some fecha →
     activa r' → 0 ≤ seatsRequested r') →
  noNegativo (cupoOcupado s rid actividadId fecha).
Proof.
  intros Hwf. unfold cupoOcupado.
  assert (∀ id' r', (id', r') ∈ consulta porId
                       (λ d, r_actividadId d = Some actividadId
                             ∧ r_fechaActividad d = Some fecha ∧ activa d) (reservas s) →
                    id' ≠ rid → 0 ≤ seatsRequested r') as Hl.
  { intros id' r' Hin Hne. apply elem_of_consulta in Hin as (Hr & Ha & Hf & Hact). eauto. }
  revert Hl. generalize (consulta porId
                          (λ d, r_actividadId d = Some actividadId
                                ∧ r_fechaActividad d = Some fecha ∧ activa d) (reservas s)).
  assert (noNegativo (Finito 0)) as Hacc by done. revert Hacc.
  generalize (Finito 0). intros acc Hacc l. revert acc Hacc.
  induction l as [|[id' r'] l IH]; intros acc Hacc Hl; [done|]. simpl.
  apply IH; [|intros ????; apply (Hl id'0); [by right|done]].
  case_bool_decide as Hid; [|done]. apply mas_noNegativo; [done|].
  apply aDoble_noNegativo. apply (Hl id' r'); [left|done].
Qed.

Lemma transaccionReserva_run s id actividadId fecha n act :
  actividades s !! actividadId = Some act →
  transaccionReserva id actividadId fecha n s
  = ([LeerActividad actividadId; ConsultarReservas],
     let disponible := menos (numero (a_cupo act) 0) (cupoOcupado s id actividadId fecha) in
     if menor disponible n
     then inl (HttpsError ResourceExhausted (sinCupo act fecha disponible))
     else inr tt).
Proof.
  intros Hact. unfold transaccionReserva, tx_bind, getActividad. rewrite Hact.
  unfold getReservas. fold (cupoOcupado s id actividadId fecha). simpl.
  by destruct (menor _ _).
Qed.

(** The same, while the numbers stay where doubles are exact. *)
Lemma transaccionReserva_exacto s id actividadId fecha (r : Reserva) act :
  actividades s !! actividadId = Some act →
  exacto s id actividadId fecha act r →
  transaccionReserva id actividadId fecha (aDoble (seatsRequested r)) s
  = ([LeerActividad actividadId; ConsultarReservas],
     let disponible := capacity act - occupied s id actividadId fecha in
     if bool_decide (disponible < seatsRequested r)
     then inl (HttpsError ResourceExhausted (sinCupo act fecha (Finito disponible)))
     else inr tt).
Proof.
  intros Hact Hex. rewrite (transaccionReserva_run _ _ _ _ _ _ Hact). cbv zeta.
  unfold exacto in Hex.
  destruct (sumaZ_abs seatsRequested
              (map_to_list
                 (filter (λ kv : string * Reserva,
                            kv.1 ≠ id ∧ r_actividadId kv.2 = Some actividadId
                            ∧ r_fechaActividad kv.2 = Some fecha ∧ activa kv.2)
                         (reservas s))).*2) as [Hpeso0 Hocc].
  fold (peso s id actividadId fecha) in Hpeso0, Hocc.
  fold (occupied s id actividadId fecha) in Hocc.
  rewrite cupoOcupado_occupied by lia.
  unfold numero. fold (capacity act).
  rewrite (aDoble_exacto (capacity act)) by lia.
  rewrite (aDoble_exacto (seatsRequested r)) by lia.
  rewrite menos_exacto by lia. simpl menor.
  f_equal. case_bool_decide as Hlt.
  - by rewrite (proj2 (Z.ltb_lt _ _) Hlt).
  - by rewrite (proj2 (Z.ltb_ge _ _)) by lia.
Qed.

Lemma transaccionReserva_sin_actividad s id actividadId fecha n :
  actividades s !! actividadId = None →
  transaccionReserva id actividadId fecha n s
  = ([LeerActividad actividadId],
     inl (HttpsError NotFound (actividadNoExiste actividadId))).
Proof.
  intros Hact. unfold transaccionReserva, tx_bind, getActividad. by rewrite Hact.
Qed.

Lemma runTransaction_run commitFalla body s :
  runTransaction commitFalla body s
  = match body s with
    | (l, inl e) => (l, inl e)
    | (l, inr _) => (l, if commitFalla then inl OtroError else inr tt)
    end.
Proof.
  unfold runTransaction, tx_bind.
  destruct (body s) as [l [e|[]]]; [done|].
  destruct commitFalla; simpl; by rewrite app_nil_r.
Qed.

Lemma reservarActividad_run commitFalla s id r actividadId fecha :
  presente (r_actividadId r) = Some actividadId →
  r_fechaActividad r = Some fecha →
  reservarActividad commitFalla s (Some (id, r))
  = match runTransaction commitFalla
            (transaccionReserva id actividadId fecha (aDoble (seatsRequested r))) s with
    | (lect, inr _) => sinEscritura lect s
    | (lect, inl error) =>
        escribir lect s (Actualizar Reservas id (fallida (motivoDe error)))
    end.
Proof. intros Ha Hf. unfold reservarActividad. by rewrite Ha, Hf. Qed.

(** C1, as the code has it: while the cupo, the seats requested and the seats
    of the other confirmed or pending reservations of the same activity and
    time add up, in absolute value, to less than 2^53 (so that the doubles the
    code computes with are exact), a reservation whose activity exists is
    refused with resource-exhausted exactly when capacity - occupied <
    seatsRequested; the refusal is written to the record, and otherwise the
    transaction succeeds and nothing is written. *)
Theorem C1_capacity_admission commitFalla s id (r : Reserva) actividadId fecha act :
  presente (r_actividadId r) = Some actividadId →
  r_fechaActividad r = Some fecha →
  actividades s !! actividadId = Some act →
  exacto s id actividadId fecha act r →
  let tx := (runTransaction commitFalla
               (transaccionReserva id actividadId fecha (aDoble (seatsRequested r)))
               s).2 in
  let disponible := capacity act - occupied s id actividadId fecha in
  ((∃ m, tx = inl (HttpsError ResourceExhausted m)) ↔ disponible < seatsRequested r)
  ∧ (disponible < seatsRequested r →
     escrituras (reservarActividad commitFalla s (Some (id, r)))
     = [Actualizar Reservas id (fallida (sinCupo act fecha (Finito disponible)))])
  ∧ (¬ disponible < seatsRequested r → commitFalla = false →
     tx = inr tt
     ∧ reservarActividad commitFalla s (Some (id, r))
       = sinEscritura [LeerActividad actividadId; ConsultarReservas] s).
Proof.
  intros Ha Hf Hact Hex tx disponible. subst tx.
  rewrite (reservarActividad_run _ _ _ _ _ _ Ha Hf), runTransaction_run,
    (transaccionReserva_exacto _ _ _ _ _ _ Hact Hex).
  cbv zeta. fold disponible. case_bool_decide as Hlt; simpl.
  - split_and!; [split; eauto | done | done].
  - split_and!; [|done|].
    + split; [|done]. intros [m Hm]. by destruct commitFalla.
    + by intros _ ->.
Qed.

(** C10, as the code has it: an activity without a cupo field, or with cupo 0,
    has capacity 0, so a request for at least one seat is refused with
    resource-exhausted and the record is marked fallida, provided that no
    other confirmed or pending reservation of the same activity and time
    holds a negative number of seats. *)
Theorem C10_capacity_absent commitFalla s id (r : Reserva) actividadId fecha act :
  presente (r_actividadId r) = Some actividadId →
  r_fechaActividad r = Some fecha →
  actividades s !! actividadId = Some act →
  a_cupo act = None ∨ a_cupo act = Some 0 →
  1 ≤ seatsRequested r →
  (∀ id' r', reservas s !! id' = Some r' → id' ≠ id →
     r_actividadId r' = Some actividadId → r_fechaActividad r' = Some fecha →
     activa r' → 0 ≤ seatsRequested r') →
  capacity act = 0
  ∧ ∃ m,
      (runTransaction commitFalla
         (transaccionReserva id actividadId fecha (aDoble (seatsRequested r))) s).2
      = inl (HttpsError ResourceExhausted m)
      ∧ escrituras (reservarActividad commitFalla s (Some (id, r)))
        = [Actualizar Reservas id (fallida m)]
      ∧ ∀ r0, reservas s !! id = Some r0 →
          ∃ r1, reservas (almacen (reservarActividad commitFalla s (Some (id, r)))) !! id
                = Some r1
                ∧ r_estado r1 = Some "fallida" ∧ r_motivoFalla r1 = Some m.
Proof.
  intros Ha Hf Hact Hcupo Hr Hwf.
  assert (capacity act = 0) as Hcap by (unfold capacity; by destruct Hcupo as [-> | ->]).
  split; [done|].
  assert (transaccionReserva id actividadId fecha (aDoble (seatsRequested r)) s
          = ([LeerActividad actividadId; ConsultarReservas],
             inl (HttpsError ResourceExhausted
                    (sinCupo act fecha
                       (menos (Finito 0) (cupoOcupado s id actividadId fecha))))))
    as Htx.
  { rewrite (transaccionReserva_run _ _ _ _ _ _ Hact). cbv zeta.
    unfold numero. fold (capacity act). rewrite Hcap.
    change (aDoble 0) with (Finito 0).
    by rewrite menor_sin_cupo;
      [|by apply cupoOcupado_noNegativo|by apply aDoble_positivo]. }
  rewrite (reservarActividad_run _ _ _ _ _ _ Ha Hf), runTransaction_run, Htx.
  simpl. eexists. split_and!; [done..|].
  intros r0 Hr0. rewrite lookup_alter_eq, Hr0. simpl. eauto.
Qed.

(** ** The overlap search of reservarTurno *)

Lemma presente_Some x v : presente x = Some v → x = Some v ∧ v ≠ EmptyString.
Proof.
  unfold presente. destruct x as [v'|]; [|done].
  case_bool_decide; [done|]. by intros [= ->].
Qed.

(** A start and an end within the range of Timestamp: the constructor
    accepts the end, computed without rounding. *)
Lemma finTurno_endAt f duracion :
  valido f → valido (endAt f (o_si_no duracion 0)) →
  finTurno f duracion = Some (endAt f (o_si_no duracion 0)).
Proof.
  intros [Hs Hn] [Hs' Hn']. unfold finTurno, segundosFin, numero, endAt in *.
  simpl in Hs', Hn'. unfold MIN_SECONDS, MAX_SECONDS in *.
  set (d := o_si_no duracion 0) in *.
  assert (2 ^ precision = 9007199254740992) as Hp by by vm_compute.
  rewrite (aDoble_exacto (seconds f)), (aDoble_exacto d) by lia.
  unfold por. rewrite (aDoble_exacto (d * 60)) by lia.
  rewrite mas_exacto by lia. unfold nuevoTimestamp.
  by rewrite bool_decide_true by (unfold MIN_SECONDS, MAX_SECONDS; lia).
Qed.

Lemma finTurno_valido f duracion fin : finTurno f duracion = Some fin → valido fin.
Proof.
  unfold finTurno, nuevoTimestamp. destruct (segundosFin _ _) as [z| |]; [|done..].
  case_bool_decide as Hok; [|done]. by intros [= <-].
Qed.

Lemma buscarSolapamiento_cons id p f fin id' c resto s :
  buscarSolapamiento id p f fin ((id', c) :: resto) s
  = if bool_decide (id' = id) then buscarSolapamiento id p f fin resto s
    else match presente (t_terapiaId c) with
         | None => ([], inl OtroError)
         | Some tid =>
             let sigue := buscarSolapamiento id p f fin resto s in
             if bool_decide (terapias s !! tid ≫= te_profesionalId ≠ Some p)
             then (LeerTerapia tid :: sigue.1, sigue.2)
             else match t_fechaTurno c with
                  | None => ([LeerTerapia tid], inl OtroError)
                  | Some f' =>
                      match finTurno f' (terapias s !! tid ≫= te_duracionMinutos) with
                      | None => ([LeerTerapia tid], inl OtroError)
                      | Some fin' =>
                          if bool_decide (seconds f < seconds fin')
                             && bool_decide (seconds fin > seconds f')
                          then ([LeerTerapia tid], inr true)
                          else (LeerTerapia tid :: sigue.1, sigue.2)
                      end
                  end
         end.
Proof.
  cbn [buscarSolapamiento]. case_bool_decide; [done|].
  destruct (presente (t_terapiaId c)) as [tid|]; [|done].
  unfold tx_bind at 1, getTerapia at 1. cbv zeta.
  case_bool_decide.
  - by destruct (buscarSolapamiento id p f fin resto s) as [l [e|b]].
  - destruct (t_fechaTurno c) as [f'|]; [|done].
    fold (finTurno f' (terapias s !! tid ≫= te_duracionMinutos)).
    destruct (finTurno _ _) as [fin'|]; [|done]. simpl.
    destruct (_ && _); [done|].
    by destruct (buscarSolapamiento id p f fin resto s) as [l [e|b]].
Qed.

(** The loop throws nothing but the errors of malformed candidates. *)
Lemma buscarSolapamiento_error id p f fin docs s e :
  (buscarSolapamiento id p f fin docs s).2 = inl e → e = OtroError.
Proof.
  induction docs as [|[id' c] resto IH]; [done|].
  rewrite buscarSolapamiento_cons.
  repeat (case_match; simpl; try done); try (by intros [= <-]).
Qed.

(** On candidates that name their therapy and start and end within the range
    of Timestamp, the loop ends with the flag set exactly when one of them,
    other than the new appointment, is of the same practitioner and overlaps
    by whole seconds. *)
Lemma buscarSolapamiento_ok id p f fin docs s :
  (∀ id' c, (id', c) ∈ docs → id' ≠ id →
            is_Some (presente (t_terapiaId c))
            ∧ ∃ f', t_fechaTurno c = Some f'
                    ∧ valido f' ∧ valido (endAt f' (durationMinutes s c))) →
  ∃ b, (buscarSolapamiento id p f fin docs s).2 = inr b
       ∧ (b = true ↔
          ∃ id' c f', (id', c) ∈ docs ∧ id' ≠ id
            ∧ practitionerId s c = Some p ∧ t_fechaTurno c = Some f'
            ∧ segundos_lt f (endAt f' (durationMinutes s c)) ∧ segundos_lt f' fin).
Proof.
  induction docs as [|[id' c] resto IH]; intros Hwf.
  { exists false. split; [done|]. split; [done|].
    intros (?&?&?&Hin&_). by apply elem_of_nil in Hin. }
  destruct IH as [b [Hb Hiff]].
  { intros ???. apply Hwf. by right. }
  assert (∀ Q : string → Turno → Timestamp → Prop,
            (∃ id'' c' f', (id'', c') ∈ (id', c) :: resto ∧ Q id'' c' f')
            ↔ (∃ f', Q id' c f') ∨ (∃ id'' c' f', (id'', c') ∈ resto ∧ Q id'' c' f'))
    as Hsplit.
  { intros Q. split.
    - intros (i&c'&f'&Hin&HQ). apply elem_of_cons in Hin as [[= -> ->]|Hin]; eauto 6.
    - intros [(f'&HQ)|(i&c'&f'&Hin&HQ)].
      + exists id', c, f'. split; [left|done].
      + exists i, c', f'. split; [by right|done]. }
  rewrite buscarSolapamiento_cons. case_bool_decide as Hid.
  { exists b. split; [done|]. rewrite Hiff, Hsplit. subst id'.
    split; [by right|]. by intros [(?&?&_)|?]. }
  destruct (Hwf id' c) as [[tid Htid] (f' & Hf' & Hv & Hv')]; [left|done|].
  rewrite Htid, Hf'. apply presente_Some in Htid as [Htid _]. cbv zeta.
  assert (practitionerId s c = terapias s !! tid ≫= te_profesionalId) as Hp
    by (unfold practitionerId, terapiaDe; by rewrite Htid).
  assert (durationMinutes s c = o_si_no (terapias s !! tid ≫= te_duracionMinutos) 0)
    as Hd by (unfold durationMinutes, terapiaDe; by rewrite Htid).
  case_bool_decide as Hprof.
  { exists b. split; [done|]. rewrite Hiff, Hsplit. rewrite <- Hp in Hprof.
    split; [by right|]. by intros [(?&_&?&_)|?]. }
  rewrite Hd in Hv'. rewrite (finTurno_endAt _ _ Hv Hv'). rewrite <- Hd.
  destruct (_ && _) eqn:Hov.
  - exists true. split; [done|]. split; [|done]. intros _.
    apply andb_prop in Hov as [H1 H2].
    apply bool_decide_eq_true in H1, H2.
    exists id', c, f'. split; [left|]. rewrite Hp.
    unfold segundos_lt. split_and!; [done|done|done|done|lia].
  - exists b. split; [done|]. rewrite Hiff, Hsplit. split; [eauto|].
    intros [(f''&_&Hprof'&Hf''&Hlt1&Hlt2)|?]; [|done]. exfalso.
    rewrite Hf' in Hf''. injection Hf'' as <-.
    unfold segundos_lt in Hlt1, Hlt2.
    apply andb_false_iff in Hov as [Hov|Hov]; apply bool_decide_eq_false in Hov; lia.
Qed.

Lemma reservarTurno_run commitFalla s id t terapiaId fecha usuarioId :
  presente (t_terapiaId t) = Some terapiaId →
  t_fechaTurno t = Some fecha →
  presente (t_usuarioId t) = Some usuarioId →
  reservarTurno commitFalla s (Some (id, t))
  = match runTransaction commitFalla (transaccionTurno id terapiaId fecha) s with
    | (lect, inr _) => sinEscritura lect s
    | (lect, inl error) =>
        escribir lect s (Actualizar Turnos id (fallida (motivoDe error)))
    end.
Proof. intros Ht Hf Hu. unfold reservarTurno. by rewrite Ht, Hf, Hu. Qed.

Lemma transaccionTurno_sin_terapia s id terapiaId fecha :
  terapias s !! terapiaId = None →
  transaccionTurno id terapiaId fecha s
  = ([LeerTerapia terapiaId], inl (HttpsError NotFound (terapiaNoExiste terapiaId))).
Proof.
  intros Ht. unfold transaccionTurno, tx_bind, getTerapia. by rewrite Ht.
Qed.

Lemma transaccionTurno_sin_profesional s id terapiaId fecha te :
  terapias s !! terapiaId = Some te →
  presente (te_profesionalId te) = None →
  transaccionTurno id terapiaId fecha s
  = ([LeerTerapia terapiaId], inl (HttpsError FailedPrecondition (sinProfesional te))).
Proof.
  intros Ht Hp. unfold transaccionTurno, tx_bind, getTerapia. by rewrite Ht, Hp.
Qed.

(** The end of the new appointment is out of the range of Timestamp. *)
Lemma transaccionTurno_sin_fin s id terapiaId fecha te p :
  terapias s !! terapiaId = Some te →
  presente (te_profesionalId te) = Some p →
  finTurno fecha (te_duracionMinutos te) = None →
  transaccionTurno id terapiaId fecha s = ([LeerTerapia terapiaId], inl OtroError).
Proof.
  intros Ht Hp Hfin. unfold transaccionTurno, tx_bind, getTerapia. rewrite Ht, Hp.
  fold (finTurno fecha (te_duracionMinutos te)). by rewrite Hfin.
Qed.

Lemma transaccionTurno_run s id terapiaId fecha te p fin :
  terapias s !! terapiaId = Some te →
  presente (te_profesionalId te) = Some p →
  finTurno fecha (te_duracionMinutos te) = Some fin →
  let busca :=
    buscarSolapamiento id p fecha fin
      (consulta (porFecha t_fechaTurno)
                (λ d, vigente d ∧ hasta fin (t_fechaTurno d)) (turnos s)) s in
  transaccionTurno id terapiaId fecha s
  = (LeerTerapia terapiaId :: ConsultarTurnos :: busca.1,
     match busca.2 with
     | inl e => inl e
     | inr true => inl (HttpsError AlreadyExists yaReservado)
     | inr false => inr tt
     end).
Proof.
  intros Ht Hp Hfin busca. unfold transaccionTurno, tx_bind at 1, getTerapia.
  rewrite Ht, Hp. fold (finTurno fecha (te_duracionMinutos te)). rewrite Hfin.
  unfold tx_bind, getTurnos.
  fold busca. destruct busca as [l [e|[|]]]; simpl; by rewrite ?app_nil_r.
Qed.

(** What the two transactions can throw. *)
Lemma transaccionReserva_errores commitFalla s id actividadId fecha n lect error :
  runTransaction commitFalla (transaccionReserva id actividadId fecha n) s
  = (lect, inl error) →
  error = OtroError
  ∨ error = HttpsError NotFound (actividadNoExiste actividadId)
  ∨ ∃ act disponible, error = HttpsError ResourceExhausted (sinCupo act fecha disponible).
Proof.
  rewrite runTransaction_run.
  destruct (actividades s !! actividadId) as [act|] eqn:Hact.
  - rewrite (transaccionReserva_run _ _ _ _ _ _ Hact). cbv zeta.
    destruct (menor _ _); [|destruct commitFalla]; intros [= <- <-]; eauto.
  - rewrite (transaccionReserva_sin_actividad _ _ _ _ _ Hact).
    intros [= <- <-]. eauto.
Qed.

Lemma transaccionTurno_errores commitFalla s id terapiaId fecha lect error :
  runTransaction commitFalla (transaccionTurno id terapiaId fecha) s
  = (lect, inl error) →
  error = OtroError
  ∨ (terapias s !! terapiaId = None
     ∧ error = HttpsError NotFound (terapiaNoExiste terapiaId)
     ∧ lect = [LeerTerapia terapiaId])
  ∨ (∃ te, terapias s !! terapiaId = Some te ∧ presente (te_profesionalId te) = None
           ∧ error = HttpsError FailedPrecondition (sinProfesional te)
           ∧ lect = [LeerTerapia terapiaId])
  ∨ (∃ te p, terapias s !! terapiaId = Some te
           ∧ presente (te_profesionalId te) = Some p
           ∧ error = HttpsError AlreadyExists yaReservado).
Proof.
  rewrite runTransaction_run.
  destruct (terapias s !! terapiaId) as [te|] eqn:Ht.
  - destruct (presente (te_profesionalId te)) as [p|] eqn:Hp.
    + destruct (finTurno fecha (te_duracionMinutos te)) as [fin|] eqn:Hfin.
      * rewrite (transaccionTurno_run _ _ _ _ _ _ _ Ht Hp Hfin). cbv zeta.
        destruct (buscarSolapamiento _ _ _ _ _ _) as [l [e|[|]]] eqn:Hb; simpl.
        -- intros [= <- <-]. left.
           eapply buscarSolapamiento_error. by erewrite Hb.
        -- intros [= <- <-]. eauto 10.
        -- destruct commitFalla; [|done]. intros [= <- <-]. by left.
      * rewrite (transaccionTurno_sin_fin _ _ _ _ _ _ Ht Hp Hfin).
        intros [= <- <-]. by left.
    + rewrite (transaccionTurno_sin_profesional _ _ _ _ _ Ht Hp).
      intros [= <- <-]. eauto 10.
  - rewrite (transaccionTurno_sin_terapia _ _ _ _ Ht). intros [= <- <-]. eauto 10.
Qed.

(** C7: the appointment transaction fails with not-found exactly when no
    therapy has the id of the appointment, and with failed-precondition
    exactly when the therapy exists without a profesionalId; in both cases the
    only read is that of the therapy (no candidate is queried or examined),
    and the trigger records the failure on the appointment. *)
Theorem C7_therapy_preconditions commitFalla s id (t : Turno) terapiaId fecha usuarioId :
  presente (t_terapiaId t) = Some terapiaId →
  t_fechaTurno t = Some fecha →
  presente (t_usuarioId t) = Some usuarioId →
  let tx := runTransaction commitFalla (transaccionTurno id terapiaId fecha) s in
  let res := reservarTurno commitFalla s (Some (id, t)) in
  ((∃ m, tx.2 = inl (HttpsError NotFound m)) ↔ terapias s !! terapiaId = None)
  ∧ ((∃ m, tx.2 = inl (HttpsError FailedPrecondition m))
     ↔ ∃ te, terapias s !! terapiaId = Some te ∧ presente (te_profesionalId te) = None)
  ∧ (∀ c m, tx.2 = inl (HttpsError c m) → c = NotFound ∨ c = FailedPrecondition →
       tx.1 = [LeerTerapia terapiaId]
       ∧ lecturas res = [LeerTerapia terapiaId]
       ∧ escrituras res = [Actualizar Turnos id (fallida m)]).
Proof.
  intros Ht Hf Hu tx res. subst tx res.
  rewrite (reservarTurno_run _ _ _ _ _ _ _ Ht Hf Hu).
  destruct (runTransaction _ _ _) as [lect [error|[]]] eqn:Htx; simpl.
  - destruct (transaccionTurno_errores _ _ _ _ _ _ _ Htx)
      as [->|[(Hn&->&->)|[(te&Hs&Hp&->&->)|(te&p&Hs&Hp&->)]]].
    + split_and!; [split; [by intros [? ?]|] | split; [by intros [? ?]|] | done].
      * intros Hn. rewrite runTransaction_run,
          (transaccionTurno_sin_terapia _ _ _ _ Hn) in Htx. done.
      * intros (te&Hs&Hp). rewrite runTransaction_run,
          (transaccionTurno_sin_profesional _ _ _ _ _ Hs Hp) in Htx. done.
    + split_and!; [split; eauto | split; [by intros [? ?]|] |].
      * intros (te&Hs&_). congruence.
      * by intros c m [= <- <-] _.
    + split_and!; [split; [by intros [? ?]|congruence] | split; eauto |].
      by intros c m [= <- <-] _.
    + split_and!; [split; [by intros [? ?]|congruence] | split; [by intros [? ?]|] |].
      * intros (te'&Hs'&Hp'). congruence.
      * by intros c m [= <- <-] [|].
  - split_and!; [split; [by intros [? ?]|] | split; [by intros [? ?]|] | done].
    + intros Hn. rewrite runTransaction_run,
        (transaccionTurno_sin_terapia _ _ _ _ Hn) in Htx. done.
    + intros (te&Hs&Hp). rewrite runTransaction_run,
        (transaccionTurno_sin_profesional _ _ _ _ _ Hs Hp) in Htx. done.
Qed.

(** The candidates of the overlap query are the other active appointments
    that start no later than the end of the new one. *)
Lemma candidatos_bien_formados s id fin id' c :
  turnosConTerapia s id → turnosEnRango s →
  (id', c) ∈ consulta (porFecha t_fechaTurno)
               (λ d, vigente d ∧ hasta fin (t_fechaTurno d)) (turnos s) →
  id' ≠ id →
  is_Some (presente (t_terapiaId c))
  ∧ ∃ f', t_fechaTurno c = Some f'
          ∧ valido f' ∧ valido (endAt f' (durationMinutes s c)).
Proof.
  intros Hwf Hrango Hin Hne. apply elem_of_consulta in Hin as [Hl [Hv Hh]].
  split; [by eapply Hwf|]. specialize (Hrango _ _ Hl). unfold enRango in Hrango.
  simpl in Hrango. destruct (t_fechaTurno c) as [f'|]; [eauto|done].
Qed.

Lemma buscarSolapamiento_conflicto s id p fecha fin :
  turnosConTerapia s id → turnosEnRango s →
  ∃ b, (buscarSolapamiento id p fecha fin
          (consulta (porFecha t_fechaTurno)
                    (λ d, vigente d ∧ hasta fin (t_fechaTurno d)) (turnos s)) s).2
       = inr b
       ∧ (b = true ↔ conflicto segundos_lt s id p fecha fin).
Proof.
  intros Hwf Hrango.
  destruct (buscarSolapamiento_ok id p fecha fin
              (consulta (porFecha t_fechaTurno)
                        (λ d, vigente d ∧ hasta fin (t_fechaTurno d)) (turnos s)) s)
    as [b [Hb Hiff]].
  { intros id' c Hin Hne. by eapply candidatos_bien_formados. }
  exists b. split; [done|]. rewrite Hiff. unfold conflicto. split.
  - intros (id'&c&f'&Hin&Hne&Hp&Hf&Hlt1&Hlt2).
    apply elem_of_consulta in Hin as [Hl [Hv _]]. eauto 12.
  - intros (id'&c&f'&Hl&Hne&Hv&Hp&Hf&Hlt1&Hlt2).
    exists id', c, f'. split_and!; try done.
    apply elem_of_consulta. split_and!; try done.
    rewrite Hf. simpl. left. apply Hlt2.
Qed.

(** X21: the overlap test in whole seconds.  With every appointment starting
    and ending within the range of Timestamp, and every other confirmed or
    pending appointment naming its therapy, an appointment whose therapy
    exists and has a practitioner fails with already-exists exactly when some
    other confirmed or pending appointment of the same practitioner satisfies
    a.startAt < c.endAt and a.endAt > c.startAt, the four times compared by
    their whole seconds; without such an appointment it is admitted, in
    particular when every other appointment of the practitioner ends exactly
    at its start. *)
Theorem reservarTurno_solapamiento commitFalla s id terapiaId fecha te p :
  terapias s !! terapiaId = Some te →
  presente (te_profesionalId te) = Some p →
  turnosConTerapia s id →
  turnosEnRango s →
  valido fecha →
  valido (endAt fecha (o_si_no (te_duracionMinutos te) 0)) →
  let fin := endAt fecha (o_si_no (te_duracionMinutos te) 0) in
  let tx := (runTransaction commitFalla (transaccionTurno id terapiaId fecha) s).2 in
  ((∃ m, tx = inl (HttpsError AlreadyExists m)) ↔ conflicto segundos_lt s id p fecha fin)
  ∧ (¬ conflicto segundos_lt s id p fecha fin → commitFalla = false → tx = inr tt)
  ∧ ((∀ id' c f', turnos s !! id' = Some c → id' ≠ id → vigente c →
                  practitionerId s c = Some p → t_fechaTurno c = Some f' →
                  endAt f' (durationMinutes s c) = fecha) →
     commitFalla = false → tx = inr tt).
Proof.
  intros Ht Hp Hwf Hrango Hv Hv' fin tx.
  destruct (buscarSolapamiento_conflicto s id p fecha fin Hwf Hrango) as [b [Hb Hiff]].
  assert (tx = if b then inl (HttpsError AlreadyExists yaReservado)
               else if commitFalla then inl OtroError else inr tt) as Htx.
  { subst tx.
    rewrite runTransaction_run,
      (transaccionTurno_run _ _ _ _ _ _ fin Ht Hp (finTurno_endAt _ _ Hv Hv')).
    cbv zeta. rewrite Hb. by destruct b. }
  assert (¬ conflicto segundos_lt s id p fecha fin → commitFalla = false → tx = inr tt)
    as Hadm.
  { intros Hno ->. rewrite Htx. destruct b; [|done]. destruct Hno. by apply Hiff. }
  split_and!; [|done|].
  - rewrite Htx, <- Hiff. destruct b; [split; eauto|].
    split; [|done]. intros [m Hm]. by destruct commitFalla.
  - intros Hback. apply Hadm.
    intros (id'&c&f'&Hl&Hne&Hvig&Hpc&Hf&Hlt1&_).
    rewrite (Hback _ _ _ Hl Hne Hvig Hpc Hf) in Hlt1. unfold segundos_lt in Hlt1. lia.
Qed.

(** C6: when the admission transaction aborts, the trigger issues exactly one
    write, an update of the record to estado fallida whose motivoFalla is the
    message of the HttpsError thrown (the specific message of not-found,
    resource-exhausted, failed-precondition or already-exists) or, for any
    other error, the generic reason. *)
Theorem C6_failure_write commitFalla s id :
  (∀ (r : Reserva) actividadId fecha lect error,
     presente (r_actividadId r) = Some actividadId →
     r_fechaActividad r = Some fecha →
     runTransaction commitFalla
       (transaccionReserva id actividadId fecha (aDoble (seatsRequested r))) s
     = (lect, inl error) →
     let res := reservarActividad commitFalla s (Some (id, r)) in
     escrituras res = [Actualizar Reservas id (fallida (motivoDe error))]
     ∧ p_estado (fallida (motivoDe error)) = Some "fallida"
     ∧ p_motivoFalla (fallida (motivoDe error)) = Some (motivoDe error)
     ∧ (∀ r0, reservas s !! id = Some r0 →
          ∃ r1, reservas (almacen res) !! id = Some r1
                ∧ r_estado r1 = Some "fallida"
                ∧ r_motivoFalla r1 = Some (motivoDe error)
                ∧ failureReason r1 = Some (motivoDe error))
     ∧ (error = OtroError ∧ motivoDe error = "Error interno del servidor."
        ∨ error = HttpsError NotFound (actividadNoExiste actividadId)
          ∧ motivoDe error = actividadNoExiste actividadId
        ∨ ∃ act disponible,
            error = HttpsError ResourceExhausted (sinCupo act fecha disponible)
            ∧ motivoDe error = sinCupo act fecha disponible))
  ∧ (∀ (t : Turno) terapiaId fecha usuarioId lect error,
       presente (t_terapiaId t) = Some terapiaId →
       t_fechaTurno t = Some fecha →
       presente (t_usuarioId t) = Some usuarioId →
       runTransaction commitFalla (transaccionTurno id terapiaId fecha) s
       = (lect, inl error) →
       let res := reservarTurno commitFalla s (Some (id, t)) in
       escrituras res = [Actualizar Turnos id (fallida (motivoDe error))]
       ∧ (∀ t0, turnos s !! id = Some t0 →
            ∃ t1, turnos (almacen res) !! id = Some t1
                  ∧ t_estado t1 = Some "fallida"
                  ∧ t_motivoFalla t1 = Some (motivoDe error)
                  ∧ failureReasonTurno t1 = Some (motivoDe error))
       ∧ (error = OtroError ∧ motivoDe error = "Error interno del servidor."
          ∨ error = HttpsError NotFound (terapiaNoExiste terapiaId)
            ∧ motivoDe error = terapiaNoExiste terapiaId
          ∨ (∃ te, error = HttpsError FailedPrecondition (sinProfesional te)
                   ∧ motivoDe error = sinProfesional te)
          ∨ error = HttpsError AlreadyExists yaReservado
            ∧ motivoDe error = yaReservado)).
Proof.
  split.
  - intros r actividadId fecha lect error Ha Hf Htx res. subst res.
    rewrite (reservarActividad_run _ _ _ _ _ _ Ha Hf), Htx. simpl.
    split_and!; [done..| |].
    + intros r0 Hr0. rewrite lookup_alter_eq, Hr0. simpl. eauto.
    + destruct (transaccionReserva_errores _ _ _ _ _ _ _ _ Htx)
        as [->|[->|(act&disp&->)]]; eauto 10.
  - intros t terapiaId fecha usuarioId lect error Ht Hf Hu Htx res. subst res.
    rewrite (reservarTurno_run _ _ _ _ _ _ _ Ht Hf Hu), Htx. simpl.
    split_and!; [done| |].
    + intros t0 Ht0. rewrite lookup_alter_eq, Ht0. simpl. eauto.
    + destruct (transaccionTurno_errores _ _ _ _ _ _ _ Htx)
        as [->|[(_&->&_)|[(te&_&_&->&_)|(te&p&_&_&->)]]]; eauto 10.
Qed.

(** C9: a reservation without actividadId or fechaActividad, and an
    appointment without terapiaId, fechaTurno or usuarioId (absent, or the
    empty string), is deleted: the delete is the only write, nothing is read
    (no transaction runs) and the document is gone from the store. *)
Theorem C9_incomplete_deleted commitFalla s id :
  (∀ r : Reserva,
     presente (r_actividadId r) = None ∨ r_fechaActividad r = None →
     let res := reservarActividad commitFalla s (Some (id, r)) in
     lecturas res = [] ∧ escrituras res = [Borrar Reservas id]
     ∧ reservas (almacen res) !! id = None
     ∧ ∀ id', id' ≠ id → reservas (almacen res) !! id' = reservas s !! id')
  ∧ (∀ t : Turno,
       presente (t_terapiaId t) = None ∨ t_fechaTurno t = None
       ∨ presente (t_usuarioId t) = None →
       let res := reservarTurno commitFalla s (Some (id, t)) in
       lecturas res = [] ∧ escrituras res = [Borrar Turnos id]
       ∧ turnos (almacen res) !! id = None
       ∧ ∀ id', id' ≠ id → turnos (almacen res) !! id' = turnos s !! id').
Proof.
  split.
  - intros r Hmiss res.
    assert (res = escribir [] s (Borrar Reservas id)) as ->.
    { subst res. unfold reservarActividad.
      destruct Hmiss as [-> | ->]; [done|]. by destruct (presente _). }
    simpl. split_and!; [done|done|apply lookup_delete_eq|].
    intros id' Hne. by apply lookup_delete_ne.
  - intros t Hmiss res.
    assert (res = escribir [] s (Borrar Turnos id)) as ->.
    { subst res. unfold reservarTurno.
      destruct Hmiss as [-> | [-> | ->]]; [done| |].
      - by destruct (presente _).
      - by destruct (presente _), (t_fechaTurno t). }
    simpl. split_and!; [done|done|apply lookup_delete_eq|].
    intros id' Hne. by apply lookup_delete_ne.
Qed.

(** ** Batches of updates *)

Lemma store_eq s s' :
  actividades s = actividades s' → reservas s = reservas s' →
  terapias s = terapias s' → turnos s = turnos s' → s = s'.
Proof. destruct s, s'; simpl; by intros -> -> -> ->. Qed.

Lemma parchearReserva_idemp p r :
  parchearReserva p (parchearReserva p r) = parchearReserva p r.
Proof. by destruct p as [[?|] [?|] [?|] [?|]]. Qed.

Lemma parchearTurno_idemp p t :
  parchearTurno p (parchearTurno p t) = parchearTurno p t.
Proof. by destruct p as [[?|] [?|] [?|] [?|]]. Qed.

Lemma foldl_actualizar_reservas p (l : list (string * Reserva)) s :
  let s' := foldl aplicar s ((λ doc, Actualizar Reservas doc.1 p) <$> l) in
  actividades s' = actividades s ∧ terapias s' = terapias s ∧ turnos s' = turnos s
  ∧ ∀ id, reservas s' !! id
          = if decide (id ∈ l.*1) then parchearReserva p <$> reservas s !! id
            else reservas s !! id.
Proof.
  revert s. induction l as [|[id0 d0] l IH]; intros s; csimpl; [done|].
  destruct (IH (conReservas s (alter (parchearReserva p) id0 (reservas s))))
    as (Ha&Hte&Htu&Hr).
  split_and!; try done. intros id. rewrite Hr. simpl.
  destruct (decide (id = id0)) as [->|Hne].
  - rewrite lookup_alter_eq, (decide_True (P := id0 ∈ id0 :: l.*1)) by left.
    case_decide; [|done].
    destruct (reservas s !! id0); simpl; [|done]. by rewrite parchearReserva_idemp.
  - rewrite lookup_alter_ne by done.
    case_decide as Hin.
    + by rewrite decide_True by by right.
    + rewrite decide_False; [done|]. intros [?|?]%elem_of_cons; done.
Qed.

Lemma foldl_actualizar_turnos p (l : list (string * Turno)) s :
  let s' := foldl aplicar s ((λ doc, Actualizar Turnos doc.1 p) <$> l) in
  actividades s' = actividades s ∧ terapias s' = terapias s ∧ reservas s' = reservas s
  ∧ ∀ id, turnos s' !! id
          = if decide (id ∈ l.*1) then parchearTurno p <$> turnos s !! id
            else turnos s !! id.
Proof.
  revert s. induction l as [|[id0 d0] l IH]; intros s; csimpl; [done|].
  destruct (IH (conTurnos s (alter (parchearTurno p) id0 (turnos s))))
    as (Ha&Hte&Hre&Ht).
  split_and!; try done. intros id. rewrite Ht. simpl.
  destruct (decide (id = id0)) as [->|Hne].
  - rewrite lookup_alter_eq, (decide_True (P := id0 ∈ id0 :: l.*1)) by left.
    case_decide; [|done].
    destruct (turnos s !! id0); simpl; [|done]. by rewrite parchearTurno_idemp.
  - rewrite lookup_alter_ne by done.
    case_decide as Hin.
    + by rewrite decide_True by by right.
    + rewrite decide_False; [done|]. intros [?|?]%elem_of_cons; done.
Qed.

(** A batch that updates the result of a query is accepted, and leaves the
    matching documents patched. *)
Lemma commit_reservas leb (donde : Reserva → Prop) `{!∀ d, Decision (donde d)} p s :
  commit s ((λ doc : string * Reserva, Actualizar Reservas doc.1 p)
            <$> consulta leb donde (reservas s))
  = Some (conReservas s (actualizarDonde donde (parchearReserva p) (reservas s))).
Proof.
  unfold commit. rewrite (proj2 (forallb_forall _ _)); last first.
  { intros w Hw%list_elem_of_In%list_elem_of_fmap. destruct Hw as [[id d] [-> Hin]].
    apply elem_of_consulta in Hin as [Hl _]. simpl. apply bool_decide_eq_true. eauto. }
  f_equal.
  destruct (foldl_actualizar_reservas p (consulta leb donde (reservas s)) s)
    as (Ha&Hte&Htu&Hr).
  apply store_eq; try done. simpl. apply map_eq. intros id.
  rewrite Hr. unfold actualizarDonde. rewrite lookup_fmap.
  case_decide as Hin.
  - apply elem_of_consulta_ids in Hin as [d [-> Hd]]. simpl. by rewrite decide_True.
  - destruct (reservas s !! id) as [d|] eqn:Hl; simpl; [|done].
    rewrite decide_False; [done|]. intros Hd. apply Hin, elem_of_consulta_ids. eauto.
Qed.

Lemma commit_turnos leb (donde : Turno → Prop) `{!∀ d, Decision (donde d)} p s :
  commit s ((λ doc : string * Turno, Actualizar Turnos doc.1 p)
            <$> consulta leb donde (turnos s))
  = Some (conTurnos s (actualizarDonde donde (parchearTurno p) (turnos s))).
Proof.
  unfold commit. rewrite (proj2 (forallb_forall _ _)); last first.
  { intros w Hw%list_elem_of_In%list_elem_of_fmap. destruct Hw as [[id d] [-> Hin]].
    apply elem_of_consulta in Hin as [Hl _]. simpl. apply bool_decide_eq_true. eauto. }
  f_equal.
  destruct (foldl_actualizar_turnos p (consulta leb donde (turnos s)) s)
    as (Ha&Hte&Hre&Ht).
  apply store_eq; try done. simpl. apply map_eq. intros id.
  rewrite Ht. unfold actualizarDonde. rewrite lookup_fmap.
  case_decide as Hin.
  - apply elem_of_consulta_ids in Hin as [d [-> Hd]]. simpl. by rewrite decide_True.
  - destruct (turnos s !! id) as [d|] eqn:Hl; simpl; [|done].
    rewrite decide_False; [done|]. intros Hd. apply Hin, elem_of_consulta_ids. eauto.
Qed.

(** ** The cascade *)

Lemma lookup_actualizarDonde {A} (donde : A → Prop) `{!∀ d, Decision (donde d)}
    (f : A → A) (col : gmap string A) id :
  actualizarDonde donde f col !! id
  = (λ d, if decide (donde d) then f d else d) <$> col !! id.
Proof. unfold actualizarDonde. by rewrite lookup_fmap. Qed.

Lemma consulta_actualizarDonde {A} leb (donde : A → Prop) `{!∀ d, Decision (donde d)}
    (f : A → A) (col : gmap string A) :
  (∀ d, donde d → ¬ donde (f d)) →
  consulta leb donde (actualizarDonde donde f col) = [].
Proof.
  intros Hf. apply consulta_vacia. intros id d.
  rewrite lookup_actualizarDonde. destruct (col !! id) as [d0|]; [|done].
  simpl. intros [= <-]. case_decide; auto.
Qed.

Lemma actualizarDonde_idemp {A} (donde : A → Prop) `{!∀ d, Decision (donde d)}
    (f : A → A) (col : gmap string A) :
  (∀ d, donde d → ¬ donde (f d)) →
  actualizarDonde donde f (actualizarDonde donde f col) = actualizarDonde donde f col.
Proof.
  intros Hf. apply map_eq. intros id. rewrite !lookup_actualizarDonde.
  destruct (col !! id) as [d|]; [|done]. simpl. f_equal.
  destruct (decide (donde d)) as [Hd|Hd].
  - rewrite decide_False; [done|]. by apply Hf.
  - by rewrite decide_False.
Qed.

Lemma reservasQuery_cancelado fi ff filtro motivo ahora d :
  reservasQuery fi ff filtro d →
  ¬ reservasQuery fi ff filtro (parchearReserva (cancelado motivo ahora) d).
Proof. intros _ (_&He&_). done. Qed.

Lemma turnosQuery_cancelado fi ff filtro motivo ahora d :
  turnosQuery fi ff filtro d →
  ¬ turnosQuery fi ff filtro (parchearTurno (cancelado motivo ahora) d).
Proof. intros _ (_&He&_). done. Qed.

Lemma filtroTurnos_terapias susp s s' :
  terapias s = terapias s' → filtroTurnos susp s = filtroTurnos susp s'.
Proof. intros Ht. unfold filtroTurnos. by rewrite Ht. Qed.

Lemma lote_Some {A} c motivo ahora (docs : list (string * A)) :
  lote c (Some motivo) ahora docs
  = Some ((λ doc : string * A, Actualizar c doc.1 (cancelado motivo ahora)) <$> docs).
Proof. by destruct docs. Qed.

(** The trigger on a suspension that cascades and carries a motivo, its
    batches committed. *)
Lemma procesarSuspension_run aR aT s susp fi ff motivo :
  s_afectaReservasExistentes susp = true →
  s_fechaInicio susp = Some fi →
  s_fechaFin susp = Some ff →
  s_motivo susp = Some motivo →
  let qR := reservasQuery fi ff (filtroReservas susp) in
  let batchR :=
    (λ doc : string * Reserva,
       Actualizar Reservas doc.1 (cancelado motivo aR))
    <$> consulta (porFecha r_fechaActividad) qR (reservas s) in
  let s1 :=
    conReservas s
      (actualizarDonde qR (parchearReserva (cancelado motivo aR)) (reservas s)) in
  procesarSuspension aR aT s (Some susp)
  = match filtroTurnos susp s with
    | (lect, Invalida) =>
        {| lecturas := ConsultarReservas :: lect ++ [ConsultarTurnos];
           escrituras := batchR; almacen := s1; rechazo := true |}
    | (lect, Salir) =>
        {| lecturas := ConsultarReservas :: lect; escrituras := batchR;
           almacen := s1; rechazo := false |}
    | (lect, Consultar filtro) =>
        {| lecturas := ConsultarReservas :: lect ++ [ConsultarTurnos];
           escrituras :=
             batchR ++
             ((λ doc : string * Turno,
                 Actualizar Turnos doc.1 (cancelado motivo aT))
              <$> consulta (porFecha t_fechaTurno) (turnosQuery fi ff filtro) (turnos s));
           almacen :=
             conTurnos s1
               (actualizarDonde (turnosQuery fi ff filtro)
                  (parchearTurno (cancelado motivo aT)) (turnos s));
           rechazo := false |}
    end.
Proof.
  intros Hafecta Hfi Hff Hmotivo qR batchR s1. unfold procesarSuspension.
  rewrite Hafecta, Hfi, Hff, Hmotivo. simpl negb. cbv iota zeta.
  rewrite lote_Some, commit_reservas. fold qR s1 batchR.
  rewrite (filtroTurnos_terapias susp s1 s) by done.
  destruct (filtroTurnos susp s) as [lect [filtro| |]]; [|done|done].
  by rewrite lote_Some, commit_turnos.
Qed.

(** Without a motivo no batch with a document can be built: nothing is
    written, and the invocation is rejected as soon as a query gives one. *)
Lemma procesarSuspension_sin_motivo_run aR aT s susp fi ff :
  s_afectaReservasExistentes susp = true →
  s_fechaInicio susp = Some fi →
  s_fechaFin susp = Some ff →
  s_motivo susp = None →
  let res := procesarSuspension aR aT s (Some susp) in
  escrituras res = [] ∧ almacen res = s
  ∧ (consulta (porFecha r_fechaActividad)
       (reservasQuery fi ff (filtroReservas susp)) (reservas s) ≠ [] →
     rechazo res = true ∧ lecturas res = [ConsultarReservas]).
Proof.
  intros Hafecta Hfi Hff Hmotivo res. subst res. unfold procesarSuspension.
  rewrite Hafecta, Hfi, Hff, Hmotivo. simpl negb. cbv iota zeta.
  destruct (consulta (porFecha r_fechaActividad)
              (reservasQuery fi ff (filtroReservas susp)) (reservas s)) as [|doc docs];
    cbn [lote]; [|by split_and!].
  change (commit s []) with (Some s). cbv iota.
  destruct (filtroTurnos susp s) as [lect [filtro| |]]; [|by split_and!..].
  destruct (consulta (porFecha t_fechaTurno) (turnosQuery fi ff filtro) (turnos s))
    as [|doc docs]; cbn [lote]; [|by split_and!].
  change (commit s []) with (Some s). by split_and!.
Qed.

(** C3: the cascade is idempotent.  Run again on the store it left, for the
    same suspension document, it issues no write and leaves the store as it
    was, so the cancelled records are those of the first run. *)
Theorem C3_cascade_idempotent aR aT aR' aT' s despues :
  let r1 := procesarSuspension aR aT s despues in
  let r2 := procesarSuspension aR' aT' (almacen r1) despues in
  escrituras r2 = [] ∧ almacen r2 = almacen r1
  ∧ reservasCanceladas (almacen r2) = reservasCanceladas (almacen r1)
  ∧ turnosCancelados (almacen r2) = turnosCancelados (almacen r1).
Proof.
  intros r1 r2.
  assert (escrituras r2 = [] ∧ almacen r2 = almacen r1) as [Hw Hs];
    [|by rewrite Hs].
  subst r1 r2. destruct despues as [susp|]; [|done].
  destruct (s_afectaReservasExistentes susp) eqn:Hafecta;
    [|unfold procesarSuspension; by rewrite Hafecta].
  destruct (s_fechaInicio susp) as [fi|] eqn:Hfi;
    [|unfold procesarSuspension; by rewrite Hafecta, Hfi].
  destruct (s_fechaFin susp) as [ff|] eqn:Hff;
    [|unfold procesarSuspension; by rewrite Hafecta, Hfi, Hff].
  destruct (s_motivo susp) as [motivo|] eqn:Hmotivo; last first.
  { destruct (procesarSuspension_sin_motivo_run aR aT s susp fi ff
                Hafecta Hfi Hff Hmotivo) as (_ & -> & _).
    destruct (procesarSuspension_sin_motivo_run aR' aT' s susp fi ff
                Hafecta Hfi Hff Hmotivo) as (? & ? & _). done. }
  rewrite (procesarSuspension_run aR aT s susp fi ff motivo Hafecta Hfi Hff Hmotivo).
  cbv zeta.
  set (qR := reservasQuery fi ff (filtroReservas susp)).
  set (s1 := conReservas s _).
  assert (∀ a, consulta (porFecha r_fechaActividad) qR (reservas s1) = []
               ∧ actualizarDonde qR (parchearReserva (cancelado motivo a))
                   (reservas s1) = reservas s1) as Hres.
  { intros a. subst s1. simpl. split.
    - apply consulta_actualizarDonde. intros d. apply reservasQuery_cancelado.
    - apply map_eq. intros id. rewrite !lookup_actualizarDonde.
      destruct (reservas s !! id) as [d|]; [|done]. simpl. f_equal.
      destruct (decide (qR d)) as [Hd|Hd].
      + rewrite decide_False; [done|]. by apply reservasQuery_cancelado.
      + by rewrite decide_False. }
  destruct (filtroTurnos susp s) as [lect sel] eqn:Hsel.
  assert (filtroTurnos susp s1 = (lect, sel)) as Hsel1
    by (by rewrite (filtroTurnos_terapias susp s1 s)).
  destruct sel as [filtro| |]; cbn [almacen].
  - set (qT := turnosQuery fi ff filtro). set (s2 := conTurnos s1 _).
    rewrite (procesarSuspension_run aR' aT' s2 susp fi ff motivo
               Hafecta Hfi Hff Hmotivo). cbv zeta.
    rewrite (filtroTurnos_terapias susp s2 s) by done. rewrite Hsel. cbn [escrituras almacen].
    change (reservas s2) with (reservas s1). fold qR qT.
    destruct (Hres aR') as [-> ->].
    assert (consulta (porFecha t_fechaTurno) qT (turnos s2) = []) as ->.
    { subst s2. simpl. apply consulta_actualizarDonde. intros d.
      apply turnosQuery_cancelado. }
    split; [done|]. apply store_eq; try done. subst s2. simpl.
    apply map_eq. intros id. rewrite !lookup_actualizarDonde.
    destruct (turnos s !! id) as [d|]; [|done]. simpl. f_equal.
    destruct (decide (qT d)) as [Hd|Hd].
    + rewrite decide_False; [done|]. by apply turnosQuery_cancelado.
    + by rewrite decide_False.
  - rewrite (procesarSuspension_run aR' aT' s1 susp fi ff motivo
               Hafecta Hfi Hff Hmotivo). cbv zeta.
    rewrite Hsel1. cbn [escrituras almacen]. fold qR.
    destruct (Hres aR') as [-> ->]. split; [done|]. by apply store_eq.
  - rewrite (procesarSuspension_run aR' aT' s1 susp fi ff motivo
               Hafecta Hfi Hff Hmotivo). cbv zeta.
    rewrite Hsel1. cbn [escrituras almacen]. fold qR.
    destruct (Hres aR') as [-> ->]. split; [done|]. by apply store_eq.
Qed.

Lemma procesarSuspension_reservas aR aT s susp fi ff motivo id :
  s_afectaReservasExistentes susp = true →
  s_fechaInicio susp = Some fi →
  s_fechaFin susp = Some ff →
  s_motivo susp = Some motivo →
  reservas (almacen (procesarSuspension aR aT s (Some susp))) !! id
  = (λ d, if decide (reservasQuery fi ff (filtroReservas susp) d)
          then parchearReserva (cancelado motivo aR) d else d)
    <$> reservas s !! id.
Proof.
  intros Hafecta Hfi Hff Hmotivo.
  rewrite (procesarSuspension_run aR aT s susp fi ff motivo Hafecta Hfi Hff Hmotivo).
  cbv zeta.
  destruct (filtroTurnos susp s) as [lect [filtro| |]]; simpl;
    apply lookup_actualizarDonde.
Qed.

(** Every write of the cascade turns a confirmed record into a cancelled one. *)
Lemma procesarSuspension_transicion aR aT s despues :
  (∀ id r, reservas s !! id = Some r →
     ∃ r', reservas (almacen (procesarSuspension aR aT s despues)) !! id = Some r'
           ∧ (r' = r ∨ r_estado r = Some "confirmada"
                        ∧ r_estado r' = Some "cancelado_por_admin"))
  ∧ (∀ id t, turnos s !! id = Some t →
       ∃ t', turnos (almacen (procesarSuspension aR aT s despues)) !! id = Some t'
             ∧ (t' = t ∨ t_estado t = Some "confirmado"
                          ∧ t_estado t' = Some "cancelado_por_admin")).
Proof.
  destruct despues as [susp|]; [|split; simpl; eauto].
  destruct (s_afectaReservasExistentes susp) eqn:Hafecta;
    [|unfold procesarSuspension; rewrite Hafecta; split; simpl; eauto].
  destruct (s_fechaInicio susp) as [fi|] eqn:Hfi;
    [|unfold procesarSuspension; rewrite Hafecta, Hfi; split; simpl; eauto].
  destruct (s_fechaFin susp) as [ff|] eqn:Hff;
    [|unfold procesarSuspension; rewrite Hafecta, Hfi, Hff; split; simpl; eauto].
  destruct (s_motivo susp) as [motivo|] eqn:Hmotivo; last first.
  { destruct (procesarSuspension_sin_motivo_run aR aT s susp fi ff
                Hafecta Hfi Hff Hmotivo) as (_ & -> & _). split; eauto. }
  split.
  - intros id r Hr.
    rewrite (procesarSuspension_reservas aR aT s susp fi ff motivo id
               Hafecta Hfi Hff Hmotivo), Hr.
    simpl. eexists. split; [done|].
    case_decide as Hq; [|by left]. right. by destruct Hq as (_&He&_).
  - intros id t Ht.
    rewrite (procesarSuspension_run aR aT s susp fi ff motivo Hafecta Hfi Hff Hmotivo).
    cbv zeta.
    destruct (filtroTurnos susp s) as [lect [filtro| |]]; simpl; [|eauto..].
    rewrite lookup_actualizarDonde, Ht. simpl. eexists. split; [done|].
    case_decide as Hq; [|by left]. right. by destruct Hq as (_&He&_).
Qed.

(** C5: under a suspension of activity A1 that cascades, with its reason
    (motivo), a confirmed reservation of A1 inside the window becomes
    cancelado_por_admin with the reason of the suspension as its failure
    reason (stored in motivoCancelacion, with the commit time in
    fechaCancelacion, the other fields kept); a reservation of another
    activity, outside the window or not confirmed is left as it was. *)
Theorem C5_activity_cascade aR aT s susp fi ff A1 motivo :
  s_afectaReservasExistentes susp = true →
  s_tipo susp = Some "actividad" →
  presente (s_actividadId susp) = Some A1 →
  s_fechaInicio susp = Some fi →
  s_fechaFin susp = Some ff →
  s_motivo susp = Some motivo →
  let res := procesarSuspension aR aT s (Some susp) in
  (∀ id r, reservas s !! id = Some r →
     r_actividadId r = Some A1 → r_estado r = Some "confirmada" →
     enVentana fi ff (r_fechaActividad r) →
     ∃ r', reservas (almacen res) !! id = Some r'
           ∧ r_estado r' = Some "cancelado_por_admin"
           ∧ failureReason r' = Some motivo
           ∧ r_motivoCancelacion r' = Some motivo
           ∧ r_fechaCancelacion r' = Some aR
           ∧ r_motivoFalla r' = r_motivoFalla r
           ∧ r_actividadId r' = r_actividadId r
           ∧ r_fechaActividad r' = r_fechaActividad r
           ∧ r_cupoTomado r' = r_cupoTomado r)
  ∧ (∀ id r, reservas s !! id = Some r →
       r_actividadId r ≠ Some A1 ∨ ¬ enVentana fi ff (r_fechaActividad r)
       ∨ r_estado r ≠ Some "confirmada" →
       reservas (almacen res) !! id = Some r).
Proof.
  intros Hafecta Htipo Hact Hfi Hff Hmotivo res. subst res.
  assert (filtroReservas susp = Igual A1) as Hfiltro.
  { unfold filtroReservas. by rewrite Htipo, Hact. }
  split.
  - intros id r Hr Ha He Hv.
    rewrite (procesarSuspension_reservas aR aT s susp fi ff motivo id
               Hafecta Hfi Hff Hmotivo), Hr.
    simpl. rewrite decide_True.
    + eexists. split; [done|]. by simpl.
    + unfold reservasQuery. by rewrite Hfiltro.
  - intros id r Hr Hno.
    rewrite (procesarSuspension_reservas aR aT s susp fi ff motivo id
               Hafecta Hfi Hff Hmotivo), Hr.
    simpl. rewrite decide_False; [done|].
    unfold reservasQuery. rewrite Hfiltro. simpl. intros (Hv&He&Ha).
    destruct Hno as [?|[?|?]]; done.
Qed.

(** C8: when the suspension document was deleted, or does not ask to cascade,
    the trigger reads nothing, writes nothing and leaves every reservation and
    appointment as it was. *)
Theorem C8_no_cascade aR aT s despues :
  despues = None
  ∨ (∃ susp, despues = Some susp ∧ s_afectaReservasExistentes susp = false) →
  let res := procesarSuspension aR aT s despues in
  escrituras res = [] ∧ lecturas res = [] ∧ almacen res = s
  ∧ reservas (almacen res) = reservas s ∧ turnos (almacen res) = turnos s.
Proof.
  intros [-> | (susp & -> & Hafecta)] res; subst res; [done|].
  unfold procesarSuspension. by rewrite Hafecta.
Qed.

(** C4, as the code has it: an admission trigger issues at most one write on
    its record.  When a required field is missing the record is deleted; when
    the transaction aborts the record is set to fallida, with the reason of the
    error; when the transaction commits nothing is written and the store (the
    status of the record with it) stays as it was: the trigger never writes a
    confirmed status.  The cascade keeps every record, and changes only
    confirmed ones, to cancelado_por_admin. *)
Theorem C4_lifecycle commitFalla aR aT s :
  (∀ id (r : Reserva),
     let res := reservarActividad commitFalla s (Some (id, r)) in
     (length (escrituras res) ≤ 1)%nat
     ∧ (presente (r_actividadId r) = None ∨ r_fechaActividad r = None →
        escrituras res = [Borrar Reservas id] ∧ reservas (almacen res) !! id = None)
     ∧ (∀ actividadId fecha,
          presente (r_actividadId r) = Some actividadId →
          r_fechaActividad r = Some fecha →
          let tx := (runTransaction commitFalla
                       (transaccionReserva id actividadId fecha
                          (aDoble (seatsRequested r))) s).2 in
          (∀ error, tx = inl error →
             escrituras res = [Actualizar Reservas id (fallida (motivoDe error))]
             ∧ ∀ r0, reservas s !! id = Some r0 →
                 ∃ r1, reservas (almacen res) !! id = Some r1
                       ∧ r_estado r1 = Some "fallida"
                       ∧ r_motivoFalla r1 = Some (motivoDe error))
          ∧ (tx = inr tt → escrituras res = [] ∧ almacen res = s)))
  ∧ (∀ id (t : Turno),
       let res := reservarTurno commitFalla s (Some (id, t)) in
       (length (escrituras res) ≤ 1)%nat
       ∧ (presente (t_terapiaId t) = None ∨ t_fechaTurno t = None
          ∨ presente (t_usuarioId t) = None →
          escrituras res = [Borrar Turnos id] ∧ turnos (almacen res) !! id = None)
       ∧ (∀ terapiaId fecha usuarioId,
            presente (t_terapiaId t) = Some terapiaId →
            t_fechaTurno t = Some fecha →
            presente (t_usuarioId t) = Some usuarioId →
            let tx := (runTransaction commitFalla
                         (transaccionTurno id terapiaId fecha) s).2 in
            (∀ error, tx = inl error →
               escrituras res = [Actualizar Turnos id (fallida (motivoDe error))]
               ∧ ∀ t0, turnos s !! id = Some t0 →
                   ∃ t1, turnos (almacen res) !! id = Some t1
                         ∧ t_estado t1 = Some "fallida"
                         ∧ t_motivoFalla t1 = Some (motivoDe error))
            ∧ (tx = inr tt → escrituras res = [] ∧ almacen res = s)))
  ∧ (∀ despues id r, reservas s !! id = Some r →
       ∃ r', reservas (almacen (procesarSuspension aR aT s despues)) !! id = Some r'
             ∧ (r' = r ∨ r_estado r = Some "confirmada"
                          ∧ r_estado r' = Some "cancelado_por_admin"))
  ∧ (∀ despues id t, turnos s !! id = Some t →
       ∃ t', turnos (almacen (procesarSuspension aR aT s despues)) !! id = Some t'
             ∧ (t' = t ∨ t_estado t = Some "confirmado"
                          ∧ t_estado t' = Some "cancelado_por_admin")).
Proof.
  split_and!.
  - intros id r res. subst res. split_and!.
    + unfold reservarActividad. repeat case_match; simpl; lia.
    + intros Hmiss.
      assert (reservarActividad commitFalla s (Some (id, r))
              = escribir [] s (Borrar Reservas id)) as ->.
      { unfold reservarActividad.
        destruct Hmiss as [-> | ->]; [done|]. by destruct (presente _). }
      simpl. split; [done|]. apply lookup_delete_eq.
    + intros actividadId fecha Ha Hf tx. subst tx.
      rewrite (reservarActividad_run _ _ _ _ _ _ Ha Hf).
      destruct (runTransaction _ _ _) as [lect [e|[]]]; simpl; split; try done.
      intros error [= <-]. split; [done|].
      intros r0 Hr0. rewrite lookup_alter_eq, Hr0. simpl. eauto.
  - intros id t res. subst res. split_and!.
    + unfold reservarTurno. repeat case_match; simpl; lia.
    + intros Hmiss.
      assert (reservarTurno commitFalla s (Some (id, t))
              = escribir [] s (Borrar Turnos id)) as ->.
      { unfold reservarTurno.
        destruct Hmiss as [-> | [-> | ->]]; [done| |].
        - by destruct (presente _).
        - by destruct (presente _), (t_fechaTurno t). }
      simpl. split; [done|]. apply lookup_delete_eq.
    + intros terapiaId fecha usuarioId Ht Hf Hu tx. subst tx.
      rewrite (reservarTurno_run _ _ _ _ _ _ _ Ht Hf Hu).
      destruct (runTransaction _ _ _) as [lect [e|[]]]; simpl; split; try done.
      intros error [= <-]. split; [done|].
      intros t0 Ht0. rewrite lookup_alter_eq, Ht0. simpl. eauto.
  - intros despues. apply procesarSuspension_transicion.
  - intros despues. apply procesarSuspension_transicion.
Qed.

(** ** Further properties of reservarActividad *)

(** The sum over a collection that holds [id], split at [id]. *)
Lemma sumaZ_filter_delete {A} (P : string * A → Prop) `{!∀ x, Decision (P x)}
    (g : A → Z) (m : gmap string A) id d :
  m !! id = Some d → P (id, d) →
  sumaZ (g <$> (map_to_list (filter P m)).*2)
  = g d + sumaZ (g <$> (map_to_list (filter P (delete id m))).*2).
Proof.
  intros Hl HP. rewrite map_filter_delete.
  assert (filter P m !! id = Some d) as Hf by by apply map_lookup_filter_Some.
  rewrite (sumaZ_perm _ (g <$> ((id, d) :: map_to_list (delete id (filter P m))).*2)).
  - done.
  - do 2 f_equiv. symmetry. by apply map_to_list_delete.
Qed.

Lemma occupied_ocupacion s id actividadId fecha :
  occupied s id actividadId fecha
  = sumaZ (seatsRequested <$>
             (map_to_list
                (filter (λ kv : string * Reserva,
                           r_actividadId kv.2 = Some actividadId
                           ∧ r_fechaActividad kv.2 = Some fecha ∧ activa kv.2)
                        (delete id (reservas s)))).*2).
Proof.
  clear toLocaleString numberToString.
  unfold occupied. do 4 f_equal. apply map_filter_strong_ext. intros i x.
  rewrite lookup_delete_Some. simpl. intuition congruence.
Qed.

(** The occupancy that the admission of [id] computes is the occupancy of the
    instance without the seats of [id] itself. *)
Lemma ocupacion_occupied s id r actividadId fecha :
  reservas s !! id = Some r →
  r_actividadId r = Some actividadId → r_fechaActividad r = Some fecha → activa r →
  ocupacion s actividadId fecha = seatsRequested r + occupied s id actividadId fecha.
Proof.
  intros Hl Ha Hf Hact. rewrite occupied_ocupacion. unfold ocupacion.
  by apply (sumaZ_filter_delete _ seatsRequested (reservas s) id r).
Qed.

(** X1: the reservation transaction fails with not-found exactly when the
    activity document is missing; the activity is then the only document
    read and the record is marked fallida with the message of the error. *)
Theorem reservarActividad_not_found commitFalla s id (r : Reserva) actividadId fecha :
  presente (r_actividadId r) = Some actividadId →
  r_fechaActividad r = Some fecha →
  let tx := runTransaction commitFalla
              (transaccionReserva id actividadId fecha (aDoble (seatsRequested r))) s in
  let res := reservarActividad commitFalla s (Some (id, r)) in
  ((∃ m, tx.2 = inl (HttpsError NotFound m)) ↔ actividades s !! actividadId = None)
  ∧ (actividades s !! actividadId = None →
     lecturas res = [LeerActividad actividadId]
     ∧ escrituras res
       = [Actualizar Reservas id (fallida (actividadNoExiste actividadId))]).
Proof.
  intros Ha Hf tx res. subst tx res.
  rewrite (reservarActividad_run _ _ _ _ _ _ Ha Hf), runTransaction_run.
  destruct (actividades s !! actividadId) as [act|] eqn:Hact.
  - rewrite (transaccionReserva_run _ _ _ _ _ _ Hact). cbv zeta.
    split; [|done]. split; [|done].
    destruct (menor _ _); [|destruct commitFalla]; by intros [m Hm].
  - rewrite (transaccionReserva_sin_actividad _ _ _ _ _ Hact). simpl.
    split; [|done]. split; eauto.
Qed.

(** X2: an admission trigger writes to no document but its own: the
    activities, the therapies, the other collection of bookings and every
    other booking of its collection are left as they were. *)
Theorem admission_frame commitFalla s id :
  (∀ r : Reserva,
     let res := reservarActividad commitFalla s (Some (id, r)) in
     actividades (almacen res) = actividades s ∧ terapias (almacen res) = terapias s
     ∧ turnos (almacen res) = turnos s
     ∧ ∀ id', id' ≠ id → reservas (almacen res) !! id' = reservas s !! id')
  ∧ (∀ t : Turno,
       let res := reservarTurno commitFalla s (Some (id, t)) in
       actividades (almacen res) = actividades s ∧ terapias (almacen res) = terapias s
       ∧ reservas (almacen res) = reservas s
       ∧ ∀ id', id' ≠ id → turnos (almacen res) !! id' = turnos s !! id').
Proof.
  split.
  - intros r res. subst res. unfold reservarActividad.
    repeat case_match; simpl; split_and!; try done; intros id' Hne;
      by rewrite ?lookup_alter_ne, ?lookup_delete_ne.
  - intros t res. subst res. unfold reservarTurno.
    repeat case_match; simpl; split_and!; try done; intros id' Hne;
      by rewrite ?lookup_alter_ne, ?lookup_delete_ne.
Qed.

(** X3: no overbooking.  While the cupo and the seats of the confirmed or
    pending reservations of an instance add up, in absolute value, to less
    than 2^53 (so that the doubles the code computes with are exact): when
    the trigger of a stored, confirmed or pending reservation writes nothing
    (the reservation stands), the seats held on its instance, its own
    included, do not exceed the cupo of the activity. *)
Theorem reservarActividad_no_overbooking commitFalla s id (r : Reserva) actividadId fecha :
  reservas s !! id = Some r →
  presente (r_actividadId r) = Some actividadId →
  r_fechaActividad r = Some fecha →
  activa r →
  (∀ act, actividades s !! actividadId = Some act →
          exacto s id actividadId fecha act r) →
  escrituras (reservarActividad commitFalla s (Some (id, r))) = [] →
  ∃ act, actividades s !! actividadId = Some act
         ∧ ocupacion s actividadId fecha ≤ capacity act.
Proof.
  intros Hl Ha Hf Hact Hex.
  rewrite (reservarActividad_run _ _ _ _ _ _ Ha Hf), runTransaction_run.
  destruct (actividades s !! actividadId) as [act|] eqn:Hdoc.
  - rewrite (transaccionReserva_exacto _ _ _ _ _ _ Hdoc (Hex act eq_refl)). cbv zeta.
    case_bool_decide as Hlt; [done|]. intros _. exists act. split; [done|].
    apply presente_Some in Ha as [Ha _].
    rewrite (ocupacion_occupied s id r actividadId fecha Hl Ha Hf Hact). lia.
  - by rewrite (transaccionReserva_sin_actividad _ _ _ _ _ Hdoc).
Qed.

(** X4: a refused reservation gives its seats back.  When the trigger of a
    stored, confirmed or pending reservation marks it fallida, the seats held
    on its instance drop by its own, and no other instance changes. *)
Theorem reservarActividad_refusal_frees commitFalla s id (r : Reserva) actividadId fecha m :
  reservas s !! id = Some r →
  presente (r_actividadId r) = Some actividadId →
  r_fechaActividad r = Some fecha →
  activa r →
  escrituras (reservarActividad commitFalla s (Some (id, r)))
  = [Actualizar Reservas id (fallida m)] →
  let s' := almacen (reservarActividad commitFalla s (Some (id, r))) in
  ocupacion s' actividadId fecha = ocupacion s actividadId fecha - seatsRequested r
  ∧ ∀ a' f', (a', f') ≠ (actividadId, fecha) → ocupacion s' a' f' = ocupacion s a' f'.
Proof.
  intros Hl Ha Hf Hact.
  rewrite (reservarActividad_run _ _ _ _ _ _ Ha Hf).
  destruct (runTransaction _ _ _) as [lect [error|[]]]; [|done].
  intros _ s'. subst s'. simpl.
  apply presente_Some in Ha as [Ha _].
  assert (∀ a' f',
    filter (λ kv : string * Reserva,
              r_actividadId kv.2 = Some a' ∧ r_fechaActividad kv.2 = Some f' ∧ activa kv.2)
           (alter (parchearReserva (fallida (motivoDe error))) id (reservas s))
    = filter (λ kv : string * Reserva,
                r_actividadId kv.2 = Some a' ∧ r_fechaActividad kv.2 = Some f' ∧ activa kv.2)
             (delete id (reservas s))) as Hfil.
  { intros a' f'. apply map_filter_strong_ext. intros i x. simpl.
    rewrite lookup_delete_Some. destruct (decide (i = id)) as [->|Hne].
    - rewrite lookup_alter_eq, Hl. simpl. split; [|intuition congruence].
      intros [(_&_&[He|He]) [= <-]]; discriminate He.
    - rewrite lookup_alter_ne by done. intuition congruence. }
  split.
  - rewrite (ocupacion_occupied s id r actividadId fecha Hl Ha Hf Hact),
      occupied_ocupacion. unfold ocupacion. simpl. rewrite Hfil. lia.
  - intros a' f' Hne. unfold ocupacion. simpl. rewrite Hfil.
    do 4 f_equal. apply map_filter_strong_ext. intros i x. simpl.
    rewrite lookup_delete_Some. split; [intuition congruence|].
    intros [(Ha'&Hf'&Hx) Hi]. split_and!; try done.
    intros ->. rewrite Hl in Hi. injection Hi as <-. congruence.
Qed.

(** ** Further properties of reservarTurno *)

(** X5: therapies without a duration never collide.  Take a request whose
    therapy exists and has a practitioner, in a store where every other
    confirmed or pending appointment names its therapy and every appointment
    starts and ends within the range of Timestamp, the request too.  When no
    therapy of the store carries a duracionMinutos (absent or 0), every
    interval is empty and the request is not refused for overlap, whatever
    the practitioner already holds, the same instant included: it is admitted
    when the commit is accepted. *)
Theorem reservarTurno_sin_duracion commitFalla s id terapiaId fecha te p :
  terapias s !! terapiaId = Some te →
  presente (te_profesionalId te) = Some p →
  turnosConTerapia s id →
  turnosEnRango s →
  valido fecha →
  map_Forall (λ _ t, o_si_no (te_duracionMinutos t) 0 = 0) (terapias s) →
  let tx := (runTransaction commitFalla (transaccionTurno id terapiaId fecha) s).2 in
  (∀ m, tx ≠ inl (HttpsError AlreadyExists m))
  ∧ (commitFalla = false → tx = inr tt).
Proof.
  intros Ht Hp Hwf Hrango Hv Hdur tx.
  assert (valido (endAt fecha (o_si_no (te_duracionMinutos te) 0))) as Hv'.
  { rewrite (Hdur _ _ Ht). destruct Hv as [Hs Hn]. unfold valido, endAt. simpl.
    split; [lia|done]. }
  destruct (buscarSolapamiento_conflicto s id p fecha
              (endAt fecha (o_si_no (te_duracionMinutos te) 0)) Hwf Hrango)
    as [b [Hb Hiff]].
  assert (b = false) as ->.
  { destruct b; [|done]. exfalso.
    destruct (proj1 Hiff eq_refl) as (id'&c&f'&Hl&Hne&Hvig&Hpc&Hf&Hlt1&Hlt2).
    unfold segundos_lt, endAt in Hlt1, Hlt2. simpl in Hlt1, Hlt2.
    rewrite (Hdur _ _ Ht) in Hlt2.
    assert (durationMinutes s c = 0) as Hc.
    { unfold durationMinutes. unfold practitionerId in Hpc.
      destruct (terapiaDe s c) as [te'|] eqn:Hte; [|done].
      unfold terapiaDe in Hte. destruct (t_terapiaId c) as [tid|]; [|done].
      simpl in Hte. simpl. by apply (Hdur tid). }
    rewrite Hc in Hlt1. lia. }
  assert (tx = if commitFalla then inl OtroError else inr tt) as ->.
  { subst tx.
    rewrite runTransaction_run,
      (transaccionTurno_run _ _ _ _ _ _ _ Ht Hp (finTurno_endAt _ _ Hv Hv')).
    cbv zeta. by rewrite Hb. }
  split; [by destruct commitFalla | by intros ->].
Qed.

(** ** Further properties of procesarSuspension *)

Lemma procesarSuspension_turnos aR aT s susp fi ff motivo id :
  s_afectaReservasExistentes susp = true →
  s_fechaInicio susp = Some fi →
  s_fechaFin susp = Some ff →
  s_motivo susp = Some motivo →
  turnos (almacen (procesarSuspension aR aT s (Some susp))) !! id
  = match (filtroTurnos susp s).2 with
    | Consultar filtro =>
        (λ d, if decide (turnosQuery fi ff filtro d)
              then parchearTurno (cancelado motivo aT) d else d)
        <$> turnos s !! id
    | _ => turnos s !! id
    end.
Proof.
  intros Hafecta Hfi Hff Hmotivo.
  rewrite (procesarSuspension_run aR aT s susp fi ff motivo Hafecta Hfi Hff Hmotivo).
  cbv zeta.
  destruct (filtroTurnos susp s) as [lect [filtro| |]]; simpl; [|done..].
  apply lookup_actualizarDonde.
Qed.

Lemma cumple_En_profesor s p (t : Turno) :
  cumple (En (consulta porId (λ te, te_profesionalId te = Some p) (terapias s)).*1)
         (t_terapiaId t)
  ↔ practitionerId s t = Some p.
Proof.
  unfold practitionerId, terapiaDe. simpl.
  destruct (t_terapiaId t) as [tid|]; simpl; [|done].
  rewrite elem_of_consulta_ids. split.
  - intros (te & -> & Hte). done.
  - destruct (terapias s !! tid) as [te|]; [|done]. simpl. eauto.
Qed.

(** X6: the cascade of a practitioner.  When the suspension carries a motivo
    and the practitioner has therapies, and no more than an [in] filter
    takes, the confirmed appointments of the window whose therapy is one of
    the practitioner's are cancelled with the motivo of the suspension; every
    other appointment is left as it was. *)
Theorem procesarSuspension_profesor aR aT s susp fi ff p motivo :
  s_afectaReservasExistentes susp = true →
  s_tipo susp = Some "profesor" →
  presente (s_profesorId susp) = Some p →
  s_fechaInicio susp = Some fi →
  s_fechaFin susp = Some ff →
  s_motivo susp = Some motivo →
  let n := length (consulta porId (λ te, te_profesionalId te = Some p) (terapias s)) in
  (0 < n ≤ limiteIn)%nat →
  let res := procesarSuspension aR aT s (Some susp) in
  rechazo res = false
  ∧ ∀ id t, turnos s !! id = Some t →
      let afectado := t_estado t = Some "confirmado"
                      ∧ enVentana fi ff (t_fechaTurno t)
                      ∧ practitionerId s t = Some p in
      (afectado →
       turnos (almacen res) !! id
       = Some (parchearTurno (cancelado motivo aT) t))
      ∧ (¬ afectado → turnos (almacen res) !! id = Some t).
Proof.
  intros Hafecta Htipo Hprof Hfi Hff Hmotivo n Hn res. subst res.
  assert (filtroTurnos susp s
          = ([ConsultarTerapias],
             Consultar (En (consulta porId (λ te, te_profesionalId te = Some p)
                                     (terapias s)).*1))) as Hsel.
  { unfold filtroTurnos. rewrite Htipo, Hprof. simpl.
    rewrite length_fmap. fold n.
    by rewrite !bool_decide_true by lia. }
  split.
  { rewrite (procesarSuspension_run aR aT s susp fi ff motivo Hafecta Hfi Hff Hmotivo). cbv zeta.
    by rewrite Hsel. }
  intros id t Ht afectado. subst afectado.
  rewrite (procesarSuspension_turnos aR aT s susp fi ff motivo id
               Hafecta Hfi Hff Hmotivo), Hsel, Ht.
  simpl. unfold turnosQuery. split.
  - intros (He&Hv&Hp). rewrite decide_True; [done|].
    split_and!; try done. by apply cumple_En_profesor.
  - intros Hno. rewrite decide_False; [done|].
    intros (Hv&He&Hp). apply Hno. split_and!; try done. by apply cumple_En_profesor.
Qed.

(** X7: outside the practitioner's query the cascade stops short.  Take a
    suspension that carries a motivo.  Without any therapy of the
    practitioner it returns after the reservations; with more therapies than
    an [in] filter takes the query is refused and the invocation is rejected.
    In both cases no appointment changes, while the confirmed reservations of
    the window were cancelled, whatever their activity. *)
Theorem procesarSuspension_profesor_corto aR aT s susp fi ff p motivo :
  s_afectaReservasExistentes susp = true →
  s_tipo susp = Some "profesor" →
  presente (s_profesorId susp) = Some p →
  s_fechaInicio susp = Some fi →
  s_fechaFin susp = Some ff →
  s_motivo susp = Some motivo →
  let n := length (consulta porId (λ te, te_profesionalId te = Some p) (terapias s)) in
  (n = 0 ∨ limiteIn < n)%nat →
  let res := procesarSuspension aR aT s (Some susp) in
  turnos (almacen res) = turnos s
  ∧ rechazo res = bool_decide (limiteIn < n)%nat
  ∧ ∀ id r, reservas s !! id = Some r →
      r_estado r = Some "confirmada" → enVentana fi ff (r_fechaActividad r) →
      reservas (almacen res) !! id
      = Some (parchearReserva (cancelado motivo aR) r).
Proof.
  intros Hafecta Htipo Hprof Hfi Hff Hmotivo n Hn res. subst res.
  assert (filtroTurnos susp s
          = ([ConsultarTerapias],
             if bool_decide (limiteIn < n)%nat then Invalida else Salir)) as Hsel.
  { unfold filtroTurnos. rewrite Htipo, Hprof. simpl.
    rewrite length_fmap. fold n.
    destruct Hn as [Hn|Hn].
    - rewrite Hn.
      by rewrite (bool_decide_false (0 < 0)%nat),
        (bool_decide_false (limiteIn < 0)%nat) by lia.
    - rewrite bool_decide_true by lia.
      rewrite (bool_decide_false (n ≤ limiteIn)%nat) by lia.
      by rewrite bool_decide_true by lia. }
  split_and!.
  - rewrite (procesarSuspension_run aR aT s susp fi ff motivo Hafecta Hfi Hff Hmotivo). cbv zeta.
    rewrite Hsel. by case_bool_decide.
  - rewrite (procesarSuspension_run aR aT s susp fi ff motivo Hafecta Hfi Hff Hmotivo). cbv zeta.
    rewrite Hsel. by case_bool_decide.
  - intros id r Hr He Hv.
    rewrite (procesarSuspension_reservas aR aT s susp fi ff motivo id
               Hafecta Hfi Hff Hmotivo), Hr.
    simpl. rewrite decide_True; [done|].
    unfold reservasQuery, filtroReservas. by rewrite Htipo.
Qed.

(** X8: a suspension that carries a motivo and does not name an activity (its
    tipo is not actividad, or its actividadId is absent or empty) cancels
    every confirmed reservation of the window, of whatever activity, and
    leaves the reservations outside the window or not confirmed as they
    were. *)
Theorem procesarSuspension_sin_actividad aR aT s susp fi ff motivo :
  s_afectaReservasExistentes susp = true →
  s_tipo susp ≠ Some "actividad" ∨ presente (s_actividadId susp) = None →
  s_fechaInicio susp = Some fi →
  s_fechaFin susp = Some ff →
  s_motivo susp = Some motivo →
  let res := procesarSuspension aR aT s (Some susp) in
  ∀ id r, reservas s !! id = Some r →
    (r_estado r = Some "confirmada" ∧ enVentana fi ff (r_fechaActividad r) →
     reservas (almacen res) !! id
     = Some (parchearReserva (cancelado motivo aR) r))
    ∧ (¬ (r_estado r = Some "confirmada" ∧ enVentana fi ff (r_fechaActividad r)) →
       reservas (almacen res) !! id = Some r).
Proof.
  intros Hafecta Hsin Hfi Hff Hmotivo res id r Hr. subst res.
  assert (filtroReservas susp = Todos) as Hfiltro.
  { unfold filtroReservas. destruct Hsin as [Hsin| ->].
    - by rewrite bool_decide_false.
    - by case_bool_decide. }
  rewrite (procesarSuspension_reservas aR aT s susp fi ff motivo id
               Hafecta Hfi Hff Hmotivo), Hr.
  simpl. unfold reservasQuery. rewrite Hfiltro. simpl. split.
  - intros [He Hv]. by rewrite decide_True.
  - intros Hno. rewrite decide_False; [done|]. intros (Hv&He&_). by apply Hno.
Qed.

(** X9: the suspension of an activity, when it carries a motivo, reaches the
    appointments too, its actividadId read as a terapiaId: the confirmed
    appointments of the window whose terapiaId is that id are cancelled, and
    every other appointment is left as it was. *)
Theorem procesarSuspension_actividad_turnos aR aT s susp fi ff A1 motivo :
  s_afectaReservasExistentes susp = true →
  s_tipo susp = Some "actividad" →
  presente (s_actividadId susp) = Some A1 →
  s_fechaInicio susp = Some fi →
  s_fechaFin susp = Some ff →
  s_motivo susp = Some motivo →
  let res := procesarSuspension aR aT s (Some susp) in
  rechazo res = false
  ∧ ∀ id t, turnos s !! id = Some t →
      let afectado := t_estado t = Some "confirmado"
                      ∧ enVentana fi ff (t_fechaTurno t)
                      ∧ t_terapiaId t = Some A1 in
      (afectado →
       turnos (almacen res) !! id
       = Some (parchearTurno (cancelado motivo aT) t))
      ∧ (¬ afectado → turnos (almacen res) !! id = Some t).
Proof.
  intros Hafecta Htipo Hact Hfi Hff Hmotivo res. subst res.
  assert (filtroTurnos susp s = ([], Consultar (Igual A1))) as Hsel.
  { unfold filtroTurnos. by rewrite Htipo, Hact. }
  split.
  { rewrite (procesarSuspension_run aR aT s susp fi ff motivo Hafecta Hfi Hff Hmotivo). cbv zeta.
    by rewrite Hsel. }
  intros id t Ht afectado. subst afectado.
  rewrite (procesarSuspension_turnos aR aT s susp fi ff motivo id
               Hafecta Hfi Hff Hmotivo), Hsel, Ht.
  simpl. unfold turnosQuery. simpl. split.
  - intros (He&Hv&Hp). by rewrite decide_True.
  - intros Hno. rewrite decide_False; [done|]. intros (Hv&He&Hp). by apply Hno.
Qed.

(** X10: what the cascade never does.  Whatever the event, it leaves the
    activities and the therapies alone, neither creates nor deletes a
    booking, and keeps in every booking the fields that say what was booked
    and the motivoFalla: it writes estado, motivoCancelacion and
    fechaCancelacion only. *)
Theorem procesarSuspension_conserva aR aT s despues :
  let res := procesarSuspension aR aT s despues in
  actividades (almacen res) = actividades s
  ∧ terapias (almacen res) = terapias s
  ∧ dom (reservas (almacen res)) = dom (reservas s)
  ∧ dom (turnos (almacen res)) = dom (turnos s)
  ∧ (∀ id r r', reservas s !! id = Some r → reservas (almacen res) !! id = Some r' →
       r_actividadId r' = r_actividadId r ∧ r_fechaActividad r' = r_fechaActividad r
       ∧ r_cupoTomado r' = r_cupoTomado r ∧ r_motivoFalla r' = r_motivoFalla r)
  ∧ (∀ id t t', turnos s !! id = Some t → turnos (almacen res) !! id = Some t' →
       t_terapiaId t' = t_terapiaId t ∧ t_fechaTurno t' = t_fechaTurno t
       ∧ t_usuarioId t' = t_usuarioId t ∧ t_motivoFalla t' = t_motivoFalla t).
Proof.
  intros res. subst res.
  assert (∀ s', s' = s →
    actividades s' = actividades s ∧ terapias s' = terapias s
    ∧ dom (reservas s') = dom (reservas s) ∧ dom (turnos s') = dom (turnos s)
    ∧ (∀ id r r', reservas s !! id = Some r → reservas s' !! id = Some r' →
         r_actividadId r' = r_actividadId r ∧ r_fechaActividad r' = r_fechaActividad r
         ∧ r_cupoTomado r' = r_cupoTomado r ∧ r_motivoFalla r' = r_motivoFalla r)
    ∧ (∀ id t t', turnos s !! id = Some t → turnos s' !! id = Some t' →
         t_terapiaId t' = t_terapiaId t ∧ t_fechaTurno t' = t_fechaTurno t
         ∧ t_usuarioId t' = t_usuarioId t ∧ t_motivoFalla t' = t_motivoFalla t)) as Hid.
  { intros s' ->. split_and!; try done.
    - intros id r r' Hr Hr'. rewrite Hr in Hr'. by injection Hr' as <-.
    - intros id t t' Ht Ht'. rewrite Ht in Ht'. by injection Ht' as <-. }
  destruct despues as [susp|]; [|by apply Hid].
  destruct (s_afectaReservasExistentes susp) eqn:Hafecta;
    [|apply Hid; unfold procesarSuspension; by rewrite Hafecta].
  destruct (s_fechaInicio susp) as [fi|] eqn:Hfi;
    [|apply Hid; unfold procesarSuspension; by rewrite Hafecta, Hfi].
  destruct (s_fechaFin susp) as [ff|] eqn:Hff;
    [|apply Hid; unfold procesarSuspension; by rewrite Hafecta, Hfi, Hff].
  destruct (s_motivo susp) as [motivo|] eqn:Hmotivo; last first.
  { apply Hid.
    by destruct (procesarSuspension_sin_motivo_run aR aT s susp fi ff
                   Hafecta Hfi Hff Hmotivo) as (_ & -> & _). }
  assert (∀ id r r', reservas s !! id = Some r →
            reservas (almacen (procesarSuspension aR aT s (Some susp))) !! id = Some r' →
            r_actividadId r' = r_actividadId r ∧ r_fechaActividad r' = r_fechaActividad r
            ∧ r_cupoTomado r' = r_cupoTomado r ∧ r_motivoFalla r' = r_motivoFalla r)
    as Hres.
  { intros id r r' Hr.
    rewrite (procesarSuspension_reservas aR aT s susp fi ff motivo id
               Hafecta Hfi Hff Hmotivo), Hr.
    simpl. intros [= <-]. by case_decide. }
  assert (∀ id t t', turnos s !! id = Some t →
            turnos (almacen (procesarSuspension aR aT s (Some susp))) !! id = Some t' →
            t_terapiaId t' = t_terapiaId t ∧ t_fechaTurno t' = t_fechaTurno t
            ∧ t_usuarioId t' = t_usuarioId t ∧ t_motivoFalla t' = t_motivoFalla t)
    as Htur.
  { intros id t t' Ht.
    rewrite (procesarSuspension_turnos aR aT s susp fi ff motivo id
               Hafecta Hfi Hff Hmotivo), Ht.
    destruct (filtroTurnos susp s).2; simpl; intros [= <-]; [by case_decide|done..]. }
  split_and!; try done.
  - rewrite (procesarSuspension_run aR aT s susp fi ff motivo Hafecta Hfi Hff Hmotivo). cbv zeta.
    by destruct (filtroTurnos susp s) as [lect [filtro| |]].
  - rewrite (procesarSuspension_run aR aT s susp fi ff motivo Hafecta Hfi Hff Hmotivo). cbv zeta.
    by destruct (filtroTurnos susp s) as [lect [filtro| |]].
  - rewrite (procesarSuspension_run aR aT s susp fi ff motivo Hafecta Hfi Hff Hmotivo). cbv zeta.
    destruct (filtroTurnos susp s) as [lect [filtro| |]]; simpl;
      unfold actualizarDonde; apply dom_fmap_L.
  - rewrite (procesarSuspension_run aR aT s susp fi ff motivo Hafecta Hfi Hff Hmotivo). cbv zeta.
    destruct (filtroTurnos susp s) as [lect [filtro| |]]; simpl; try done.
    unfold actualizarDonde. apply dom_fmap_L.
Qed.

(** X11: a suspension that cascades but lacks fechaInicio or fechaFin is
    rejected before any query: nothing is read, nothing is written and the
    store is left as it was. *)
Theorem procesarSuspension_sin_fechas aR aT s susp :
  s_afectaReservasExistentes susp = true →
  s_fechaInicio susp = None ∨ s_fechaFin susp = None →
  let res := procesarSuspension aR aT s (Some susp) in
  rechazo res = true ∧ lecturas res = [] ∧ escrituras res = [] ∧ almacen res = s.
Proof.
  intros Hafecta Hsin res. subst res. unfold procesarSuspension. rewrite Hafecta.
  destruct Hsin as [-> | ->]; [done|]. by destruct (s_fechaInicio susp).
Qed.

(** X22: a suspension without a motivo cancels nothing.  The updates of the
    cascade carry the motivo, and the store refuses an update with an
    undefined field: whatever the bookings, nothing is written and the store
    is left as it was; when a confirmed reservation of the window matches,
    the invocation is rejected right after the query of the reservations. *)
Theorem procesarSuspension_sin_motivo aR aT s susp fi ff :
  s_afectaReservasExistentes susp = true →
  s_fechaInicio susp = Some fi →
  s_fechaFin susp = Some ff →
  s_motivo susp = None →
  let res := procesarSuspension aR aT s (Some susp) in
  escrituras res = [] ∧ almacen res = s
  ∧ ((∃ id r, reservas s !! id = Some r ∧ r_estado r = Some "confirmada"
              ∧ enVentana fi ff (r_fechaActividad r)
              ∧ cumple (filtroReservas susp) (r_actividadId r)) →
     rechazo res = true ∧ lecturas res = [ConsultarReservas]).
Proof.
  intros Hafecta Hfi Hff Hmotivo res. subst res.
  destruct (procesarSuspension_sin_motivo_run aR aT s susp fi ff
              Hafecta Hfi Hff Hmotivo) as (Hw & Hs & Hrechazo).
  split_and!; [done|done|]. intros (id & r & Hr & He & Hv & Hc). apply Hrechazo.
  intros Hvacia.
  assert ((id, r) ∈ consulta (porFecha r_fechaActividad)
                      (reservasQuery fi ff (filtroReservas susp)) (reservas s)) as Hin
    by by apply elem_of_consulta.
  rewrite Hvacia in Hin. by apply elem_of_nil in Hin.
Qed.

(** ** Sums over a collection, document by document *)

Lemma sumaZ_filter_cond {A} (P : A → Prop) `{!∀ x, Decision (P x)} (g : A → Z) l :
  sumaZ (g <$> filter P l) = sumaZ ((λ x, if decide (P x) then g x else 0) <$> l).
Proof.
  induction l as [|x l IH]; [done|]. rewrite filter_cons. csimpl.
  case_decide; csimpl; rewrite IH; lia.
Qed.

Lemma sumaZ_map_filter_cond {A} (P : string * A → Prop) `{!∀ x, Decision (P x)}
    (g : A → Z) (m : gmap string A) :
  sumaZ (g <$> (map_to_list (filter P m)).*2)
  = sumaZ ((λ kv, if decide (P kv) then g kv.2 else 0) <$> map_to_list m).
Proof.
  clear toLocaleString numberToString.
  rewrite <- list_fmap_compose, <- sumaZ_filter_cond.
  apply sumaZ_perm. f_equiv. apply NoDup_Permutation.
  - apply NoDup_map_to_list.
  - apply NoDup_filter, NoDup_map_to_list.
  - intros [id d]. rewrite list_elem_of_filter, !elem_of_map_to_list,
      map_lookup_filter_Some. tauto.
Qed.

Lemma sumaZ_ext {A} (u v : A → Z) l :
  (∀ x, x ∈ l → u x = v x) → sumaZ (u <$> l) = sumaZ (v <$> l).
Proof.
  induction l as [|x l IH]; intros Huv; [done|]. csimpl.
  rewrite (Huv x) by left. rewrite IH; [done|]. intros y Hy. apply Huv. by right.
Qed.

Lemma sumaZ_plus {A} (u v : A → Z) l :
  sumaZ ((λ x, u x + v x) <$> l) = sumaZ (u <$> l) + sumaZ (v <$> l).
Proof. induction l as [|x l IH]; [done|]. csimpl. rewrite IH. lia. Qed.

(** X12: the cascade gives seats back.  For a suspension that carries a
    motivo: on an instance that the suspension covers (its time inside the
    window, its activity the one named, if one is), the seats held drop by
    those of the confirmed reservations, which the cascade has cancelled; on
    every other instance they stay. *)
Theorem procesarSuspension_libera aR aT s susp fi ff motivo a f :
  s_afectaReservasExistentes susp = true →
  s_fechaInicio susp = Some fi →
  s_fechaFin susp = Some ff →
  s_motivo susp = Some motivo →
  let s' := almacen (procesarSuspension aR aT s (Some susp)) in
  let cubierta := enVentana fi ff (Some f) ∧ cumple (filtroReservas susp) (Some a) in
  (cubierta → ocupacion s' a f = ocupacion s a f - confirmadas s a f)
  ∧ (¬ cubierta → ocupacion s' a f = ocupacion s a f).
Proof.
  clear toLocaleString numberToString. intros Hafecta Hfi Hff Hmotivo s' cubierta.
  set (h := λ d : Reserva,
         if decide (reservasQuery fi ff (filtroReservas susp) d)
         then parchearReserva (cancelado motivo aR) d else d).
  assert (reservas s' = h <$> reservas s) as Hs'.
  { apply map_eq. intros id. subst s'.
    rewrite (procesarSuspension_reservas aR aT s susp fi ff motivo id
               Hafecta Hfi Hff Hmotivo).
    by rewrite lookup_fmap. }
  assert (∀ (Q : Reserva → Prop) (HQ : ∀ d, Decision (Q d)),
    (∀ d, r_actividadId d = Some a → r_fechaActividad d = Some f →
          (activa (h d) ↔ Q d)) →
    ocupacion s' a f
    = sumaZ ((λ kv : string * Reserva,
                if decide (r_actividadId kv.2 = Some a ∧ r_fechaActividad kv.2 = Some f
                           ∧ Q kv.2)
                then seatsRequested kv.2 else 0) <$> map_to_list (reservas s))) as Hdesp.
  { intros Q HQ Hiff. unfold ocupacion. rewrite sumaZ_map_filter_cond, Hs'.
    rewrite map_to_list_fmap, <- list_fmap_compose. apply sumaZ_ext. intros [id d] _. simpl.
    assert (r_actividadId (h d) = r_actividadId d
            ∧ r_fechaActividad (h d) = r_fechaActividad d
            ∧ seatsRequested (h d) = seatsRequested d) as (Ea&Ef&Ec).
    { unfold h. by case_decide. }
    rewrite Ea, Ef, Ec.
    destruct (decide (r_actividadId d = Some a ∧ r_fechaActividad d = Some f)) as [[Ha Hf]|Hno].
    - specialize (Hiff d Ha Hf).
      repeat case_decide; try done; intuition.
    - repeat case_decide; try done; intuition. }
  split.
  - intros [Hv Hc].
    assert (ocupacion s a f
            = sumaZ ((λ kv : string * Reserva,
                        if decide (r_actividadId kv.2 = Some a
                                   ∧ r_fechaActividad kv.2 = Some f
                                   ∧ r_estado kv.2 = Some "pendiente")
                        then seatsRequested kv.2 else 0) <$> map_to_list (reservas s))
              + confirmadas s a f) as Hsplit.
    { unfold ocupacion, confirmadas. rewrite !sumaZ_map_filter_cond, <- sumaZ_plus.
      apply sumaZ_ext. intros [id d] _. simpl. unfold activa.
      repeat case_decide; try lia; exfalso; intuition congruence. }
    rewrite (Hdesp (λ d, r_estado d = Some "pendiente") _); [rewrite Hsplit; lia|].
    intros d Ha Hf. unfold h, activa.
    case_decide as Hq; unfold reservasQuery in Hq; rewrite Ha, Hf in Hq; simpl.
    + destruct Hq as (_&He&_). rewrite He. split; [intros [?|?]|]; done.
    + split; [|by right]. intros [He|He]; [|done]. destruct Hq. done.
  - intros Hno.
    rewrite (Hdesp activa _).
    + unfold ocupacion. by rewrite sumaZ_map_filter_cond.
    + intros d Ha Hf. unfold h. case_decide as Hq; [|done]. destruct Hno.
      unfold reservasQuery in Hq. rewrite Ha, Hf in Hq. destruct Hq as (?&_&?). by split.
Qed.

(** ** After a refusal *)

(** The overlap search reads the store through its therapies only. *)
Lemma buscarSolapamiento_terapias id p f fin docs s s' :
  terapias s = terapias s' →
  buscarSolapamiento id p f fin docs s = buscarSolapamiento id p f fin docs s'.
Proof.
  intros Ht. induction docs as [|[id' c] resto IH]; [done|].
  rewrite !buscarSolapamiento_cons, IH, Ht. done.
Qed.

(** The appointment transaction reads the store through its therapies and
    its confirmed or pending appointments only. *)
Lemma transaccionTurno_vigentes id terapiaId fecha s s' :
  terapias s = terapias s' →
  filter (λ kv : string * Turno, vigente kv.2) (turnos s)
  = filter (λ kv : string * Turno, vigente kv.2) (turnos s') →
  transaccionTurno id terapiaId fecha s = transaccionTurno id terapiaId fecha s'.
Proof.
  clear toLocaleString numberToString. intros Ht Hv.
  assert (∀ fin, consulta (porFecha t_fechaTurno)
                   (λ d, vigente d ∧ hasta fin (t_fechaTurno d)) (turnos s)
                 = consulta (porFecha t_fechaTurno)
                     (λ d, vigente d ∧ hasta fin (t_fechaTurno d)) (turnos s')) as Hq.
  { intros fin. unfold consulta. do 2 f_equal.
    apply map_filter_strong_ext. intros i x. simpl.
    pose proof (proj1 (map_filter_strong_ext _ _ _ _) Hv i x) as Hix. simpl in Hix.
    tauto. }
  destruct (terapias s' !! terapiaId) as [te|] eqn:Hte.
  - destruct (presente (te_profesionalId te)) as [p|] eqn:Hp.
    + destruct (finTurno fecha (te_duracionMinutos te)) as [fin|] eqn:Hfin.
      * rewrite (transaccionTurno_run s id terapiaId fecha te p fin),
          (transaccionTurno_run s' id terapiaId fecha te p fin) by by rewrite ?Ht.
        cbv zeta. by rewrite Hq, (buscarSolapamiento_terapias _ _ _ _ _ s s' Ht).
      * by rewrite (transaccionTurno_sin_fin s id terapiaId fecha te p),
          (transaccionTurno_sin_fin s' id terapiaId fecha te p) by by rewrite ?Ht.
    + by rewrite (transaccionTurno_sin_profesional s id terapiaId fecha te),
        (transaccionTurno_sin_profesional s' id terapiaId fecha te) by by rewrite ?Ht.
  - by rewrite (transaccionTurno_sin_terapia s), (transaccionTurno_sin_terapia s')
      by by rewrite ?Ht.
Qed.

(** X13: a refused appointment no longer blocks.  Once the trigger has marked
    a stored appointment fallida, the trigger of any appointment reads and
    decides as if the refused one had been deleted. *)
Theorem reservarTurno_refusal_frees commitFalla commitFalla' s ida (a : Turno) m snapshot :
  turnos s !! ida = Some a →
  escrituras (reservarTurno commitFalla s (Some (ida, a)))
  = [Actualizar Turnos ida (fallida m)] →
  let s' := almacen (reservarTurno commitFalla s (Some (ida, a))) in
  lecturas (reservarTurno commitFalla' s' snapshot)
  = lecturas (reservarTurno commitFalla' (sinTurno s ida) snapshot)
  ∧ escrituras (reservarTurno commitFalla' s' snapshot)
    = escrituras (reservarTurno commitFalla' (sinTurno s ida) snapshot).
Proof.
  clear toLocaleString numberToString. intros Ha Hw s'.
  assert (s' = conTurnos s (alter (parchearTurno (fallida m)) ida (turnos s))) as Hs'.
  { subst s'. revert Hw. unfold reservarTurno.
    repeat case_match; simpl; try done; by intros [= ->]. }
  assert (∀ id t f, transaccionTurno id t f s' = transaccionTurno id t f (sinTurno s ida))
    as Htx.
  { intros id t f. apply transaccionTurno_vigentes; [by rewrite Hs'|].
    rewrite Hs'. simpl. apply map_filter_strong_ext. intros i x. simpl.
    rewrite lookup_delete_Some. destruct (decide (i = ida)) as [->|Hne].
    - rewrite lookup_alter_eq, Ha. simpl. split; [|intuition congruence].
      intros [[He|He] [= <-]]; discriminate He.
    - rewrite lookup_alter_ne by done. intuition congruence. }
  destruct snapshot as [[id t]|]; [|done].
  unfold reservarTurno.
  destruct (presente (t_terapiaId t)) as [terapiaId|]; [|done].
  destruct (t_fechaTurno t) as [fecha|]; [|done].
  destruct (presente (t_usuarioId t)) as [usuarioId|]; [|done].
  rewrite !runTransaction_run, Htx.
  destruct (transaccionTurno id terapiaId fecha (sinTurno s ida)) as [l [e|[]]];
    [done|]. by destruct commitFalla'.
Qed.

End Funciones.

(** * The properties on the scenarios *)

(** A decidable proposition about a scenario, by evaluation. *)
Ltac decidir := refine (bool_decide_unpack _ _); vm_compute; exact I.

(** The triggers run on the scenarios. *)

Example escenarioA_admite_r5 :
  reservarActividad enSegundos decimal false escenarioA
    (Some ("r5", reservaDe (Some "A1") (hora 11 0) 2 "pendiente"))
  = sinEscritura [LeerActividad "A1"; ConsultarReservas] escenarioA.
Proof. vm_compute. reflexivity. Qed.

Example escenarioB_rechaza_t2 :
  let res := reservarTurno false escenarioB
               (Some ("t2", turnoDe "T1" (hora 10 59) "pendiente")) in
  lecturas res = [LeerTerapia "T1"; ConsultarTurnos; LeerTerapia "T1"]
  ∧ escrituras res = [Actualizar Turnos "t2" (fallida yaReservado)]
  ∧ t_estado <$> turnos (almacen res) !! "t2" = Some (Some "fallida").
Proof. vm_compute. split_and!; reflexivity. Qed.

Example escenarioB_admite_t3 :
  reservarTurno false escenarioB (Some ("t3", turnoDe "T1" (hora 11 0) "pendiente"))
  = sinEscritura [LeerTerapia "T1"; ConsultarTurnos; LeerTerapia "T1"] escenarioB.
Proof. vm_compute. reflexivity. Qed.

Example escenarioB_licencia :
  let res := procesarSuspension 10 (hora 8 0) (hora 8 1) escenarioB (Some licencia) in
  escrituras res = [Actualizar Turnos "t1" (cancelado "Licencia" (hora 8 1))]
  ∧ rechazo res = false
  ∧ t_estado <$> turnos (almacen res) !! "t3" = Some (Some "pendiente").
Proof. vm_compute. split_and!; reflexivity. Qed.

Example escenarioB_licencia_sin_in :
  let res := procesarSuspension 0 (hora 8 0) (hora 8 1) escenarioB (Some licencia) in
  escrituras res = [] ∧ rechazo res = true ∧ almacen res = escenarioB.
Proof. vm_compute. split_and!; reflexivity. Qed.

(** Doubles past 2^53, and the bounds of Timestamp. *)

Example redondear_empate :
  redondear 9007199254740993 = 9007199254740992
  ∧ redondear 9007199254740995 = 9007199254740996
  ∧ redondear (-9007199254740993) = -9007199254740992
  ∧ mas (Finito 9007199254740992) (Finito 1) = Finito 9007199254740992.
Proof. vm_compute. split_and!; reflexivity. Qed.

Example nuevoTimestamp_limites :
  nuevoTimestamp (Finito 253402300799) 999999999
  = Some (mkTimestamp 253402300799 999999999)
  ∧ nuevoTimestamp (Finito 253402300800) 0 = None
  ∧ nuevoTimestamp (Finito (-62135596800)) 0 = Some (mkTimestamp (-62135596800) 0)
  ∧ nuevoTimestamp (Finito (-62135596801)) 0 = None
  ∧ nuevoTimestamp (Finito 0) 1000000000 = None
  ∧ nuevoTimestamp (Infinito false) 0 = None.
Proof. vm_compute. split_and!; reflexivity. Qed.

Example escenarioGrande_admite_r4 :
  reservarActividad enSegundos decimal false escenarioGrande
    (Some ("r4", reservaDe (Some "A1") (hora 10 0) 1 "pendiente"))
  = sinEscritura [LeerActividad "A1"; ConsultarReservas] escenarioGrande.
Proof. vm_compute. reflexivity. Qed.

Example escenarioEterno_rechaza_t9 :
  let res := reservarTurno false escenarioEterno
               (Some ("t9", turnoDe "T9" (hora 10 0) "pendiente")) in
  lecturas res = [LeerTerapia "T9"]
  ∧ escrituras res = [Actualizar Turnos "t9" (fallida "Error interno del servidor.")].
Proof. vm_compute. split; reflexivity. Qed.

Example escenarioB_licencia_sin_in_lecturas :
  lecturas (procesarSuspension 0 (hora 8 0) (hora 8 1) escenarioB (Some licencia))
  = [ConsultarReservas; ConsultarTerapias; ConsultarTurnos].
Proof. vm_compute. reflexivity. Qed.

Example escenarioA_feriado_sin_motivo :
  procesarSuspension 10 (hora 8 0) (hora 8 1) escenarioA (Some feriadoSinMotivo)
  = {| lecturas := [ConsultarReservas]; escrituras := []; almacen := escenarioA;
       rechazo := true |}.
Proof. vm_compute. reflexivity. Qed.

Example escenarioA_feriado_dos_veces :
  let r1 := procesarSuspension 10 (hora 8 0) (hora 8 1) escenarioA (Some feriado) in
  let r2 := procesarSuspension 10 (hora 8 2) (hora 8 3) (almacen r1) (Some feriado) in
  escrituras r1 = [Actualizar Reservas "r1" (cancelado "Feriado" (hora 8 0))]
  ∧ escrituras r2 = [].
Proof. vm_compute. split; reflexivity. Qed.

(** Scenario A: the third reservation of 2 seats is refused, 1 seat left. *)
Lemma C1_capacity_admission_witness :
  actividades escenarioA !! "A1" = Some yoga
  ∧ capacity yoga - occupied escenarioA "r3" "A1" (hora 10 0) = 1
  ∧ escrituras (reservarActividad enSegundos decimal false escenarioA
                  (Some ("r3", reservaDe (Some "A1") (hora 10 0) 2 "pendiente")))
    = [Actualizar Reservas "r3"
         (fallida "No hay cupos disponibles para la actividad Yoga el 36000. Cupo actual: 1.")].
Proof.
  split; [reflexivity|]. split; [vm_compute; reflexivity|].
  destruct (C1_capacity_admission enSegundos decimal false escenarioA "r3"
              (reservaDe (Some "A1") (hora 10 0) 2 "pendiente") "A1" (hora 10 0) yoga
              eq_refl eq_refl eq_refl) as (_ & Hfalla & _).
  { unfold exacto. vm_compute. reflexivity. }
  rewrite Hfalla; [vm_compute; reflexivity | vm_compute; reflexivity].
Defined.

(** With 2^53, 1 and 1 seats held of 2^53 + 2 none is left, and a request for
    one seat is admitted: the second and the third sum of the loop are
    rounded back to 2^53, so that 2 seats seem to be left. *)
Lemma C1_counterexample :
  ¬ capacity_spec enSegundos decimal false escenarioGrande "r4"
      (reservaDe (Some "A1") (hora 10 0) 1 "pendiente") "A1" (hora 10 0) estadio.
Proof.
  intros Hspec. destruct (Hspec eq_refl) as [_ Hrefusa].
  destruct Hrefusa as [m Hm]; [vm_compute; reflexivity|].
  vm_compute in Hm. discriminate Hm.
Qed.

(** C2: a confirmed hour of practitioner P starts half a second after 0:00
    and so ends half a second after 1:00; a request for the same practitioner
    at 1:00 sharp starts before that end and ends after that start, and yet
    the transaction admits it and the trigger writes nothing: only the whole
    seconds of the four times are compared. *)
Theorem C2_subsecond_overlap :
  terapias escenarioFraccion !! "T1" = Some psico
  ∧ presente (te_profesionalId psico) = Some "P"
  ∧ conflicto ts_lt escenarioFraccion "t2" "P" (hora 1 0) (endAt (hora 1 0) 60)
  ∧ (runTransaction false (transaccionTurno "t2" "T1" (hora 1 0)) escenarioFraccion).2
    = inr tt
  ∧ escrituras (reservarTurno false escenarioFraccion
                  (Some ("t2", turnoDe "T1" (hora 1 0) "pendiente"))) = [].
Proof.
  split_and!; [reflexivity | reflexivity | | vm_compute; reflexivity
              | vm_compute; reflexivity].
  exists "t1", (turnoDe "T1" (mkTimestamp 0 500000000) "confirmado"),
    (mkTimestamp 0 500000000).
  split_and!; [reflexivity | discriminate | by left | reflexivity | reflexivity | |].
  - right. split; vm_compute; reflexivity.
  - left. vm_compute. reflexivity.
Qed.

(** A reservation with room left is admitted and stays pendiente. *)
Lemma C4_counterexample :
  ¬ lifecycle_spec enSegundos decimal false escenarioA "r5"
      (reservaDe (Some "A1") (hora 11 0) 2 "pendiente").
Proof.
  intros Hspec. destruct (Hspec eq_refl eq_refl) as (r' & Hr' & Hterm).
  vm_compute in Hr'. injection Hr' as <-.
  destruct Hterm as [H|[H|H]]; discriminate H.
Qed.

(** The admission of r5 commits and writes nothing; r3, refused, is set to
    fallida; the holiday cancels the confirmed r1 and keeps the pending r5. *)
Lemma C4_lifecycle_witness :
  escrituras (reservarActividad enSegundos decimal false escenarioA
                (Some ("r5", reservaDe (Some "A1") (hora 11 0) 2 "pendiente"))) = []
  ∧ (∃ r1, reservas (almacen (reservarActividad enSegundos decimal false escenarioA
                                (Some ("r3", reservaDe (Some "A1") (hora 10 0) 2
                                               "pendiente")))) !! "r3" = Some r1
           ∧ r_estado r1 = Some "fallida")
  ∧ ∃ r', reservas (almacen (procesarSuspension 10 (hora 8 0) (hora 8 1) escenarioA
                               (Some feriado))) !! "r5" = Some r'
          ∧ r_estado r' = Some "pendiente".
Proof.
  destruct (C4_lifecycle enSegundos decimal 10 false (hora 8 0) (hora 8 1) escenarioA)
    as (Hres & _ & Hcasc & _).
  split_and!.
  - destruct (Hres "r5" (reservaDe (Some "A1") (hora 11 0) 2 "pendiente"))
      as (_ & _ & Hok).
    destruct (Hok "A1" (hora 11 0) eq_refl eq_refl) as (_ & Hcommit).
    by destruct Hcommit; [vm_compute; reflexivity|].
  - destruct (Hres "r3" (reservaDe (Some "A1") (hora 10 0) 2 "pendiente"))
      as (_ & _ & Hok).
    destruct (Hok "A1" (hora 10 0) eq_refl eq_refl) as (Habort & _).
    destruct (Habort (HttpsError ResourceExhausted
                        "No hay cupos disponibles para la actividad Yoga el 36000. Cupo actual: 1."))
      as (_ & Hmarca); [vm_compute; reflexivity|].
    destruct (Hmarca (reservaDe (Some "A1") (hora 10 0) 2 "pendiente") eq_refl)
      as (r1 & Hr1 & He & _).
    eauto.
  - destruct (Hcasc (Some feriado) "r5"
                (reservaDe (Some "A1") (hora 11 0) 2 "pendiente") eq_refl)
      as (r' & Hr' & Hcaso).
    exists r'. split; [done|]. destruct Hcaso as [-> | [H _]]; [done|discriminate H].
Defined.

(** Scenario C: the holiday on A1 cancels r1 and leaves r4, of A2, alone. *)
Lemma C5_activity_cascade_witness :
  (∃ r', reservas (almacen (procesarSuspension 10 (hora 8 0) (hora 8 1) escenarioA
                              (Some feriado))) !! "r1" = Some r'
         ∧ r_estado r' = Some "cancelado_por_admin"
         ∧ failureReason r' = Some "Feriado")
  ∧ reservas (almacen (procesarSuspension 10 (hora 8 0) (hora 8 1) escenarioA
                         (Some feriado))) !! "r4"
    = Some (reservaDe (Some "A2") (hora 10 0) 1 "confirmada").
Proof.
  destruct (C5_activity_cascade 10 (hora 8 0) (hora 8 1) escenarioA feriado
              (hora 9 0) (hora 12 0) "A1" "Feriado"
              eq_refl eq_refl eq_refl eq_refl eq_refl eq_refl)
    as (Hcancela & Hdeja).
  split.
  - destruct (Hcancela "r1" (reservaDe (Some "A1") (hora 10 0) 2 "confirmada")
                eq_refl eq_refl eq_refl) as (r' & Hr' & He & Hm & _).
    { decidir. }
    eauto.
  - apply Hdeja; [reflexivity|]. left. discriminate.
Defined.

(** A reservation of an activity that does not exist is marked fallida with
    the message of the error; when the store refuses the commit of an
    admitted appointment, with the generic reason. *)
Lemma C6_failure_write_witness :
  escrituras (reservarActividad enSegundos decimal false escenarioA
                (Some ("r9", reservaDe (Some "A9") (hora 10 0) 1 "pendiente")))
  = [Actualizar Reservas "r9" (fallida "La actividad con ID A9 no existe.")]
  ∧ escrituras (reservarTurno true escenarioB
                  (Some ("t3", turnoDe "T1" (hora 11 0) "pendiente")))
    = [Actualizar Turnos "t3" (fallida "Error interno del servidor.")].
Proof.
  destruct (C6_failure_write enSegundos decimal false escenarioA "r9") as (Hreserva & _).
  destruct (C6_failure_write enSegundos decimal true escenarioB "t3") as (_ & Hturno).
  split.
  - destruct (Hreserva (reservaDe (Some "A9") (hora 10 0) 1 "pendiente") "A9"
                (hora 10 0) [LeerActividad "A9"]
                (HttpsError NotFound "La actividad con ID A9 no existe.")
                eq_refl eq_refl eq_refl) as (Hw & _).
    exact Hw.
  - destruct (Hturno (turnoDe "T1" (hora 11 0) "pendiente") "T1" (hora 11 0) "u1"
                [LeerTerapia "T1"; ConsultarTurnos; LeerTerapia "T1"] OtroError
                eq_refl eq_refl eq_refl) as (Hw & _).
    { vm_compute. reflexivity. }
    exact Hw.
Defined.

(** An appointment of a therapy that does not exist fails with not-found, of
    a therapy without practitioner with failed-precondition, the therapy being
    the only document read. *)
Lemma C7_therapy_preconditions_witness :
  (∃ m, (runTransaction false (transaccionTurno "t9" "T9" (hora 10 0)) escenarioB).2
        = inl (HttpsError NotFound m))
  ∧ (∃ m, (runTransaction false (transaccionTurno "t9" "T2" (hora 10 0)) escenarioB).2
          = inl (HttpsError FailedPrecondition m))
  ∧ lecturas (reservarTurno false escenarioB
                (Some ("t9", turnoDe "T2" (hora 10 0) "pendiente")))
    = [LeerTerapia "T2"].
Proof.
  destruct (C7_therapy_preconditions false escenarioB "t9"
              (turnoDe "T9" (hora 10 0) "pendiente") "T9" (hora 10 0) "u1"
              eq_refl eq_refl eq_refl) as (Hnf & _ & _).
  destruct (C7_therapy_preconditions false escenarioB "t9"
              (turnoDe "T2" (hora 10 0) "pendiente") "T2" (hora 10 0) "u1"
              eq_refl eq_refl eq_refl) as (_ & Hfp & Hlect).
  split_and!.
  - apply Hnf. reflexivity.
  - apply Hfp. exists vacante. split; reflexivity.
  - destruct (Hlect FailedPrecondition (sinProfesional vacante))
      as (_ & Hl & _); [reflexivity | by right | exact Hl].
Defined.

(** Scenario D: a suspension that does not cascade changes nothing. *)
Lemma C8_no_cascade_witness :
  s_afectaReservasExistentes aviso = false
  ∧ almacen (procesarSuspension 10 (hora 8 0) (hora 8 1) escenarioA (Some aviso))
    = escenarioA
  ∧ almacen (procesarSuspension 10 (hora 8 0) (hora 8 1) escenarioA None) = escenarioA.
Proof.
  split; [reflexivity|]. split.
  - apply (C8_no_cascade 10 (hora 8 0) (hora 8 1) escenarioA (Some aviso)).
    right. exists aviso. split; reflexivity.
  - apply (C8_no_cascade 10 (hora 8 0) (hora 8 1) escenarioA None).
    left. reflexivity.
Defined.

(** A reservation without actividadId is deleted. *)
Lemma C9_incomplete_deleted_witness :
  escrituras (reservarActividad enSegundos decimal false escenarioA
                (Some ("r3", reservaDe None (hora 10 0) 2 "pendiente")))
  = [Borrar Reservas "r3"]
  ∧ reservas (almacen (reservarActividad enSegundos decimal false escenarioA
                         (Some ("r3", reservaDe None (hora 10 0) 2 "pendiente"))))
    !! "r3" = None.
Proof.
  destruct (C9_incomplete_deleted enSegundos decimal false escenarioA "r3") as (Hreserva & _).
  destruct (Hreserva (reservaDe None (hora 10 0) 2 "pendiente"))
    as (_ & Hw & Hgone & _); [left; reflexivity|].
  split; [exact Hw | exact Hgone].
Defined.

(** The workshop A2 has no cupo: a request for one seat is refused. *)
Lemma C10_capacity_absent_witness :
  a_cupo taller = None
  ∧ ∃ m, escrituras (reservarActividad enSegundos decimal false escenarioA
                       (Some ("r6", reservaDe (Some "A2") (hora 11 0) 1 "pendiente")))
         = [Actualizar Reservas "r6" (fallida m)].
Proof.
  split; [reflexivity|].
  assert (map_Forall (λ _ r', 0 ≤ seatsRequested r') (reservas escenarioA)) as Hseats
    by decidir.
  destruct (C10_capacity_absent enSegundos decimal false escenarioA "r6"
              (reservaDe (Some "A2") (hora 11 0) 1 "pendiente") "A2" (hora 11 0) taller
              eq_refl eq_refl eq_refl) as (_ & m & _ & Hw & _).
  - left. reflexivity.
  - vm_compute. discriminate.
  - intros id' r' Hr' _ _ _ _. exact (Hseats id' r' Hr').
  - exists m. exact Hw.
Defined.

(** The workshop has no cupo and holds a reservation of -5 seats: 5 seats
    seem to be left, and a request for one seat is admitted. *)
Lemma C10_counterexample :
  ¬ capacity_absent_spec enSegundos decimal false escenarioNegativo "r2"
      (reservaDe (Some "A2") (hora 10 0) 1 "pendiente") "A2" (hora 10 0) taller.
Proof.
  intros Hspec. destruct Hspec as [m Hm];
    [reflexivity | left; reflexivity | vm_compute; discriminate |].
  vm_compute in Hm. discriminate Hm.
Qed.

(** * The middleware *)

(** X14: access control of the middleware.  Without a session token (cookie
    absent or empty) a page is served exactly when its path is public, and
    every other path is sent to /login; with a token no path is sent to
    /login, the three entry pages are sent to /dashboard and every other
    path is served. *)
Theorem middleware_access pathname value :
  (presente value = None →
     (middleware pathname (CookieLeida value) = Next ↔ pathname ∈ publicPaths)
     ∧ (pathname ∉ publicPaths →
        middleware pathname (CookieLeida value) = Redirect "/login"))
  ∧ (is_Some (presente value) →
       middleware pathname (CookieLeida value) ≠ Redirect "/login"
       ∧ (pathname ∈ ["/login"; "/register"; "/"] →
          middleware pathname (CookieLeida value) = Redirect "/dashboard")
       ∧ (pathname ∉ ["/login"; "/register"; "/"] →
          middleware pathname (CookieLeida value) = Next)).
Proof.
  unfold middleware. split.
  - intros ->. rewrite (bool_decide_false (is_Some None)) by by intros [? ?].
    simpl. split.
    + case_bool_decide; simpl; split; done.
    + intros Hno. by rewrite bool_decide_false.
  - intros Hsome. rewrite (bool_decide_true (is_Some _)) by done. simpl.
    split_and!.
    + by destruct (_ || _).
    + intros Hin. repeat (apply elem_of_cons in Hin as [->|Hin]); try done.
      by apply elem_of_nil in Hin.
    + intros Hno. repeat case_bool_decide; simpl; try done; subst;
        destruct Hno; repeat constructor.
Qed.

(** X15: redirects of the middleware settle.  When the cookie can be read, the
    path a request is redirected to is served on the next request (same
    cookie): no redirect follows a redirect.  When reading the cookie throws,
    every path is sent to /error, /error itself included. *)
Theorem middleware_settles pathname value destino :
  (middleware pathname (CookieLeida value) = Redirect destino →
   middleware destino (CookieLeida value) = Next)
  ∧ middleware pathname CookieFalla = Redirect "/error"
  ∧ middleware "/error" CookieFalla = Redirect "/error".
Proof.
  split; [|done]. unfold middleware.
  destruct (presente value) as [token|].
  - rewrite (bool_decide_true (is_Some _)) by done. simpl.
    destruct (_ || _); [|done]. by intros [= <-].
  - rewrite (bool_decide_false (is_Some None)) by by intros [? ?]. simpl.
    case_bool_decide; simpl; [done|]. by intros [= <-].
Qed.

(** * The analytics service *)

(** X16: the record that logError sends.  An event reaches Firebase Analytics
    only in production, with an analytics instance and when logging does not
    throw; it is then the single event error_occurred, whose timestamp is the
    time of the call whatever the additional data say, while every other key
    of the additional data overrides message, stack and context. *)
Theorem logError_record produccion analytics falla ahoraISO error context additionalData :
  let eventos := logError produccion analytics falla ahoraISO error context additionalData in
  (eventos ≠ [] ↔ produccion = true ∧ analytics = true ∧ falla = false)
  ∧ ∀ ev, ev ∈ eventos →
      eventos = [ev] ∧ eventName ev = "error_occurred"
      ∧ ∃ datos, eventParams ev = Some datos
          ∧ datos !! "timestamp" = Some (Texto ahoraISO)
          ∧ (∀ k v, k ≠ "timestamp" → default ∅ additionalData !! k = Some v →
               datos !! k = Some v)
          ∧ (default ∅ additionalData !! "message" = None →
             datos !! "message"
             = Some (Texto (match error with
                            | EsError message _ => message
                            | NoError comoTexto => comoTexto
                            end)))
          ∧ (default ∅ additionalData !! "context" = None →
             datos !! "context" = Some (o_texto context)).
Proof.
  intros eventos. subst eventos. unfold logError, logEvent. split.
  - destruct produccion, analytics, falla; simpl; split; try done;
      intros (?&?&?); done.
  - intros ev Hev.
    destruct produccion, analytics, falla; simpl in Hev;
      try (by apply elem_of_nil in Hev).
    apply list_elem_of_singleton in Hev as ->. simpl.
    split_and!; try done. eexists. split; [done|]. unfold errorData. split_and!.
    + apply lookup_insert_eq.
    + intros k v Hk Hv. rewrite lookup_insert_ne by done.
      by apply lookup_union_Some_l.
    + intros Hno. rewrite lookup_insert_ne by done.
      rewrite lookup_union_r by done. by rewrite lookup_insert_eq.
    + intros Hno. rewrite lookup_insert_ne by done.
      rewrite lookup_union_r by done.
      by rewrite !lookup_insert_ne, lookup_singleton_eq by done.
Qed.

(** * Authentication and the user documents *)

Lemma errorMessages_presente code m :
  errorMessages !! code = Some m → presente (errorMessages !! code) = Some m.
Proof.
  intros Hm. rewrite Hm. unfold presente. rewrite bool_decide_false; [done|].
  assert (map_Forall (λ _ m, m ≠ EmptyString) errorMessages) as Hne
    by (refine (bool_decide_unpack _ _); vm_compute; exact I).
  by apply (Hne code).
Qed.

Lemma logError_nombres produccion analytics falla ahoraISO error context datos ev :
  ev ∈ logError produccion analytics falla ahoraISO error context datos →
  eventName ev = "error_occurred".
Proof.
  unfold logError, logEvent. destruct produccion, analytics, falla; simpl;
    intros Hev; try (by apply elem_of_nil in Hev).
  by apply list_elem_of_singleton in Hev as ->.
Qed.

(** X17: signing in with Google never rewrites an existing profile.  When the
    user already has a document, the only field path written is
    metadata.ultimoAcceso: the tipo and every other field keep their values,
    the documents of the other users are untouched, and the response carries
    the document as stored. *)
Theorem signInWithGoogle_existing env us user d :
  us !! u_uid user = Some d →
  let out := signInWithGoogle env us (inr user) in
  a_success (respuesta out) = true
  ∧ ∃ d', usuarios out !! u_uid user = Some d'
          ∧ a_firestoreUser (respuesta out) = Some d'
          ∧ d' !! "metadata.ultimoAcceso" = Some (Marca (ahora env))
          ∧ (∀ k, k ≠ "metadata.ultimoAcceso" → d' !! k = d !! k)
          ∧ (∀ uid', uid' ≠ u_uid user → usuarios out !! uid' = us !! uid')
          ∧ ∀ ev, ev ∈ eventos out → eventName ev = "login".
Proof.
  intros Hd out. subst out. unfold signInWithGoogle, createUserDocument.
  rewrite bool_decide_false by congruence. rewrite Hd. simpl.
  split; [done|]. eexists. rewrite lookup_insert_eq. split_and!; try done.
  - apply lookup_insert_eq.
  - intros k Hk. by rewrite lookup_insert_ne.
  - intros uid' Hne. by rewrite lookup_insert_ne.
  - intros ev. unfold logEvent.
    destruct (analytics env), (fallaAnalytics env); simpl; intros Hev;
      try (by apply elem_of_nil in Hev).
    by apply list_elem_of_singleton in Hev as ->.
Qed.

(** X18: signing in with email needs the profile.  The response is a success
    exactly when the credentials are accepted and the user document exists;
    with accepted credentials and no document it is a failure with code
    not-found and the message of Firestore.  On every failure the user
    documents are left as they were and no login event is sent. *)
Theorem signInWithEmail_needs_document env us credencial email :
  let out := signInWithEmail env us credencial email in
  (a_success (respuesta out) = true
   ↔ ∃ user, credencial = inr user ∧ is_Some (us !! u_uid user))
  ∧ (∀ user, credencial = inr user → us !! u_uid user = None →
       a_code (respuesta out) = Some "not-found"
       ∧ a_error (respuesta out) = Some (sinDocumento env))
  ∧ (a_success (respuesta out) = false →
       usuarios out = us ∧ ∀ ev, ev ∈ eventos out → eventName ev = "error_occurred").
Proof.
  intros out. subst out. unfold signInWithEmail, createUserDocument, fallo.
  destruct credencial as [error|user]; simpl.
  - split_and!.
    + split; [done|]. by intros (user&?&_).
    + by intros user.
    + intros _. split; [done|]. intros ev. apply logError_nombres.
  - destruct (us !! u_uid user) as [d|] eqn:Hd; simpl.
    + split_and!; [split; eauto | by intros ? [= <-]; rewrite Hd | done].
    + split_and!.
      * split; [done|]. intros (user'&[= <-]&Hs). rewrite Hd in Hs. by destruct Hs.
      * by intros user' _ _.
      * intros _. split; [done|]. intros ev. apply logError_nombres.
Qed.

(** X19: the document that createUser stores.  With accepted credentials the
    user document carries tipo socio, the uid, the nombre given (and, when
    that is empty, the display name or else the part of the email before the
    at sign), whatever a previous document said; the field paths that a new
    document does not have keep their previous values, and edad is among
    them: the age given to createUser is stored nowhere. *)
Theorem createUser_document env us user email nombre telefono edad :
  let out := createUser env us (inr user) email nombre telefono edad in
  let antes := default ∅ (us !! u_uid user) in
  a_success (respuesta out) = true
  ∧ ∃ d', usuarios out !! u_uid user = Some d'
          ∧ a_firestoreUser (respuesta out) = Some d'
          ∧ d' !! "tipo" = Some (Texto "socio")
          ∧ d' !! "uid" = Some (Texto (u_uid user))
          ∧ (nombre ≠ EmptyString → d' !! "nombre" = Some (Texto nombre))
          ∧ (nombre = EmptyString →
             d' !! "nombre"
             = Some (Texto (default ""
                              (o_bien (u_displayName user)
                                 (presente (antesDe arroba <$> u_email user))))))
          ∧ (∀ k, k ∉ [ "dni"; "nombre"; "telefono"; "fechaNacimiento"; "tipo";
                        "email"; "uid"; "metadata.fechaCreacion";
                        "metadata.ultimoAcceso"; "metadata.dispositivo";
                        "responsableDePago"; "usuariosACargo" ] →
               d' !! k = antes !! k)
          ∧ d' !! "edad" = antes !! "edad"
          ∧ (∀ uid', uid' ≠ u_uid user → usuarios out !! uid' = us !! uid').
Proof.
  intros out antes. subst out antes. unfold createUser, createUserDocument.
  cbv zeta. cbn [respuesta usuarios eventos exito a_success a_firestoreUser].
  split; [done|]. eexists. rewrite lookup_insert_eq.
  split; [done|]. split; [done|]. split; [by apply lookup_union_Some_l|].
  split; [by apply lookup_union_Some_l|]. split_and!.
  - intros Hn. apply lookup_union_Some_l. unfold documentoNuevo. simpl.
    rewrite lookup_insert_ne, lookup_insert_eq by done.
    unfold o_bien, presente. by rewrite bool_decide_false.
  - intros ->. by apply lookup_union_Some_l.
  - intros k Hk. apply lookup_union_r. by apply not_elem_of_list_to_map_1.
  - by apply lookup_union_r.
  - intros uid' Hne. by rewrite lookup_insert_ne.
Qed.

(** X20: when Firebase Authentication refuses.  Whatever the entry point, a
    refused call leaves the user documents as they were and sends no event
    but error_occurred; the response is a failure that carries the code of
    the error and, as its message, the entry of the table for that code, or
    the message of the error when the table has none. *)
Theorem auth_refused env us error email nombre telefono edad :
  let outs := [ signInWithGoogle env us (inl error);
                signInWithEmail env us (inl error) email;
                createUser env us (inl error) email nombre telefono edad ] in
  ∀ out, out ∈ outs →
    usuarios out = us
    ∧ a_success (respuesta out) = false
    ∧ a_code (respuesta out) = Some (e_code error)
    ∧ (∀ m, errorMessages !! e_code error = Some m → a_error (respuesta out) = Some m)
    ∧ (errorMessages !! e_code error = None →
       a_error (respuesta out) = Some (e_message error))
    ∧ ∀ ev, ev ∈ eventos out → eventName ev = "error_occurred".
Proof.
  intros outs out Hout. subst outs.
  assert (∃ context, out = fallo env us [] error context) as [context ->].
  { repeat (apply elem_of_cons in Hout as [->|Hout]); eauto.
    by apply elem_of_nil in Hout. }
  unfold fallo, handleAuthError. simpl. split_and!; try done.
  - intros m Hm. by rewrite (errorMessages_presente _ _ Hm).
  - by intros ->.
  - intros ev. apply logError_nombres.
Qed.

(** * The further properties on the scenarios *)

(** The reservation r9 names the activity A9, which does not exist. *)
Lemma reservarActividad_not_found_witness :
  (∃ m, (runTransaction false
           (transaccionReserva enSegundos decimal "r9" "A9" (hora 10 0) (Finito 1)) escenarioA).2
        = inl (HttpsError NotFound m))
  ∧ lecturas (reservarActividad enSegundos decimal false escenarioA
                (Some ("r9", reservaDe (Some "A9") (hora 10 0) 1 "pendiente")))
    = [LeerActividad "A9"].
Proof.
  destruct (reservarActividad_not_found enSegundos decimal false escenarioA "r9"
              (reservaDe (Some "A9") (hora 10 0) 1 "pendiente") "A9" (hora 10 0)
              eq_refl eq_refl) as (Hiff & Hw).
  split.
  - apply Hiff. reflexivity.
  - apply Hw. reflexivity.
Defined.

(** The refusal of r3 leaves r1 as it was. *)
Lemma admission_frame_witness :
  reservas (almacen (reservarActividad enSegundos decimal false escenarioA
                       (Some ("r3", reservaDe (Some "A1") (hora 10 0) 2 "pendiente"))))
    !! "r1"
  = Some (reservaDe (Some "A1") (hora 10 0) 2 "confirmada").
Proof.
  destruct (admission_frame enSegundos decimal false escenarioA "r3") as (Hreserva & _).
  destruct (Hreserva (reservaDe (Some "A1") (hora 10 0) 2 "pendiente"))
    as (_ & _ & _ & Hotros).
  rewrite Hotros; [reflexivity | discriminate].
Defined.

(** r5 stands: 2 seats of 5 are held at 11:00. *)
Lemma reservarActividad_no_overbooking_witness :
  ∃ act, actividades escenarioA !! "A1" = Some act
         ∧ ocupacion escenarioA "A1" (hora 11 0) ≤ capacity act.
Proof.
  apply (reservarActividad_no_overbooking enSegundos decimal false escenarioA "r5"
           (reservaDe (Some "A1") (hora 11 0) 2 "pendiente") "A1" (hora 11 0));
    [reflexivity | reflexivity | reflexivity | by right | | vm_compute; reflexivity].
  intros act [= <-]. unfold exacto. vm_compute. reflexivity.
Defined.

(** r3 is refused: of the 6 seats asked for at 10:00, 4 are still held. *)
Lemma reservarActividad_refusal_frees_witness :
  ocupacion escenarioA "A1" (hora 10 0) = 6
  ∧ ocupacion (almacen (reservarActividad enSegundos decimal false escenarioA
                          (Some ("r3", reservaDe (Some "A1") (hora 10 0) 2 "pendiente"))))
      "A1" (hora 10 0) = 4.
Proof.
  split; [vm_compute; reflexivity|].
  destruct (reservarActividad_refusal_frees enSegundos decimal false escenarioA "r3"
              (reservaDe (Some "A1") (hora 10 0) 2 "pendiente") "A1" (hora 10 0)
              "No hay cupos disponibles para la actividad Yoga el 36000. Cupo actual: 1.")
    as (Hbaja & _);
    [reflexivity | reflexivity | reflexivity | by right | vm_compute; reflexivity |].
  rewrite Hbaja. vm_compute. reflexivity.
Defined.

(** The therapy T3 has no duration: the instant that P already holds is
    admitted again. *)
Lemma reservarTurno_sin_duracion_witness :
  (runTransaction false (transaccionTurno "t2" "T3" (hora 10 0)) escenarioSinDuracion).2
  = inr tt.
Proof.
  destruct (reservarTurno_sin_duracion false escenarioSinDuracion "t2" "T3" (hora 10 0)
              {| te_duracionMinutos := None; te_profesionalId := Some "P";
                 te_nombre := Some "Consulta" |} "P" eq_refl eq_refl)
    as (_ & Hok).
  - unfold turnosConTerapia. decidir.
  - unfold turnosEnRango. decidir.
  - decidir.
  - decidir.
  - apply Hok. reflexivity.
Defined.

(** The leave of P cancels t1 and keeps t3, which is pending. *)
Lemma procesarSuspension_profesor_witness :
  let res := procesarSuspension 10 (hora 8 0) (hora 8 1) escenarioB (Some licencia) in
  (t_estado <$> turnos (almacen res) !! "t1") = Some (Some "cancelado_por_admin")
  ∧ turnos (almacen res) !! "t3" = Some (turnoDe "T1" (hora 11 0) "pendiente").
Proof.
  destruct (procesarSuspension_profesor 10 (hora 8 0) (hora 8 1) escenarioB licencia
              (hora 9 0) (hora 12 0) "P" "Licencia"
              eq_refl eq_refl eq_refl eq_refl eq_refl eq_refl)
    as (_ & Hturnos); [vm_compute; lia|].
  split.
  - destruct (Hturnos "t1" (turnoDe "T1" (hora 10 0) "confirmado") eq_refl)
      as (Hsi & _).
    rewrite Hsi; [reflexivity|].
    split_and!; [reflexivity | decidir | reflexivity].
  - destruct (Hturnos "t3" (turnoDe "T1" (hora 11 0) "pendiente") eq_refl)
      as (_ & Hno).
    apply Hno. intros (He & _). discriminate He.
Defined.

(** Without an [in] filter the leave of P is rejected and t1 stays; on the
    store without therapies it cancels r4, of the workshop. *)
Lemma procesarSuspension_profesor_corto_witness :
  (turnos (almacen (procesarSuspension 0 (hora 8 0) (hora 8 1) escenarioB
                      (Some licencia))) = turnos escenarioB
   ∧ rechazo (procesarSuspension 0 (hora 8 0) (hora 8 1) escenarioB (Some licencia))
     = true)
  ∧ (r_estado <$> reservas (almacen (procesarSuspension 10 (hora 8 0) (hora 8 1)
                                       escenarioA (Some licencia))) !! "r4")
    = Some (Some "cancelado_por_admin").
Proof.
  split.
  - destruct (procesarSuspension_profesor_corto 0 (hora 8 0) (hora 8 1) escenarioB
                licencia (hora 9 0) (hora 12 0) "P" "Licencia"
                eq_refl eq_refl eq_refl eq_refl eq_refl eq_refl) as (Ht & Hr & _);
      [right; vm_compute; lia|].
    split; [exact Ht | rewrite Hr; reflexivity].
  - destruct (procesarSuspension_profesor_corto 10 (hora 8 0) (hora 8 1) escenarioA
                licencia (hora 9 0) (hora 12 0) "P" "Licencia"
                eq_refl eq_refl eq_refl eq_refl eq_refl eq_refl) as (_ & _ & Hres);
      [left; reflexivity|].
    rewrite (Hres "r4" (reservaDe (Some "A2") (hora 10 0) 1 "confirmada"));
      [reflexivity | reflexivity | reflexivity | decidir].
Defined.

(** The leave of P names no activity: it cancels r1, of yoga, and keeps r2,
    which is pending. *)
Lemma procesarSuspension_sin_actividad_witness :
  let res := procesarSuspension 10 (hora 8 0) (hora 8 1) escenarioA (Some licencia) in
  (r_estado <$> reservas (almacen res) !! "r1") = Some (Some "cancelado_por_admin")
  ∧ reservas (almacen res) !! "r2"
    = Some (reservaDe (Some "A1") (hora 10 0) 2 "pendiente").
Proof.
  assert (s_tipo licencia ≠ Some "actividad" ∨ presente (s_actividadId licencia) = None)
    as Hsin by (left; discriminate).
  pose proof (procesarSuspension_sin_actividad 10 (hora 8 0) (hora 8 1) escenarioA
                licencia (hora 9 0) (hora 12 0) "Licencia"
                eq_refl Hsin eq_refl eq_refl eq_refl) as Hres.
  split.
  - destruct (Hres "r1" (reservaDe (Some "A1") (hora 10 0) 2 "confirmada") eq_refl)
      as (Hsi & _).
    rewrite Hsi; [reflexivity|]. split; [reflexivity | decidir].
  - destruct (Hres "r2" (reservaDe (Some "A1") (hora 10 0) 2 "pendiente") eq_refl)
      as (_ & Hno).
    apply Hno. intros (He & _). discriminate He.
Defined.

(** A suspension of tipo actividad that names T1 cancels the appointment t1 of
    the therapy T1. *)
Lemma procesarSuspension_actividad_turnos_witness :
  (t_estado <$> turnos (almacen (procesarSuspension 10 (hora 8 0) (hora 8 1) escenarioB
                                   (Some cierre))) !! "t1")
  = Some (Some "cancelado_por_admin").
Proof.
  destruct (procesarSuspension_actividad_turnos 10 (hora 8 0) (hora 8 1) escenarioB
              cierre (hora 9 0) (hora 12 0) "T1" "Cierre"
              eq_refl eq_refl eq_refl eq_refl eq_refl eq_refl) as (_ & Hturnos).
  destruct (Hturnos "t1" (turnoDe "T1" (hora 10 0) "confirmado") eq_refl) as (Hsi & _).
  rewrite Hsi; [reflexivity|].
  split_and!; [reflexivity | decidir | reflexivity].
Defined.

(** The holiday cancels r1 and keeps its activity, date and seats. *)
Lemma procesarSuspension_conserva_witness :
  ∃ r', reservas (almacen (procesarSuspension 10 (hora 8 0) (hora 8 1) escenarioA
                             (Some feriado))) !! "r1" = Some r'
        ∧ r_actividadId r' = Some "A1" ∧ r_cupoTomado r' = Some 2.
Proof.
  destruct (procesarSuspension_conserva 10 (hora 8 0) (hora 8 1) escenarioA
              (Some feriado)) as (_ & _ & _ & _ & Hres & _).
  eexists. split; [vm_compute; reflexivity|].
  destruct (Hres "r1" (reservaDe (Some "A1") (hora 10 0) 2 "confirmada")
              _ eq_refl eq_refl) as (Ha & _ & Hc & _).
  split; [exact Ha | exact Hc].
Defined.

(** The suspension without fechaFin is rejected and changes nothing. *)
Lemma procesarSuspension_sin_fechas_witness :
  let res := procesarSuspension 10 (hora 8 0) (hora 8 1) escenarioA (Some obra) in
  rechazo res = true ∧ escrituras res = [] ∧ almacen res = escenarioA.
Proof.
  destruct (procesarSuspension_sin_fechas 10 (hora 8 0) (hora 8 1) escenarioA obra
              eq_refl (or_intror eq_refl)) as (Hr & _ & Hw & Hs).
  split_and!; [exact Hr | exact Hw | exact Hs].
Defined.

(** The holiday frees the 2 confirmed seats of yoga at 10:00: 4 of 6 stay. *)
Lemma procesarSuspension_libera_witness :
  confirmadas escenarioA "A1" (hora 10 0) = 2
  ∧ ocupacion (almacen (procesarSuspension 10 (hora 8 0) (hora 8 1) escenarioA
                          (Some feriado))) "A1" (hora 10 0) = 4.
Proof.
  split; [vm_compute; reflexivity|].
  destruct (procesarSuspension_libera 10 (hora 8 0) (hora 8 1) escenarioA feriado
              (hora 9 0) (hora 12 0) "Feriado" "A1" (hora 10 0)
              eq_refl eq_refl eq_refl eq_refl)
    as (Hbaja & _).
  rewrite Hbaja; [vm_compute; reflexivity|].
  split; [decidir | reflexivity].
Defined.

(** Once t2 is refused, the trigger of t3 reads and writes as on the store
    without t2. *)
Lemma reservarTurno_refusal_frees_witness :
  let s' := almacen (reservarTurno false escenarioB
                       (Some ("t2", turnoDe "T1" (hora 10 59) "fallida"))) in
  escrituras (reservarTurno false s' (Some ("t3", turnoDe "T1" (hora 11 0) "pendiente")))
  = escrituras (reservarTurno false (sinTurno escenarioB "t2")
                  (Some ("t3", turnoDe "T1" (hora 11 0) "pendiente"))).
Proof.
  destruct (reservarTurno_refusal_frees false false escenarioB "t2"
              (turnoDe "T1" (hora 10 59) "fallida") yaReservado
              (Some ("t3", turnoDe "T1" (hora 11 0) "pendiente")))
    as (_ & Hw); [reflexivity | vm_compute; reflexivity |].
  exact Hw.
Defined.

(** Without a cookie /dashboard goes to /login; with one, /login goes to
    /dashboard. *)
Lemma middleware_access_witness :
  middleware "/dashboard" (CookieLeida None) = Redirect "/login"
  ∧ middleware "/login" (CookieLeida (Some "abc")) = Redirect "/dashboard".
Proof.
  split.
  - destruct (middleware_access "/dashboard" None) as (Hsin & _).
    destruct (Hsin eq_refl) as (_ & Hlogin). apply Hlogin. decidir.
  - destruct (middleware_access "/login" (Some "abc")) as (_ & Hcon).
    destruct (Hcon (ex_intro _ "abc" eq_refl)) as (_ & Hdash & _).
    apply Hdash. decidir.
Defined.

(** /dashboard without a cookie goes to /login, which is then served. *)
Lemma middleware_settles_witness :
  middleware "/login" (CookieLeida None) = Next.
Proof.
  destruct (middleware_settles "/dashboard" None "/login") as (Hsig & _).
  apply Hsig. reflexivity.
Defined.

(** In production an error with additional data is sent once; the timestamp
    of the additional data is overridden, its context wins. *)
Lemma logError_record_witness :
  ∃ ev datos,
    logError true true false "2025-01-01T08:00:00.000Z" (NoError "boom") (Some "pago")
      (Some {[ "timestamp" := Texto "ayer"; "context" := Texto "otro" ]}) = [ev]
    ∧ eventParams ev = Some datos
    ∧ datos !! "timestamp" = Some (Texto "2025-01-01T08:00:00.000Z")
    ∧ datos !! "context" = Some (Texto "otro")
    ∧ datos !! "message" = Some (Texto "boom").
Proof.
  destruct (logError_record true true false "2025-01-01T08:00:00.000Z" (NoError "boom")
              (Some "pago")
              (Some {[ "timestamp" := Texto "ayer"; "context" := Texto "otro" ]}))
    as (_ & Hev).
  destruct (Hev {| eventName := "error_occurred";
                   eventParams := Some (errorData (NoError "boom") (Some "pago")
                     (Some {[ "timestamp" := Texto "ayer"; "context" := Texto "otro" ]})
                     "2025-01-01T08:00:00.000Z") |})
    as (Huno & _ & datos & Hd & Hts & Hotros & Hmsg & _).
  { vm_compute. apply list_elem_of_here. }
  eexists _, datos. split_and!; [exact Huno | exact Hd | exact Hts | |].
  - apply Hotros; [discriminate | reflexivity].
  - apply Hmsg. reflexivity.
Defined.

(** Ana, an administrator, signs in with Google: her tipo stays. *)
Lemma signInWithGoogle_existing_witness :
  ∃ d', usuarios (signInWithGoogle entorno usuariosA (inr ana)) !! "u1" = Some d'
        ∧ d' !! "tipo" = Some (Texto "admin")
        ∧ d' !! "metadata.ultimoAcceso" = Some (Marca (hora 8 0)).
Proof.
  destruct (signInWithGoogle_existing entorno usuariosA ana
              {[ "tipo" := Texto "admin"; "nombre" := Texto "Ana" ]} eq_refl)
    as (_ & d' & Hd' & _ & Hacceso & Hresto & _).
  exists d'. split_and!; [exact Hd' | | exact Hacceso].
  rewrite Hresto; [reflexivity | discriminate].
Defined.

(** Beto has accepted credentials and no document: not-found. *)
Lemma signInWithEmail_needs_document_witness :
  let out := signInWithEmail entorno usuariosA (inr beto) "beto@virtud.org" in
  a_code (respuesta out) = Some "not-found" ∧ usuarios out = usuariosA.
Proof.
  destruct (signInWithEmail_needs_document entorno usuariosA (inr beto)
              "beto@virtud.org") as (_ & Hfalta & Hfalla).
  destruct (Hfalta beto eq_refl eq_refl) as (Hcode & _).
  destruct (Hfalla eq_refl) as (Hus & _).
  split; [exact Hcode | exact Hus].
Defined.

(** Beto signs up without a name: the document is named after his email. *)
Lemma createUser_document_witness :
  ∃ d', usuarios (createUser entorno usuariosA (inr beto) "beto@virtud.org" "" "" 30)
          !! "u2" = Some d'
        ∧ d' !! "nombre" = Some (Texto "beto") ∧ d' !! "edad" = None.
Proof.
  destruct (createUser_document entorno usuariosA beto "beto@virtud.org" "" "" 30)
    as (_ & d' & Hd' & _ & _ & _ & _ & Hnombre & _ & Hedad & _).
  exists d'. split_and!; [exact Hd' | | ].
  - rewrite Hnombre; reflexivity.
  - rewrite Hedad. reflexivity.
Defined.

(** A wrong password: the message of the table, and the documents stay. *)
Lemma auth_refused_witness :
  let out := signInWithEmail entorno usuariosA
               (inl {| e_code := "auth/wrong-password"; e_message := "Firebase: Error";
                       e_stack := None |}) "ana@virtud.org" in
  usuarios out = usuariosA ∧ a_error (respuesta out) = Some "Credenciales incorrectas".
Proof.
  destruct (auth_refused entorno usuariosA
              {| e_code := "auth/wrong-password"; e_message := "Firebase: Error";
                 e_stack := None |} "ana@virtud.org" "" "" 0
              (signInWithEmail entorno usuariosA
                 (inl {| e_code := "auth/wrong-password"; e_message := "Firebase: Error";
                         e_stack := None |}) "ana@virtud.org"))
    as (Hus & _ & _ & Htabla & _).
  { apply list_elem_of_further, list_elem_of_here. }
  split; [exact Hus|]. apply Htabla. reflexivity.
Defined.

(** Scenario B: a request for 10:59 collides with the hour held from 10:00;
    the request for 11:00, which starts when that hour ends, is admitted. *)
Lemma reservarTurno_solapamiento_witness :
  (∃ m, (runTransaction false (transaccionTurno "t2" "T1" (hora 10 59)) escenarioB).2
        = inl (HttpsError AlreadyExists m))
  ∧ (runTransaction false (transaccionTurno "t3" "T1" (hora 11 0)) escenarioB).2
    = inr tt.
Proof.
  assert (turnosEnRango escenarioB) as Hrango by (unfold turnosEnRango; decidir).
  split.
  - destruct (reservarTurno_solapamiento false escenarioB "t2" "T1" (hora 10 59) psico "P"
                eq_refl eq_refl) as (Hiff & _ & _); [|exact Hrango|decidir|decidir|].
    { unfold turnosConTerapia. decidir. }
    apply Hiff. exists "t1", (turnoDe "T1" (hora 10 0) "confirmado"), (hora 10 0).
    split_and!; [reflexivity | discriminate | by left | reflexivity | reflexivity
                | vm_compute; reflexivity | vm_compute; reflexivity].
  - destruct (reservarTurno_solapamiento false escenarioB "t3" "T1" (hora 11 0) psico "P"
                eq_refl eq_refl) as (_ & _ & Hback); [|exact Hrango|decidir|decidir|].
    { unfold turnosConTerapia. decidir. }
    apply Hback; [|reflexivity].
    intros id' c f' Hl Hne Hv Hp Hf. unfold escenarioB in Hl. simpl in Hl.
    apply lookup_insert_Some in Hl as [[<- <-]|[_ Hl]].
    { injection Hf as <-. vm_compute. reflexivity. }
    apply lookup_insert_Some in Hl as [[<- <-]|[_ Hl]].
    { destruct Hv as [Hv|Hv]; discriminate Hv. }
    apply lookup_singleton_Some in Hl as [<- <-]. by destruct Hne.
Defined.

(** The holiday without its motivo: r1 matches, so the invocation is rejected
    and nothing is cancelled. *)
Lemma procesarSuspension_sin_motivo_witness :
  let res := procesarSuspension 10 (hora 8 0) (hora 8 1) escenarioA
               (Some feriadoSinMotivo) in
  escrituras res = [] ∧ almacen res = escenarioA ∧ rechazo res = true.
Proof.
  destruct (procesarSuspension_sin_motivo 10 (hora 8 0) (hora 8 1) escenarioA
              feriadoSinMotivo (hora 9 0) (hora 12 0) eq_refl eq_refl eq_refl eq_refl)
    as (Hw & Hs & Hrechazo).
  split_and!; [exact Hw | exact Hs |].
  apply Hrechazo.
  exists "r1", (reservaDe (Some "A1") (hora 10 0) 2 "confirmada").
  split_and!; [reflexivity | reflexivity | decidir | reflexivity].
Defined.
